(** * db-mcp-server: dialect-aware capability dispatch

    A shallow embedding of the tool handlers of [internal/delivery/mcp]
    (SQL execution, schema description, sampling, statistics) and of the
    connection registry of [pkg/dbtools], with the properties the
    specification states about them.

    Conventions of the embedding.
    - A Go [string] is a [string] of bytes.  [strings.ToUpper],
      [strings.ToLower] and [strings.TrimSpace] are embedded on ASCII
      text, where Go maps the letters a-z / A-Z byte by byte and strips
      the six ASCII white-space characters.  On text with a byte from
      0x80 on Go decodes runes and consults the Unicode tables (U+017F
      upper-cases to S, U+0130 lower-cases to i, U+00A0 is white space);
      those tables are outside the embedding.  Every property below that
      depends on how such a function treats text of the caller assumes
      [strings.isASCII] of that text.  The comparisons of a lower-cased
      dialect name with [postgres] and [mysql] need no such assumption:
      the only runes outside ASCII that lower-case into it give i and k,
      letters that neither name has.
    - A Go [error] is represented by its message.
    - The [UseCaseProvider] collaborator is a record of state transformers
      over an arbitrary world [W]; a handler runs in a state monad over the
      world and a log of the statements handed to the executor.
    - [logger.Info] / [logger.Warn] calls have no effect on the result and
      are left out. *)

From Stdlib Require Import ZArith String Ascii List Bool Lia DecimalString.
From stdpp Require Import gmap strings list.

Open Scope string_scope.

(** String concatenation reduces on a literal first operand. *)
#[global] Arguments String.append !_ _ / : simpl nomatch.

(* ================================================================= *)
(** ** Go's [strings] package, as far as the handlers use it *)

Module strings.

(** [utf8.RuneSelf]: the bytes below it are the ASCII characters. *)
Definition RuneSelf : nat := 128.

(** The test [ToUpper] and [ToLower] begin with, and the one the fast
    path of [TrimSpace] makes byte by byte: no byte of [s] is
    [>= utf8.RuneSelf]. *)
Fixpoint isASCII (s : string) : bool :=
  match s with
  | EmptyString => true
  | String c r => (nat_of_ascii c <? RuneSelf)%nat && isASCII r
  end.

Definition is_upper (c : ascii) : bool :=
  let n := nat_of_ascii c in (65 <=? n)%nat && (n <=? 90)%nat.

Definition is_lower (c : ascii) : bool :=
  let n := nat_of_ascii c in (97 <=? n)%nat && (n <=? 122)%nat.

Definition upper_char (c : ascii) : ascii :=
  if is_lower c then ascii_of_nat (nat_of_ascii c - 32) else c.

Definition lower_char (c : ascii) : ascii :=
  if is_upper c then ascii_of_nat (nat_of_ascii c + 32) else c.

Fixpoint map_chars (f : ascii → ascii) (s : string) : string :=
  match s with
  | EmptyString => EmptyString
  | String c r => String (f c) (map_chars f r)
  end.

(** [ToUpper] and [ToLower] on text that [isASCII]: the branch
    [if isASCII] of the Go functions.  Text with a byte from 0x80 on
    takes Go's other branch, [Map(unicode.ToUpper, s)], which is not
    embedded. *)
Definition ToUpper (s : string) : string := map_chars upper_char s.
Definition ToLower (s : string) : string := map_chars lower_char s.

(** [asciiSpace]: '\t', '\n', '\v', '\f', '\r' and ' '.  [TrimSpace]
    is Go's on text that [isASCII]; at a byte from 0x80 on Go falls
    back to [TrimFunc(s, unicode.IsSpace)], which is not embedded. *)
Definition is_space (c : ascii) : bool :=
  let n := nat_of_ascii c in
  ((9 <=? n)%nat && (n <=? 13)%nat) || (n =? 32)%nat.

Fixpoint TrimLeft (s : string) : string :=
  match s with
  | EmptyString => EmptyString
  | String c r => if is_space c then TrimLeft r else s
  end.

Fixpoint TrimRight (s : string) : string :=
  match s with
  | EmptyString => EmptyString
  | String c r =>
      match TrimRight r with
      | EmptyString => if is_space c then EmptyString else String c EmptyString
      | r' => String c r'
      end
  end.

Definition TrimSpace (s : string) : string := TrimRight (TrimLeft s).

(** [HasPrefix s prefix] *)
Fixpoint HasPrefix (s prefix : string) {struct prefix} : bool :=
  match prefix, s with
  | EmptyString, _ => true
  | String _ _, EmptyString => false
  | String p prefix', String c s' => Ascii.eqb c p && HasPrefix s' prefix'
  end.

(** [HasSuffix s suffix] *)
Fixpoint HasSuffix (s suffix : string) : bool :=
  String.eqb s suffix ||
  match s with
  | EmptyString => false
  | String _ s' => HasSuffix s' suffix
  end.

(** [Contains s substr] *)
Fixpoint Contains (s substr : string) : bool :=
  HasPrefix s substr ||
  match s with
  | EmptyString => false
  | String _ s' => Contains s' substr
  end.

(** [Replace s old new (-1)] for a non-empty [old]: every
    non-overlapping occurrence of [old], from the left, becomes [new].
    [skip] counts the bytes of a matched occurrence still to be dropped. *)
Fixpoint replace_from (skip : nat) (s old new : string) : string :=
  match s with
  | EmptyString => EmptyString
  | String c r =>
      match skip with
      | S k => replace_from k r old new
      | O =>
          if HasPrefix s old
          then new ++ replace_from (String.length old - 1) r old new
          else String c (replace_from 0 r old new)
      end
  end.

Definition ReplaceAll (s old new : string) : string :=
  replace_from 0 s old new.

End strings.

(* ================================================================= *)
(** ** Go's [fmt.Sprintf], for the plain verbs the handlers use *)

Module fmt.

Inductive arg : Type :=
| Str (s : string)      (* a string, or an error through its message *)
| Int (n : Z).

(** [%d] of an [int] *)
Definition decimal (n : Z) : string := NilZero.string_of_int (Z.to_int n).

Definition type_name (a : arg) : string :=
  match a with Str _ => "string" | Int _ => "int" end.

Definition default_format (a : arg) : string :=
  match a with Str s => s | Int n => decimal n end.

Definition pct : ascii := "%"%char.

(** One verb applied to one operand; a verb that does not fit the
    operand prints as [%!verb(type=value)]. *)
Definition format_verb (verb : ascii) (a : arg) : string :=
  let bad := "%!" ++ String verb ("(" ++ type_name a ++ "=" ++ default_format a ++ ")") in
  match a with
  | Str s =>
      if (Ascii.eqb verb "s" || Ascii.eqb verb "v" || Ascii.eqb verb "w")%bool
      then s else bad
  | Int n =>
      if (Ascii.eqb verb "d" || Ascii.eqb verb "v")%bool
      then decimal n else bad
  end.

Fixpoint extra_args (args : list arg) : string :=
  match args with
  | [] => EmptyString
  | [a] => type_name a ++ "=" ++ default_format a
  | a :: rest => type_name a ++ "=" ++ default_format a ++ ", " ++ extra_args rest
  end.

Fixpoint Sprintf (format : string) (args : list arg) : string :=
  match format with
  | EmptyString =>
      match args with
      | [] => EmptyString
      | _ => "%!(EXTRA " ++ extra_args args ++ ")"
      end
  | String c rest =>
      if Ascii.eqb c pct then
        match rest with
        | EmptyString => "%!(NOVERB)" ++ Sprintf rest args
        | String verb rest' =>
            if Ascii.eqb verb pct then String pct (Sprintf rest' args)
            else
              match args with
              | [] => "%!" ++ String verb ("(MISSING)" ++ Sprintf rest' [])
              | a :: args' => format_verb verb a ++ Sprintf rest' args'
              end
        end
      else String c (Sprintf rest args)
  end.

(** [fmt.Errorf]: the error whose message is the formatted text. *)
Definition Errorf (format : string) (args : list arg) : string :=
  Sprintf format args.

End fmt.



(* ================================================================= *)
(** ** The data of a tool call *)

Inductive result (A : Type) : Type :=
| Ok (a : A)
| Err (msg : string).
Arguments Ok {A} a.
Arguments Err {A} msg.

(** A decoded JSON value held in [request.Parameters].  A number is a
    [float64] in Go; the handlers only ever convert it with [int(...)],
    and the value is kept as the integer that conversion yields. *)
#[warnings="-register-all"]
Inductive value : Type :=
| VNil
| VBool (b : bool)
| VNumber (n : Z)
| VString (s : string)
| VArray (l : list value).

Record ToolCallRequest : Type := { Parameters : gmap string value }.

(** [request.Parameters[key]]: a missing key reads as [nil]. *)
Definition param (request : ToolCallRequest) (key : string) : value :=
  default VNil (Parameters request !! key).

Definition is_nil (v : value) : bool :=
  match v with VNil => true | _ => false end.

(** The type assertions [v.(string)], [v.(bool)], [v.(float64)] and
    [v.([]interface{})]. *)
Definition as_string (v : value) : option string :=
  match v with VString s => Some s | _ => None end.
Definition as_bool (v : value) : option bool :=
  match v with VBool b => Some b | _ => None end.
Definition as_float64 (v : value) : option Z :=
  match v with VNumber n => Some n | _ => None end.
Definition as_array (v : value) : option (list value) :=
  match v with VArray l => Some l | _ => None end.

(** The optional parameters all follow one pattern:
    [x := dflt; if p != nil { if y, ok := p.(T); ok { x = y } }]. *)
Definition optional {A} (cast : value → option A) (dflt : A) (v : value) : A :=
  if is_nil v then dflt else default dflt (cast v).

(** [createTextResponse] wraps the text of a successful call. *)
Inductive Response : Type :=
| TextResponse (text : string).

Definition createTextResponse (text : string) : Response := TextResponse text.

(* ================================================================= *)
(** ** The [UseCaseProvider] collaborator and the handler monad *)

Record UseCaseProvider (W : Type) : Type := {
  ExecuteQuery : string → string → list value → W → result string * W;
  ExecuteStatement : string → string → list value → W → result string * W;
  GetDatabaseInfo : string → W → result (gmap string value) * W;
  ListDatabases : W → list string * W;
  GetDatabaseType : string → W → result string * W
}.
Arguments ExecuteQuery {W} _ _ _ _ _.
Arguments ExecuteStatement {W} _ _ _ _ _.
Arguments GetDatabaseInfo {W} _ _ _.
Arguments ListDatabases {W} _ _.
Arguments GetDatabaseType {W} _ _ _.

Inductive ExecKind : Type := Query | Statement.

(** One statement handed to the executor. *)
Record Call : Type := {
  call_kind : ExecKind;
  call_db : string;
  call_sql : string;
  call_params : list value
}.

Record St (W : Type) : Type := {
  world : W;
  executed : list Call
}.
Arguments world {W} _.
Arguments executed {W} _.

Definition M (W A : Type) : Type := St W → A * St W.

#[global] Instance M_ret {W} : MRet (M W) := λ A a s, (a, s).
#[global] Instance M_bind {W} : MBind (M W) :=
  λ A B f m s, let '(a, s') := m s in f a s'.

Section Collaborator.
Context {W : Type} (useCase : UseCaseProvider W).

Definition lift {A} (f : W → A * W) : M W A :=
  λ s, let '(a, w) := f (world s) in
       (a, {| world := w; executed := executed s |}).

Definition record (c : Call) : M W unit :=
  λ s, (tt, {| world := world s; executed := executed s ++ [c] |}).

Definition getDatabaseType (dbID : string) : M W (result string) :=
  lift (GetDatabaseType useCase dbID).

Definition getDatabaseInfo (dbID : string) : M W (result (gmap string value)) :=
  lift (GetDatabaseInfo useCase dbID).

Definition listDatabases : M W (list string) :=
  lift (ListDatabases useCase).

Definition executeQuery (dbID query : string) (params : list value)
  : M W (result string) :=
  _ ← record {| call_kind := Query; call_db := dbID;
                call_sql := query; call_params := params |};
  lift (ExecuteQuery useCase dbID query params).

Definition executeStatement (dbID statement : string) (params : list value)
  : M W (result string) :=
  _ ← record {| call_kind := Statement; call_db := dbID;
                call_sql := statement; call_params := params |};
  lift (ExecuteStatement useCase dbID statement params).
End Collaborator.

Definition is_empty (s : string) : bool :=
  match s with EmptyString => true | _ => false end.

(** The one-character strings the builders escape with. *)
Definition dquote : string := String "034"%char EmptyString.
Definition backtick : string := "`".
Definition squote : string := "'".

(* ================================================================= *)
(** ** db_stats_tool.go *)

Definition getPostgresStatsQueries (detailed : bool) : list string :=
  let queries := [
    "SELECT pg_size_pretty(pg_database_size(current_database())) AS database_size;";
    "SELECT 
			count(*) AS total_connections,
			sum(CASE WHEN state = 'active' THEN 1 ELSE 0 END) AS active_connections,
			sum(CASE WHEN state = 'idle' THEN 1 ELSE 0 END) AS idle_connections
		FROM pg_stat_activity;";
    "SELECT 
			schemaname, 
			relname AS table_name, 
			pg_size_pretty(pg_total_relation_size(relid)) AS total_size,
			pg_size_pretty(pg_relation_size(relid)) AS table_size,
			pg_size_pretty(pg_total_relation_size(relid) - pg_relation_size(relid)) AS index_size,
			n_live_tup AS row_count
		FROM pg_stat_user_tables
		ORDER BY pg_total_relation_size(relid) DESC
		LIMIT 10;"
  ] in
  if detailed then
    let detailedQueries := [
      "SELECT 
				schemaname,
				relname AS table_name,
				indexrelname AS index_name,
				idx_scan AS index_scans,
				idx_tup_read AS tuples_read,
				idx_tup_fetch AS tuples_fetched
			FROM pg_stat_user_indexes
			ORDER BY idx_scan DESC
			LIMIT 10;";
      "SELECT 
				c.relname AS table_name,
				pg_size_pretty(count(*) * 8192) AS buffer_size,
				round(100.0 * count(*) / (SELECT setting::integer FROM pg_settings WHERE name = 'shared_buffers'), 2) AS buffer_percent
			FROM pg_class c
			INNER JOIN pg_buffercache b ON b.relfilenode = c.relfilenode
			INNER JOIN pg_database d ON (b.reldatabase = d.oid AND d.datname = current_database())
			WHERE c.relkind IN ('r', 't', 'm')
			GROUP BY c.relname
			ORDER BY count(*) DESC
			LIMIT 10;";
      "SELECT 
				datname,
				xact_commit AS commits,
				xact_rollback AS rollbacks,
				blks_read,
				blks_hit,
				tup_returned,
				tup_fetched,
				tup_inserted,
				tup_updated,
				tup_deleted
			FROM pg_stat_database
			WHERE datname = current_database();"
    ] in
    queries ++ detailedQueries
  else queries.

Definition getMySQLStatsQueries (detailed : bool) : list string :=
  let queries := [
    "SELECT 
			table_schema AS database_name,
			ROUND(SUM(data_length + index_length) / 1024 / 1024, 2) AS size_mb
		FROM information_schema.tables
		WHERE table_schema = DATABASE()
		GROUP BY table_schema;";
    "SHOW STATUS WHERE Variable_name IN ('Threads_connected', 'Threads_running', 'Max_used_connections');";
    "SELECT 
			table_name,
			engine,
			table_rows,
			ROUND((data_length + index_length) / 1024 / 1024, 2) AS size_mb,
			ROUND(data_length / 1024 / 1024, 2) AS data_size_mb,
			ROUND(index_length / 1024 / 1024, 2) AS index_size_mb
		FROM information_schema.tables
		WHERE table_schema = DATABASE()
		ORDER BY (data_length + index_length) DESC
		LIMIT 10;"
  ] in
  if detailed then
    let detailedQueries := [
      "SHOW GLOBAL STATUS WHERE Variable_name LIKE 'Innodb_buffer_pool%';";
      "SHOW GLOBAL STATUS WHERE Variable_name LIKE 'Qcache%';";
      "SELECT 
				table_schema,
				table_name,
				rows_read,
				rows_inserted,
				rows_updated,
				rows_deleted
			FROM information_schema.table_statistics
			WHERE table_schema = DATABASE()
			ORDER BY rows_read DESC
			LIMIT 10;";
      "SELECT 
				table_schema,
				table_name,
				index_name,
				rows_read
			FROM information_schema.index_statistics
			WHERE table_schema = DATABASE()
			ORDER BY rows_read DESC
			LIMIT 10;"
    ] in
    queries ++ detailedQueries
  else queries.

(** The loop shared, statement for statement, by the two statistics
    handlers: run each query, append its result or an inline error. *)
Fixpoint executeEach {W} (useCase : UseCaseProvider W) (targetDbID : string)
    (queries : list string) (results : string) : M W string :=
  match queries with
  | [] => mret results
  | query :: rest =>
      r ← executeQuery useCase targetDbID query [];
      match r with
      | Err err =>
          executeEach useCase targetDbID rest
            (results ++ fmt.Sprintf "Error executing query: %s
%v

" [fmt.Str query; fmt.Str err])
      | Ok result =>
          executeEach useCase targetDbID rest
            ((results ++ result) ++ "

")
      end
  end.

Module DbStatsTool.
Definition HandleRequest {W} (useCase : UseCaseProvider W)
    (request : ToolCallRequest) : M W (result Response) :=
  match as_string (param request "database") with
  | None => mret (Err (fmt.Errorf "database parameter must be a string" []))
  | Some targetDbID =>
      let detailed := optional as_bool false (param request "detailed") in
      t ← getDatabaseType useCase targetDbID;
      match t with
      | Err err =>
          mret (Err (fmt.Errorf "failed to get database type: %w" [fmt.Str err]))
      | Ok dbType =>
          let lowered := strings.ToLower dbType in
          let run (queries : list string) : M W (result Response) :=
            results ← executeEach useCase targetDbID queries
              (fmt.Sprintf "# Database Statistics for %s (%s)

" [fmt.Str targetDbID; fmt.Str dbType]);
            mret (Ok (createTextResponse results)) in
          if String.eqb lowered "postgres" then run (getPostgresStatsQueries detailed)
          else if String.eqb lowered "mysql" then run (getMySQLStatsQueries detailed)
          else mret (Err (fmt.Errorf "unsupported database type for statistics: %s"
                            [fmt.Str dbType]))
      end
  end.
End DbStatsTool.

(* ================================================================= *)
(** ** table_stats_tool.go *)

Definition getPostgresTableStatsQueries (tableName : string) (detailed : bool)
  : list string :=
  let safeTableName := strings.ReplaceAll tableName "'" "''" in
  let t := fmt.Str safeTableName in
  let queries := [
    fmt.Sprintf "SELECT 
			pg_size_pretty(pg_total_relation_size('%s')) AS total_size,
			pg_size_pretty(pg_relation_size('%s')) AS table_size,
			pg_size_pretty(pg_total_relation_size('%s') - pg_relation_size('%s')) AS index_size,
			n_live_tup AS row_count,
			n_dead_tup AS dead_tuples
		FROM pg_stat_user_tables
		WHERE relname = '%s';" [t; t; t; t; t];
    fmt.Sprintf "SELECT 
			a.attname AS column_name,
			pg_catalog.format_type(a.atttypid, a.atttypmod) AS data_type,
			CASE WHEN a.attnotnull THEN 'NOT NULL' ELSE 'NULL' END AS nullable,
			CASE WHEN (
				SELECT COUNT(*) FROM pg_constraint
				WHERE conrelid = a.attrelid
				AND conkey[1] = a.attnum
				AND contype = 'p'
			) > 0 THEN 'PK' ELSE '' END AS is_primary_key
		FROM pg_catalog.pg_attribute a
		JOIN pg_catalog.pg_class c ON a.attrelid = c.oid
		JOIN pg_catalog.pg_namespace n ON c.relnamespace = n.oid
		WHERE c.relname = '%s'
		AND a.attnum > 0
		AND NOT a.attisdropped
		AND n.nspname = 'public'
		ORDER BY a.attnum;" [t];
    fmt.Sprintf "SELECT 
			i.relname AS index_name,
			pg_size_pretty(pg_relation_size(i.relname::regclass)) AS index_size,
			idx_scan AS index_scans,
			idx_tup_read AS tuples_read,
			idx_tup_fetch AS tuples_fetched,
			a.amname AS index_type,
			array_to_string(array_agg(pg_catalog.pg_get_indexdef(idx.indexrelid, k + 1, true)), ', ') AS column_names
		FROM pg_stat_user_indexes ui
		JOIN pg_index idx ON ui.indexrelid = idx.indexrelid
		JOIN pg_class i ON idx.indexrelid = i.oid
		JOIN pg_class c ON idx.indrelid = c.oid
		JOIN pg_am a ON i.relam = a.oid
		JOIN pg_namespace n ON c.relnamespace = n.oid,
		generate_series(0, subarray(idx.indkey, 0, idx.indnkeyatts)::int[] - 1) AS k
		WHERE c.relname = '%s'
		AND n.nspname = 'public'
		GROUP BY i.relname, ui.idx_scan, ui.idx_tup_read, ui.idx_tup_fetch, a.amname
		ORDER BY i.relname;" [t]
  ] in
  if detailed then
    let detailedQueries := [
      fmt.Sprintf "SELECT 
				seq_scan AS sequential_scans,
				seq_tup_read AS sequential_tuples_read,
				idx_scan AS index_scans,
				idx_tup_fetch AS index_tuples_fetched,
				n_tup_ins AS tuples_inserted,
				n_tup_upd AS tuples_updated,
				n_tup_del AS tuples_deleted,
				n_tup_hot_upd AS hot_updates,
				n_live_tup AS live_tuples,
				n_dead_tup AS dead_tuples,
				vacuum_count,
				autovacuum_count,
				analyze_count,
				autoanalyze_count
			FROM pg_stat_user_tables
			WHERE relname = '%s';" [t];
      fmt.Sprintf "SELECT 
				current_database() AS db, schemaname, tblname, 
				bs*tblpages AS real_size,
				(tblpages-est_tblpages)*bs AS extra_size,
				CASE WHEN tblpages > 0
					THEN 100 * (tblpages-est_tblpages)/tblpages::float
					ELSE 0
				END AS extra_ratio, fillfactor,
				CASE WHEN tblpages > 0 AND tblpages-est_tblpages > 0
					THEN (bs*(tblpages-est_tblpages)/(tblpages)::float)
					ELSE 0
				END AS bloat_size,
				CASE WHEN tblpages > 0 AND tblpages-est_tblpages > 0
					THEN pg_size_pretty((bs*(tblpages-est_tblpages))::bigint)
					ELSE ''
				END AS bloat_size_pretty,
				is_na
			FROM (
				SELECT
					ceil(reltuples/((bs-page_hdr)/tpl_size)) + ceil(toasttuples/4) AS est_tblpages,
					tblpages, fillfactor, bs, tblid, schemaname, tblname, heappages, toastpages, is_na
				FROM (
					SELECT
						( 4 + tpl_hdr_size + tpl_data_size + (2*ma)
							- CASE WHEN tpl_hdr_size%ma = 0 THEN ma ELSE tpl_hdr_size%ma END
							- CASE WHEN ceil(tpl_data_size)::int%ma = 0 THEN ma ELSE ceil(tpl_data_size)::int%ma END
						) AS tpl_size, bs - page_hdr AS size_per_block, (heappages + toastpages) AS tblpages, heappages,
						toastpages, reltuples, toasttuples, bs, page_hdr, tblid, schemaname, tblname, fillfactor, is_na
					FROM (
						SELECT
							tbl.oid AS tblid, ns.nspname AS schemaname, tbl.relname AS tblname, tbl.reltuples,
							tbl.relpages AS heappages, coalesce(toast.relpages, 0) AS toastpages,
							coalesce(toast.reltuples, 0) AS toasttuples,
							coalesce(substring(
								array_to_string(tbl.reloptions, ' ')
								FROM 'fillfactor=([0-9]+)')::smallint, 100) AS fillfactor,
							current_setting('block_size')::numeric AS bs,
							CASE WHEN version()~'mingw32' OR version()~'64-bit|x86_64|ppc64|ia64|amd64' THEN 8 ELSE 4 END AS ma,
							24 AS page_hdr,
							23 + CASE WHEN MAX(coalesce(s.null_frac,0)) > 0 THEN ( 7 + count(*) ) / 8 ELSE 0::int END
								+ CASE WHEN tbl.relhasoids THEN 4 ELSE 0 END AS tpl_hdr_size,
							sum( (1-coalesce(s.null_frac, 0)) * coalesce(s.avg_width, 1024) ) AS tpl_data_size,
							bool_or(att.atttypid = 'pg_catalog.name'::regtype) AS is_na
						FROM pg_attribute AS att
							JOIN pg_class AS tbl ON att.attrelid = tbl.oid
							JOIN pg_namespace AS ns ON ns.oid = tbl.relnamespace
							LEFT JOIN pg_stats AS s ON s.schemaname=ns.nspname
								AND s.tablename = tbl.relname AND s.inherited=false AND s.attname=att.attname
							LEFT JOIN pg_class AS toast ON tbl.reltoastrelid = toast.oid
						WHERE NOT att.attisdropped
							AND tbl.relkind = 'r'
							AND ns.nspname = 'public'
							AND tbl.relname = '%s'
						GROUP BY 1,2,3,4,5,6,7,8,9,10
					) AS s
				) AS s2
			) AS s3;" [t]
    ] in
    queries ++ detailedQueries
  else queries.

Definition getMySQLTableStatsQueries (tableName : string) (detailed : bool)
  : list string :=
  let safeTableName := strings.ReplaceAll tableName "`" "``" in
  let t := fmt.Str safeTableName in
  let queries := [
    fmt.Sprintf "SELECT 
			table_name,
			engine,
			table_rows,
			avg_row_length,
			ROUND(data_length / 1024 / 1024, 2) AS data_size_mb,
			ROUND(index_length / 1024 / 1024, 2) AS index_size_mb,
			ROUND((data_length + index_length) / 1024 / 1024, 2) AS total_size_mb
		FROM information_schema.tables
		WHERE table_schema = DATABASE()
		AND table_name = '%s';" [t];
    fmt.Sprintf "SELECT 
			column_name,
			column_type,
			is_nullable,
			column_key,
			column_default,
			extra
		FROM information_schema.columns
		WHERE table_schema = DATABASE()
		AND table_name = '%s'
		ORDER BY ordinal_position;" [t];
    fmt.Sprintf "SELECT 
			index_name,
			column_name,
			seq_in_index,
			non_unique,
			CASE 
				WHEN index_type = 'FULLTEXT' THEN 'FULLTEXT'
				WHEN index_name = 'PRIMARY' THEN 'PRIMARY'
				WHEN non_unique = 0 THEN 'UNIQUE'
				ELSE 'INDEX'
			END AS index_type
		FROM information_schema.statistics
		WHERE table_schema = DATABASE()
		AND table_name = '%s'
		ORDER BY index_name, seq_in_index;" [t]
  ] in
  if detailed then
    let detailedQueries := [
      fmt.Sprintf "SHOW TABLE STATUS LIKE '%s';" [t];
      fmt.Sprintf "SELECT 
				index_name,
				stat_name,
				stat_value
			FROM mysql.index_stats
			WHERE table_name = '%s'
			ORDER BY index_name, stat_name;" [t];
      fmt.Sprintf "SELECT 
				table_schema,
				table_name,
				rows_read,
				rows_inserted,
				rows_updated,
				rows_deleted
			FROM information_schema.table_statistics
			WHERE table_schema = DATABASE()
			AND table_name = '%s';" [t]
    ] in
    queries ++ detailedQueries
  else queries.

Module TableStatsTool.
Definition HandleRequest {W} (useCase : UseCaseProvider W)
    (request : ToolCallRequest) : M W (result Response) :=
  match as_string (param request "database") with
  | None => mret (Err (fmt.Errorf "database parameter must be a string" []))
  | Some targetDbID =>
  match as_string (param request "table") with
  | None => mret (Err (fmt.Errorf "table parameter must be a string" []))
  | Some tableName =>
      let detailed := optional as_bool false (param request "detailed") in
      t ← getDatabaseType useCase targetDbID;
      match t with
      | Err err =>
          mret (Err (fmt.Errorf "failed to get database type: %w" [fmt.Str err]))
      | Ok dbType =>
          let lowered := strings.ToLower dbType in
          let run (queries : list string) : M W (result Response) :=
            results ← executeEach useCase targetDbID queries
              (fmt.Sprintf "# Table Statistics for %s.%s

" [fmt.Str targetDbID; fmt.Str tableName]);
            mret (Ok (createTextResponse results)) in
          if String.eqb lowered "postgres"
          then run (getPostgresTableStatsQueries tableName detailed)
          else if String.eqb lowered "mysql"
          then run (getMySQLTableStatsQueries tableName detailed)
          else mret (Err (fmt.Errorf "unsupported database type for table statistics: %s"
                            [fmt.Str dbType]))
      end
  end
  end.
End TableStatsTool.

(* ================================================================= *)
(** ** get_indexes_tool.go *)

Definition getPostgresIndexesQuery (tableName : string) (detailed : bool) : string :=
  let baseQuery := "
SELECT 
    t.relname AS table_name,
    i.relname AS index_name,
    a.amname AS index_type,
    CASE 
        WHEN ix.indisprimary THEN 'PRIMARY KEY'
        WHEN ix.indisunique THEN 'UNIQUE'
        ELSE 'INDEX'
    END AS constraint_type,
    array_to_string(array_agg(pg_get_indexdef(ix.indexrelid, k + 1, true)), ', ') AS column_names" in
  let baseQuery := if detailed then baseQuery ++ ",
    pg_size_pretty(pg_relation_size(i.oid)) AS index_size,
    pg_get_indexdef(ix.indexrelid) AS index_definition,
    CASE WHEN ix.indpred IS NOT NULL THEN 'Yes' ELSE 'No' END AS is_partial,
    CASE WHEN a.amname = 'btree' AND ix.indoption[0] & 1 = 1 THEN 'DESC' ELSE 'ASC' END AS sort_order" else baseQuery in
  let baseQuery := baseQuery ++ "
FROM pg_index ix
JOIN pg_class i ON i.oid = ix.indexrelid
JOIN pg_class t ON t.oid = ix.indrelid
JOIN pg_namespace n ON n.oid = t.relnamespace
JOIN pg_am a ON a.oid = i.relam,
generate_series(0, array_length(ix.indkey, 1) - 1) AS k
WHERE n.nspname = 'public'" in
  let baseQuery :=
    if negb (is_empty tableName) then
      let safeTableName := strings.ReplaceAll tableName "'" "''" in
      baseQuery ++ fmt.Sprintf " AND t.relname = '%s'" [fmt.Str safeTableName]
    else baseQuery in
  let baseQuery := baseQuery ++ "
GROUP BY t.relname, i.relname, a.amname, ix.indisprimary, ix.indisunique" in
  let baseQuery := if detailed then baseQuery ++ ", i.oid, ix.indexrelid, ix.indpred, a.amname, ix.indoption" else baseQuery in
  baseQuery ++ "
ORDER BY t.relname, i.relname;".

Definition getMySQLIndexesQuery (tableName : string) (detailed : bool) : string :=
  let baseQuery := "
SELECT 
    table_name,
    index_name,
    GROUP_CONCAT(column_name ORDER BY seq_in_index) AS column_names,
    CASE 
        WHEN index_name = 'PRIMARY' THEN 'PRIMARY KEY'
        WHEN non_unique = 0 THEN 'UNIQUE'
        ELSE 'INDEX'
    END AS constraint_type,
    index_type" in
  let baseQuery := if detailed then baseQuery ++ ",
    CASE WHEN index_name = 'PRIMARY' THEN 'YES' ELSE 'NO' END AS is_primary,
    CASE WHEN non_unique = 0 THEN 'YES' ELSE 'NO' END AS is_unique,
    CASE WHEN index_type = 'FULLTEXT' THEN 'YES' ELSE 'NO' END AS is_fulltext,
    CASE WHEN index_comment != '' THEN index_comment ELSE NULL END AS comment" else baseQuery in
  let baseQuery := baseQuery ++ "
FROM information_schema.statistics
WHERE table_schema = DATABASE()" in
  let baseQuery :=
    if negb (is_empty tableName) then
      let safeTableName := strings.ReplaceAll tableName "`" "``" in
      baseQuery ++ fmt.Sprintf " AND table_name = '%s'" [fmt.Str safeTableName]
    else baseQuery in
  let baseQuery := baseQuery ++ "
GROUP BY table_name, index_name, non_unique, index_type" in
  let baseQuery := if detailed then baseQuery ++ ", index_comment" else baseQuery in
  baseQuery ++ "
ORDER BY table_name, index_name;".

Module GetIndexesTool.
Definition HandleRequest {W} (useCase : UseCaseProvider W)
    (request : ToolCallRequest) : M W (result Response) :=
  match as_string (param request "database") with
  | None => mret (Err (fmt.Errorf "database parameter must be a string" []))
  | Some targetDbID =>
      let tableName := optional as_string EmptyString (param request "table") in
      let detailed := optional as_bool false (param request "detailed") in
      t ← getDatabaseType useCase targetDbID;
      match t with
      | Err err =>
          mret (Err (fmt.Errorf "failed to get database type: %w" [fmt.Str err]))
      | Ok dbType =>
          let lowered := strings.ToLower dbType in
          let run (query : string) : M W (result Response) :=
            r ← executeQuery useCase targetDbID query [];
            match r with
            | Err err =>
                mret (Err (fmt.Errorf "failed to get indexes: %w" [fmt.Str err]))
            | Ok result =>
                let heading :=
                  if is_empty tableName
                  then fmt.Sprintf "# All Indexes in Database %s

" [fmt.Str targetDbID]
                  else fmt.Sprintf "# Indexes for Table %s in Database %s

" [fmt.Str tableName; fmt.Str targetDbID] in
                mret (Ok (createTextResponse (heading ++ result)))
            end in
          if String.eqb lowered "postgres"
          then run (getPostgresIndexesQuery tableName detailed)
          else if String.eqb lowered "mysql"
          then run (getMySQLIndexesQuery tableName detailed)
          else mret (Err (fmt.Errorf "unsupported database type for indexes: %s"
                            [fmt.Str dbType]))
      end
  end.
End GetIndexesTool.

(* ================================================================= *)
(** ** get_constraints_tool.go *)

Definition getPostgresConstraintsQuery (tableName constraintType : string) : string :=
  let baseQuery := "
SELECT 
    tc.table_schema,
    tc.table_name,
    tc.constraint_name,
    tc.constraint_type,
    CASE 
        WHEN tc.constraint_type = 'FOREIGN KEY' THEN ccu.table_name
        ELSE NULL
    END AS referenced_table,
    CASE 
        WHEN tc.constraint_type = 'FOREIGN KEY' THEN 
            string_agg(kcu.column_name, ', ' ORDER BY kcu.ordinal_position)
        ELSE 
            string_agg(kcu.column_name, ', ' ORDER BY kcu.ordinal_position)
    END AS column_names,
    CASE 
        WHEN tc.constraint_type = 'FOREIGN KEY' THEN 
            string_agg(ccu.column_name, ', ' ORDER BY kcu.ordinal_position)
        ELSE NULL
    END AS referenced_columns,
    CASE 
        WHEN tc.constraint_type = 'CHECK' THEN pgc.consrc
        ELSE NULL
    END AS check_definition
FROM information_schema.table_constraints tc
JOIN information_schema.key_column_usage kcu
    ON tc.constraint_name = kcu.constraint_name
    AND tc.table_schema = kcu.table_schema
LEFT JOIN information_schema.constraint_column_usage ccu
    ON ccu.constraint_name = tc.constraint_name
    AND ccu.table_schema = tc.table_schema
LEFT JOIN pg_constraint pgc
    ON pgc.conname = tc.constraint_name
LEFT JOIN pg_namespace nsp
    ON nsp.nspname = tc.table_schema
    AND pgc.connamespace = nsp.oid
WHERE tc.table_schema = 'public'" in
  let baseQuery :=
    if negb (is_empty tableName) then
      let safeTableName := strings.ReplaceAll tableName "'" "''" in
      baseQuery ++ fmt.Sprintf " AND tc.table_name = '%s'" [fmt.Str safeTableName]
    else baseQuery in
  let baseQuery :=
    if negb (is_empty constraintType) then
      let safeConstraintType := strings.ReplaceAll constraintType "'" "''" in
      baseQuery ++ fmt.Sprintf " AND tc.constraint_type = '%s'" [fmt.Str safeConstraintType]
    else baseQuery in
  baseQuery ++ "
GROUP BY tc.table_schema, tc.table_name, tc.constraint_name, tc.constraint_type, 
    CASE WHEN tc.constraint_type = 'FOREIGN KEY' THEN ccu.table_name ELSE NULL END,
    CASE WHEN tc.constraint_type = 'CHECK' THEN pgc.consrc ELSE NULL END
ORDER BY tc.table_name, tc.constraint_name;".

(** The switch on [strings.ToUpper(constraintType)] is the code's for a
    constraint type that [strings.isASCII]. *)
Definition getMySQLConstraintsQuery (tableName constraintType : string) : string :=
  let baseQuery := "
SELECT 
    tc.table_schema,
    tc.table_name,
    tc.constraint_name,
    CASE 
        WHEN tc.constraint_type = 'PRIMARY KEY' THEN 'PRIMARY KEY'
        WHEN tc.constraint_type = 'UNIQUE' THEN 'UNIQUE'
        WHEN tc.constraint_type = 'FOREIGN KEY' THEN 'FOREIGN KEY'
        ELSE tc.constraint_type
    END AS constraint_type,
    GROUP_CONCAT(kcu.column_name ORDER BY kcu.ordinal_position) AS column_names,
    kcu.referenced_table_name AS referenced_table,
    GROUP_CONCAT(kcu.referenced_column_name ORDER BY kcu.ordinal_position) AS referenced_columns
FROM information_schema.table_constraints tc
JOIN information_schema.key_column_usage kcu
    ON tc.constraint_name = kcu.constraint_name
    AND tc.table_schema = kcu.table_schema
    AND tc.table_name = kcu.table_name
WHERE tc.table_schema = DATABASE()" in
  let baseQuery :=
    if negb (is_empty tableName) then
      let safeTableName := strings.ReplaceAll tableName "`" "``" in
      baseQuery ++ fmt.Sprintf " AND tc.table_name = '%s'" [fmt.Str safeTableName]
    else baseQuery in
  let baseQuery :=
    if negb (is_empty constraintType) then
      let upper := strings.ToUpper constraintType in
      let mysqlConstraintType :=
        if String.eqb upper "PRIMARY KEY" then "PRIMARY KEY"
        else if String.eqb upper "FOREIGN KEY" then "FOREIGN KEY"
        else if String.eqb upper "UNIQUE" then "UNIQUE"
        else constraintType in
      let safeConstraintType := strings.ReplaceAll mysqlConstraintType "'" "''" in
      baseQuery ++ fmt.Sprintf " AND tc.constraint_type = '%s'" [fmt.Str safeConstraintType]
    else baseQuery in
  baseQuery ++ "
GROUP BY tc.table_schema, tc.table_name, tc.constraint_name, tc.constraint_type, kcu.referenced_table_name
ORDER BY tc.table_name, tc.constraint_name;".

Module GetConstraintsTool.
Definition HandleRequest {W} (useCase : UseCaseProvider W)
    (request : ToolCallRequest) : M W (result Response) :=
  match as_string (param request "database") with
  | None => mret (Err (fmt.Errorf "database parameter must be a string" []))
  | Some targetDbID =>
      let tableName := optional as_string EmptyString (param request "table") in
      let constraintType :=
        optional as_string EmptyString (param request "constraint_type") in
      t ← getDatabaseType useCase targetDbID;
      match t with
      | Err err =>
          mret (Err (fmt.Errorf "failed to get database type: %w" [fmt.Str err]))
      | Ok dbType =>
          let lowered := strings.ToLower dbType in
          let run (query : string) : M W (result Response) :=
            r ← executeQuery useCase targetDbID query [];
            match r with
            | Err err =>
                mret (Err (fmt.Errorf "failed to get constraints: %w" [fmt.Str err]))
            | Ok result =>
                let heading :=
                  if is_empty tableName then
                    if is_empty constraintType
                    then fmt.Sprintf "# All Constraints in Database %s

" [fmt.Str targetDbID]
                    else fmt.Sprintf "# %s Constraints in Database %s

" [fmt.Str constraintType; fmt.Str targetDbID]
                  else
                    if is_empty constraintType
                    then fmt.Sprintf "# All Constraints for Table %s in Database %s

" [fmt.Str tableName; fmt.Str targetDbID]
                    else fmt.Sprintf "# %s Constraints for Table %s in Database %s

" [fmt.Str constraintType; fmt.Str tableName; fmt.Str targetDbID] in
                mret (Ok (createTextResponse (heading ++ result)))
            end in
          if String.eqb lowered "postgres"
          then run (getPostgresConstraintsQuery tableName constraintType)
          else if String.eqb lowered "mysql"
          then run (getMySQLConstraintsQuery tableName constraintType)
          else mret (Err (fmt.Errorf "unsupported database type for constraints: %s"
                            [fmt.Str dbType]))
      end
  end.
End GetConstraintsTool.

(* ================================================================= *)
(** ** get_views_tool.go *)

Definition getPostgresViewsQuery (viewName : string) (includeDefinition : bool) : string :=
  let baseQuery := "
SELECT 
    schemaname AS schema_name,
    viewname AS view_name,
    definition AS view_definition
FROM pg_catalog.pg_views
WHERE schemaname NOT IN ('pg_catalog', 'information_schema')" in
  let baseQuery :=
    if negb (is_empty viewName) then
      let safeViewName := strings.ReplaceAll viewName "'" "''" in
      baseQuery ++ fmt.Sprintf " AND viewname = '%s'" [fmt.Str safeViewName]
    else baseQuery in
  let baseQuery := baseQuery ++ "
ORDER BY schemaname, viewname;" in
  if negb includeDefinition then
    let baseQuery := "
SELECT 
    schemaname AS schema_name,
    viewname AS view_name,
    'Definition not included' AS view_definition
FROM pg_catalog.pg_views
WHERE schemaname NOT IN ('pg_catalog', 'information_schema')" in
    let baseQuery :=
      if negb (is_empty viewName) then
        let safeViewName := strings.ReplaceAll viewName "'" "''" in
        baseQuery ++ fmt.Sprintf " AND viewname = '%s'" [fmt.Str safeViewName]
      else baseQuery in
    baseQuery ++ "
ORDER BY schemaname, viewname;"
  else baseQuery.

Definition getMySQLViewsQuery (viewName : string) (includeDefinition : bool) : string :=
  let baseQuery := "
SELECT 
    table_schema AS schema_name,
    table_name AS view_name" in
  let baseQuery :=
    if includeDefinition
    then baseQuery ++ ",
    view_definition"
    else baseQuery ++ ",
    'Definition not included' AS view_definition" in
  let baseQuery := baseQuery ++ "
FROM information_schema.views
WHERE table_schema = DATABASE()" in
  let baseQuery :=
    if negb (is_empty viewName) then
      let safeViewName := strings.ReplaceAll viewName "`" "``" in
      baseQuery ++ fmt.Sprintf " AND table_name = '%s'" [fmt.Str safeViewName]
    else baseQuery in
  baseQuery ++ "
ORDER BY table_schema, table_name;".

Module GetViewsTool.
Definition HandleRequest {W} (useCase : UseCaseProvider W)
    (request : ToolCallRequest) : M W (result Response) :=
  match as_string (param request "database") with
  | None => mret (Err (fmt.Errorf "database parameter must be a string" []))
  | Some targetDbID =>
      let viewName := optional as_string EmptyString (param request "view") in
      let includeDefinition :=
        optional as_bool true (param request "include_definition") in
      t ← getDatabaseType useCase targetDbID;
      match t with
      | Err err =>
          mret (Err (fmt.Errorf "failed to get database type: %w" [fmt.Str err]))
      | Ok dbType =>
          let lowered := strings.ToLower dbType in
          let run (query : string) : M W (result Response) :=
            r ← executeQuery useCase targetDbID query [];
            match r with
            | Err err =>
                mret (Err (fmt.Errorf "failed to get views: %w" [fmt.Str err]))
            | Ok result =>
                let heading :=
                  if is_empty viewName
                  then fmt.Sprintf "# All Views in Database %s

" [fmt.Str targetDbID]
                  else fmt.Sprintf "# View Definition for %s in Database %s

" [fmt.Str viewName; fmt.Str targetDbID] in
                mret (Ok (createTextResponse (heading ++ result)))
            end in
          if String.eqb lowered "postgres"
          then run (getPostgresViewsQuery viewName includeDefinition)
          else if String.eqb lowered "mysql"
          then run (getMySQLViewsQuery viewName includeDefinition)
          else mret (Err (fmt.Errorf "unsupported database type for views: %s"
                            [fmt.Str dbType]))
      end
  end.
End GetViewsTool.

(* ================================================================= *)
(** ** get_types_tool.go *)

Definition getPostgresTypesQuery (typeName : string) : string :=
  let baseQuery := "
SELECT 
    n.nspname AS schema_name,
    t.typname AS type_name,
    CASE 
        WHEN t.typtype = 'e' THEN 'ENUM'
        WHEN t.typtype = 'c' THEN 'COMPOSITE'
        WHEN t.typtype = 'd' THEN 'DOMAIN'
        WHEN t.typtype = 'r' THEN 'RANGE'
        WHEN t.typtype = 'b' THEN 'BASE'
        ELSE t.typtype::text
    END AS type_category,
    CASE
        WHEN t.typtype = 'e' THEN 
            (SELECT string_agg(quote_literal(enumlabel), ', ' ORDER BY enumsortorder)
             FROM pg_enum
             WHERE enumtypid = t.oid)
        WHEN t.typtype = 'c' THEN 
            (SELECT string_agg(attname || ' ' || format_type(atttypid, atttypmod), ', ' ORDER BY attnum)
             FROM pg_attribute
             WHERE attrelid = t.typrelid AND attnum > 0 AND NOT attisdropped)
        WHEN t.typtype = 'd' THEN 
            format_type(t.typbasetype, t.typtypmod) || 
            CASE WHEN t.typnotnull THEN ' NOT NULL' ELSE '' END ||
            CASE WHEN t.typdefault IS NOT NULL THEN ' DEFAULT ' || t.typdefault ELSE '' END
        WHEN t.typtype = 'r' THEN 
            (SELECT format_type(rngsubtype, NULL) FROM pg_range WHERE rngtypid = t.oid)
        ELSE format_type(t.oid, NULL)
    END AS type_definition,
    pg_catalog.obj_description(t.oid, 'pg_type') AS description
FROM pg_type t
JOIN pg_namespace n ON t.typnamespace = n.oid
WHERE (t.typtype IN ('e', 'c', 'd', 'r') OR (t.typtype = 'b' AND t.typname NOT LIKE '\\_%'))
AND n.nspname NOT IN ('pg_catalog', 'information_schema')" in
  let baseQuery :=
    if negb (is_empty typeName) then
      let safeTypeName := strings.ReplaceAll typeName "'" "''" in
      baseQuery ++ fmt.Sprintf " AND t.typname = '%s'" [fmt.Str safeTypeName]
    else baseQuery in
  baseQuery ++ "
ORDER BY n.nspname, t.typname;".

Module GetTypesTool.
Definition HandleRequest {W} (useCase : UseCaseProvider W)
    (request : ToolCallRequest) : M W (result Response) :=
  match as_string (param request "database") with
  | None => mret (Err (fmt.Errorf "database parameter must be a string" []))
  | Some targetDbID =>
      let typeName := optional as_string EmptyString (param request "type_name") in
      t ← getDatabaseType useCase targetDbID;
      match t with
      | Err err =>
          mret (Err (fmt.Errorf "failed to get database type: %w" [fmt.Str err]))
      | Ok dbType =>
          let lowered := strings.ToLower dbType in
          if String.eqb lowered "postgres" then
            let query := getPostgresTypesQuery typeName in
            r ← executeQuery useCase targetDbID query [];
            match r with
            | Err err =>
                mret (Err (fmt.Errorf "failed to get custom data types: %w"
                             [fmt.Str err]))
            | Ok result =>
                let heading :=
                  if is_empty typeName
                  then fmt.Sprintf "# All Custom Data Types in Database %s

" [fmt.Str targetDbID]
                  else fmt.Sprintf "# Custom Data Type Definition for %s in Database %s

" [fmt.Str typeName; fmt.Str targetDbID] in
                mret (Ok (createTextResponse (heading ++ result)))
            end
          else if String.eqb lowered "mysql" then
            mret (Ok (createTextResponse
              "MySQL does not support custom data types in the same way as PostgreSQL. It only has built-in data types."))
          else mret (Err (fmt.Errorf "unsupported database type for custom data types: %s"
                            [fmt.Str dbType]))
      end
  end.
End GetTypesTool.

(* ================================================================= *)
(** ** get_schemas_tool.go *)

Definition getPostgresSchemasQuery (schemaName : string) (includeSystemSchemas : bool)
  : string :=
  let baseQuery := "
SELECT 
    n.nspname AS schema_name,
    pg_catalog.pg_get_userbyid(n.nspowner) AS owner,
    pg_catalog.array_to_string(n.nspacl, E'\n') AS access_privileges,
    pg_catalog.obj_description(n.oid, 'pg_namespace') AS description,
    (SELECT COUNT(*) FROM pg_catalog.pg_class c WHERE c.relnamespace = n.oid AND c.relkind = 'r') AS tables_count,
    (SELECT COUNT(*) FROM pg_catalog.pg_class c WHERE c.relnamespace = n.oid AND c.relkind = 'v') AS views_count,
    (SELECT COUNT(*) FROM pg_catalog.pg_proc p WHERE p.pronamespace = n.oid) AS functions_count
FROM pg_catalog.pg_namespace n" in
  let baseQuery :=
    if negb includeSystemSchemas then baseQuery ++ "
WHERE n.nspname NOT IN ('pg_catalog', 'information_schema', 'pg_toast', 'pg_temp_1', 'pg_toast_temp_1')" else baseQuery in
  let baseQuery :=
    if negb (is_empty schemaName) then
      let safeSchemaName := strings.ReplaceAll schemaName "'" "''" in
      if negb includeSystemSchemas
      then baseQuery ++ fmt.Sprintf " AND n.nspname = '%s'" [fmt.Str safeSchemaName]
      else baseQuery ++ fmt.Sprintf " WHERE n.nspname = '%s'" [fmt.Str safeSchemaName]
    else baseQuery in
  baseQuery ++ "
ORDER BY n.nspname;".

Definition getMySQLSchemasQuery (schemaName : string) : string :=
  let baseQuery := "
SELECT 
    schema_name,
    default_character_set_name AS character_set,
    default_collation_name AS collation,
    (SELECT COUNT(*) FROM information_schema.tables t WHERE t.table_schema = s.schema_name AND t.table_type = 'BASE TABLE') AS tables_count,
    (SELECT COUNT(*) FROM information_schema.tables t WHERE t.table_schema = s.schema_name AND t.table_type = 'VIEW') AS views_count,
    (SELECT COUNT(*) FROM information_schema.routines r WHERE r.routine_schema = s.schema_name) AS routines_count
FROM information_schema.schemata s" in
  let baseQuery :=
    if negb (is_empty schemaName) then
      let safeSchemaName := strings.ReplaceAll schemaName "'" "''" in
      baseQuery ++ fmt.Sprintf " WHERE schema_name = '%s'" [fmt.Str safeSchemaName]
    else baseQuery in
  baseQuery ++ "
ORDER BY schema_name;".

Module GetSchemasTool.
Definition HandleRequest {W} (useCase : UseCaseProvider W)
    (request : ToolCallRequest) : M W (result Response) :=
  match as_string (param request "database") with
  | None => mret (Err (fmt.Errorf "database parameter must be a string" []))
  | Some targetDbID =>
      let schemaName := optional as_string EmptyString (param request "schema") in
      let includeSystemSchemas :=
        optional as_bool false (param request "include_system_schemas") in
      t ← getDatabaseType useCase targetDbID;
      match t with
      | Err err =>
          mret (Err (fmt.Errorf "failed to get database type: %w" [fmt.Str err]))
      | Ok dbType =>
          let lowered := strings.ToLower dbType in
          let run (query : string) : M W (result Response) :=
            r ← executeQuery useCase targetDbID query [];
            match r with
            | Err err =>
                mret (Err (fmt.Errorf "failed to get schemas: %w" [fmt.Str err]))
            | Ok result =>
                let heading :=
                  if is_empty schemaName
                  then fmt.Sprintf "# All Schemas in Database %s

" [fmt.Str targetDbID]
                  else fmt.Sprintf "# Schema Information for %s in Database %s

" [fmt.Str schemaName; fmt.Str targetDbID] in
                mret (Ok (createTextResponse (heading ++ result)))
            end in
          if String.eqb lowered "postgres"
          then run (getPostgresSchemasQuery schemaName includeSystemSchemas)
          else if String.eqb lowered "mysql"
          then run (getMySQLSchemasQuery schemaName)
          else mret (Err (fmt.Errorf "unsupported database type for schemas: %s"
                            [fmt.Str dbType]))
      end
  end.
End GetSchemasTool.

(* ================================================================= *)
(** ** get_sample_data_tool.go *)

Definition buildSampleDataQuery (dbType tableName : string) (limit : Z)
    (whereClause orderByClause : string) (random : bool) : string :=
  let safeTableName :=
    if String.eqb (strings.ToLower dbType) "postgres"
    then fmt.Sprintf (dquote ++ "%s" ++ dquote)
           [fmt.Str (strings.ReplaceAll tableName dquote (dquote ++ dquote))]
    else fmt.Sprintf "`%s`" [fmt.Str (strings.ReplaceAll tableName "`" "``")] in
  let query := fmt.Sprintf "SELECT * FROM %s" [fmt.Str safeTableName] in
  let query :=
    if negb (is_empty whereClause)
    then query ++ fmt.Sprintf " WHERE %s" [fmt.Str whereClause]
    else query in
  let query :=
    if random then
      if String.eqb (strings.ToLower dbType) "postgres"
      then query ++ " ORDER BY RANDOM()"
      else query ++ " ORDER BY RAND()"
    else if negb (is_empty orderByClause)
    then query ++ fmt.Sprintf " ORDER BY %s" [fmt.Str orderByClause]
    else query in
  query ++ fmt.Sprintf " LIMIT %d" [fmt.Int limit].

Module GetSampleDataTool.
Definition HandleRequest {W} (useCase : UseCaseProvider W)
    (request : ToolCallRequest) : M W (result Response) :=
  match as_string (param request "database") with
  | None => mret (Err (fmt.Errorf "database parameter must be a string" []))
  | Some targetDbID =>
  match as_string (param request "table") with
  | None => mret (Err (fmt.Errorf "table parameter must be a string" []))
  | Some tableName =>
      let limit := optional as_float64 10%Z (param request "limit") in
      let whereClause := optional as_string EmptyString (param request "where") in
      let orderByClause := optional as_string EmptyString (param request "order_by") in
      let random := optional as_bool false (param request "random") in
      t ← getDatabaseType useCase targetDbID;
      match t with
      | Err err =>
          mret (Err (fmt.Errorf "failed to get database type: %w" [fmt.Str err]))
      | Ok dbType =>
          let query :=
            buildSampleDataQuery dbType tableName limit whereClause orderByClause random in
          r ← executeQuery useCase targetDbID query [];
          match r with
          | Err err =>
              mret (Err (fmt.Errorf "failed to get sample data: %w" [fmt.Str err]))
          | Ok result =>
              mret (Ok (createTextResponse
                (fmt.Sprintf "# Sample Data from Table %s in Database %s

" [fmt.Str tableName; fmt.Str targetDbID] ++ result)))
          end
      end
  end
  end.
End GetSampleDataTool.

(* ================================================================= *)
(** ** get_unique_values_tool.go *)

Definition buildUniqueValuesQuery (dbType tableName columnName : string) (limit : Z)
    (whereClause : string) (includeCounts includeNulls : bool) : string :=
  let '(safeTableName, safeColumnName) :=
    if String.eqb (strings.ToLower dbType) "postgres"
    then (fmt.Sprintf (dquote ++ "%s" ++ dquote)
            [fmt.Str (strings.ReplaceAll tableName dquote (dquote ++ dquote))],
          fmt.Sprintf (dquote ++ "%s" ++ dquote)
            [fmt.Str (strings.ReplaceAll columnName dquote (dquote ++ dquote))])
    else (fmt.Sprintf "`%s`" [fmt.Str (strings.ReplaceAll tableName "`" "``")],
          fmt.Sprintf "`%s`" [fmt.Str (strings.ReplaceAll columnName "`" "``")]) in
  let query :=
    if includeCounts
    then fmt.Sprintf
           "SELECT %s, COUNT(*) AS count, ROUND(COUNT(*) * 100.0 / (SELECT COUNT(*) FROM %s), 2) AS percentage FROM %s"
           [fmt.Str safeColumnName; fmt.Str safeTableName; fmt.Str safeTableName]
    else fmt.Sprintf "SELECT DISTINCT %s FROM %s"
           [fmt.Str safeColumnName; fmt.Str safeTableName] in
  let query :=
    if negb (is_empty whereClause)
    then query ++ fmt.Sprintf " WHERE %s" [fmt.Str whereClause]
    else query in
  let query :=
    if negb includeNulls then
      if is_empty whereClause
      then query ++ fmt.Sprintf " WHERE %s IS NOT NULL" [fmt.Str safeColumnName]
      else query ++ fmt.Sprintf " AND %s IS NOT NULL" [fmt.Str safeColumnName]
    else query in
  let query :=
    if includeCounts
    then query ++ fmt.Sprintf " GROUP BY %s ORDER BY COUNT(*) DESC" [fmt.Str safeColumnName]
    else query ++ fmt.Sprintf " ORDER BY %s" [fmt.Str safeColumnName] in
  query ++ fmt.Sprintf " LIMIT %d" [fmt.Int limit].

Module GetUniqueValuesTool.
Definition HandleRequest {W} (useCase : UseCaseProvider W)
    (request : ToolCallRequest) : M W (result Response) :=
  match as_string (param request "database") with
  | None => mret (Err (fmt.Errorf "database parameter must be a string" []))
  | Some targetDbID =>
  match as_string (param request "table") with
  | None => mret (Err (fmt.Errorf "table parameter must be a string" []))
  | Some tableName =>
  match as_string (param request "column") with
  | None => mret (Err (fmt.Errorf "column parameter must be a string" []))
  | Some columnName =>
      let limit := optional as_float64 100%Z (param request "limit") in
      let whereClause := optional as_string EmptyString (param request "where") in
      let includeCounts := optional as_bool true (param request "include_counts") in
      let includeNulls := optional as_bool true (param request "include_nulls") in
      t ← getDatabaseType useCase targetDbID;
      match t with
      | Err err =>
          mret (Err (fmt.Errorf "failed to get database type: %w" [fmt.Str err]))
      | Ok dbType =>
          let query :=
            buildUniqueValuesQuery dbType tableName columnName limit whereClause
              includeCounts includeNulls in
          r ← executeQuery useCase targetDbID query [];
          match r with
          | Err err =>
              mret (Err (fmt.Errorf "failed to get unique values: %w" [fmt.Str err]))
          | Ok result =>
              mret (Ok (createTextResponse
                (fmt.Sprintf "# Unique Values in Column %s of Table %s in Database %s

" [fmt.Str columnName; fmt.Str tableName; fmt.Str targetDbID] ++ result)))
          end
      end
  end
  end
  end.
End GetUniqueValuesTool.

(* ================================================================= *)
(** ** generic_sql_tool.go *)

Module GenericSQLTool.
(** The auto-detection of lines 81-85.  It is the code's on a statement
    that [strings.isASCII]; see [strings.ToUpper] and [strings.TrimSpace]. *)
Definition autoDetect (sql : string) : bool :=
  let sqlUpper := strings.TrimSpace (strings.ToUpper sql) in
  strings.HasPrefix sqlUpper "SELECT" ||
  strings.HasPrefix sqlUpper "SHOW" ||
  strings.HasPrefix sqlUpper "DESCRIBE" ||
  strings.HasPrefix sqlUpper "EXPLAIN".

Definition HandleRequest {W} (useCase : UseCaseProvider W)
    (request : ToolCallRequest) : M W (result Response) :=
  match as_string (param request "sql") with
  | None => mret (Err (fmt.Errorf "sql parameter must be a string" []))
  | Some sql =>
  match as_string (param request "database") with
  | None => mret (Err (fmt.Errorf "database parameter must be a string" []))
  | Some targetDbID =>
      let sqlParams := optional as_array [] (param request "params") in
      let isQuery :=
        if negb (is_nil (param request "isQuery"))
        then default false (as_bool (param request "isQuery"))
        else autoDetect sql in
      r ← (if isQuery
           then executeQuery useCase targetDbID sql sqlParams
           else executeStatement useCase targetDbID sql sqlParams);
      match r with
      | Err err => mret (Err err)
      | Ok result => mret (Ok (createTextResponse result))
      end
  end
  end.
End GenericSQLTool.

(* ================================================================= *)
(** ** list_databases_tool.go *)

Module ListDatabasesTool.
(** The loop body of lines 51-85; [i] is the zero-based index. *)
Fixpoint rows {W} (useCase : UseCaseProvider W) (i : Z) (databases : list string)
    (output : string) : M W string :=
  match databases with
  | [] => mret output
  | dbID :: rest =>
      info ← getDatabaseInfo useCase dbID;
      match info with
      | Err _ =>
          rows useCase (i + 1)%Z rest
            (output ++ fmt.Sprintf "| %d | %s | Unknown | Unknown | Unknown | Unknown | Unknown |
" [fmt.Int (i + 1); fmt.Str dbID])
      | Ok dbInfo =>
          t ← getDatabaseType useCase dbID;
          (* on an error the returned type is the empty string *)
          let dbType := match t with Ok ty => ty | Err _ => EmptyString end in
          let dbType := if is_empty dbType then "Unknown" else dbType in
          let host := "Unknown" in
          let port := "Unknown" in
          let name := default "Unknown" (as_string (default VNil (dbInfo !! "database"))) in
          let description :=
            default EmptyString (as_string (default VNil (dbInfo !! "description"))) in
          rows useCase (i + 1)%Z rest
            (output ++ fmt.Sprintf "| %d | %s | %s | %s | %s | %s | %s |
" [fmt.Int (i + 1); fmt.Str dbID; fmt.Str dbType; fmt.Str host; fmt.Str port;
 fmt.Str name; fmt.Str description])
      end
  end.

Definition HandleRequest {W} (useCase : UseCaseProvider W)
    (request : ToolCallRequest) : M W (result Response) :=
  databases ← listDatabases useCase;
  let output := "Available databases:

" in
  let output := output ++ "| # | Database ID | Type | Host | Port | Database Name | Description |
" in
  let output := output ++ "|---|------------|------|------|------|--------------|-------------|
" in
  output ← rows useCase 0 databases output;
  let output :=
    if (List.length databases =? 0)%nat
    then output ++ "No databases configured.
"
    else output in
  mret (Ok (createTextResponse output)).
End ListDatabasesTool.

(* ================================================================= *)
(** ** pkg/dbtools/config.go : the connection registry *)

Module dbtools.

Record DatabaseConnectionConfig : Type := {
  ID : string;
  Type_ : string;
  Host : string;
  Port : Z;
  User : string;
  Password : string;
  Name : string;
  Description : string
}.

(** The package-level [configs] map; the mutex that guards it makes
    each operation atomic, so the operations are functions of the map. *)
Abbreviation Registry := (gmap string DatabaseConnectionConfig).

Definition RegisterDatabaseConfig (config : DatabaseConnectionConfig)
    (configs : Registry) : Registry :=
  <[ID config := config]> configs.

Definition GetDatabaseConfig (id : string) (configs : Registry)
  : result DatabaseConnectionConfig :=
  match configs !! id with
  | Some config => Ok config
  | None =>
      Err (fmt.Errorf "database configuration not found for ID: %s" [fmt.Str id])
  end.

End dbtools.

(* ================================================================= *)
(** ** Specification-side notions *)

(** *** Free-form SQL classification, in the words of the specification

    These notions are written without the functions of the [strings]
    embedding: white space is the six characters themselves, trimming
    takes them off both ends, and a keyword is given in both cases. *)

Definition blank (c : ascii) : bool :=
  existsb (Ascii.eqb c) [" "; "009"; "010"; "011"; "012"; "013"]%char.

Fixpoint without_leading_blanks (s : string) : string :=
  match s with
  | EmptyString => EmptyString
  | String c r => if blank c then without_leading_blanks r else s
  end.

Fixpoint reversed_onto (acc s : string) : string :=
  match s with
  | EmptyString => acc
  | String c r => reversed_onto (String c acc) r
  end.

Definition reversed (s : string) : string := reversed_onto EmptyString s.

(** The text without the white space at its beginning and at its end. *)
Definition trimmed (s : string) : string :=
  reversed (without_leading_blanks (reversed (without_leading_blanks s))).

(** [s] begins with the keyword, each letter in either case. *)
Fixpoint begins_in_either_case (s upper lower : string) : bool :=
  match upper, lower, s with
  | EmptyString, _, _ => true
  | String u upper', String l lower', String c s' =>
      (Ascii.eqb c u || Ascii.eqb c l) && begins_in_either_case s' upper' lower'
  | _, _, _ => false
  end.

Definition query_keywords : list (string * string) :=
  [("SELECT", "select"); ("SHOW", "show");
   ("DESCRIBE", "describe"); ("EXPLAIN", "explain")].

(** A statement is a query when, white space trimmed, it begins with one
    of the four keywords, letter case ignored. *)
Definition classified_as_query (sql : string) : bool :=
  existsb (λ keyword, begins_in_either_case (trimmed sql) keyword.1 keyword.2)
    query_keywords.

(** *** The aggregated report of a statistics capability *)

(** The outcomes of handing the statements to [ExecuteQuery] one after
    another, each from the world its predecessor left. *)
Fixpoint outcomes {W} (useCase : UseCaseProvider W) (dbID : string)
    (queries : list string) (w : W) : list (result string) * W :=
  match queries with
  | [] => ([], w)
  | query :: rest =>
      let '(o, w') := ExecuteQuery useCase dbID query [] w in
      let '(os, w'') := outcomes useCase dbID rest w' in
      (o :: os, w'')
  end.

(** The inline error marker of a failed statement. *)
Definition error_marker (query err : string) : string :=
  "Error executing query: " ++ query ++ "
" ++ err ++ "

".

(** The section of the report for one statement and its outcome. *)
Definition report_section (query : string) (o : result string) : string :=
  match o with
  | Ok result => result ++ "

"
  | Err err => error_marker query err
  end.

Fixpoint join (sections : list string) : string :=
  match sections with
  | [] => EmptyString
  | x :: rest => x ++ join rest
  end.

Definition query_call (dbID query : string) : Call :=
  {| call_kind := Query; call_db := dbID; call_sql := query; call_params := [] |}.

(** The statements a statistics capability builds for a dialect. *)
Definition statsQueries (dbType : string) (detailed : bool) : option (list string) :=
  let lowered := strings.ToLower dbType in
  if String.eqb lowered "postgres" then Some (getPostgresStatsQueries detailed)
  else if String.eqb lowered "mysql" then Some (getMySQLStatsQueries detailed)
  else None.

Definition tableStatsQueries (dbType tableName : string) (detailed : bool)
  : option (list string) :=
  let lowered := strings.ToLower dbType in
  if String.eqb lowered "postgres"
  then Some (getPostgresTableStatsQueries tableName detailed)
  else if String.eqb lowered "mysql"
  then Some (getMySQLTableStatsQueries tableName detailed)
  else None.

(** Exactly statement [k] fails. *)
Definition only_fails (outs : list (result string)) (k : nat) : Prop :=
  (∃ err, outs !! k = Some (Err err))
  ∧ ∀ i o, i ≠ k → outs !! i = Some o → ∃ res, o = Ok res.

(** What the specification promises of the report [text] in that case:
    one section per statement, in the order of [queries]; section [k]
    is the inline error marker, every other section is the statement's
    result. *)
Definition partial_failure_report (heading : string) (queries : list string)
    (outs : list (result string)) (k : nat) (text : string) : Prop :=
  ∃ sections : list string,
    text = heading ++ join sections
    ∧ length sections = length queries
    ∧ (∃ query err,
         queries !! k = Some query ∧ outs !! k = Some (Err err)
         ∧ sections !! k = Some (error_marker query err))
    ∧ (∀ i, i ≠ k → (i < length queries)%nat →
         ∃ res, outs !! i = Some (Ok res) ∧ sections !! i = Some (res ++ "

")).

(** *** Dialect resolution *)

Definition Handler : Type :=
  ∀ W : Type, UseCaseProvider W → ToolCallRequest → M W (result Response).

(** The call fails and hands nothing (more) to the executor. *)
Definition fails_without_executing {W} (run : M W (result Response)) (s : St W) : Prop :=
  (∃ msg, (run s).1 = Err msg) ∧ executed (run s).2 = executed s.

(** A dialect other than postgres and mysql, as the handlers compare it. *)
Definition unsupported_dialect (dbType : string) : Prop :=
  strings.ToLower dbType ≠ "postgres" ∧ strings.ToLower dbType ≠ "mysql".

(** When [GetDatabaseType] fails for the connection of the request, the
    call fails before any statement is executed. *)
Definition aborts_on_unresolved_dialect (handler : Handler) : Prop :=
  ∀ W (useCase : UseCaseProvider W) request targetDbID (s : St W) err w1,
    Parameters request !! "database" = Some (VString targetDbID) →
    GetDatabaseType useCase targetDbID (world s) = (Err err, w1) →
    fails_without_executing (handler W useCase request) s.

(** When the connection of the request resolves to an unsupported
    dialect, the call fails before any statement is executed. *)
Definition aborts_on_unsupported_dialect (handler : Handler) : Prop :=
  ∀ W (useCase : UseCaseProvider W) request targetDbID (s : St W) dbType w1,
    Parameters request !! "database" = Some (VString targetDbID) →
    GetDatabaseType useCase targetDbID (world s) = (Ok dbType, w1) →
    unsupported_dialect dbType →
    fails_without_executing (handler W useCase request) s.

(** *** The shape of the sampling and uniqueness queries *)

Definition is_postgres (dbType : string) : bool :=
  String.eqb (strings.ToLower dbType) "postgres".

(** An identifier in the dialect's quotes, inner quotes doubled. *)
Definition quoted (dbType ident : string) : string :=
  if is_postgres dbType
  then dquote ++ strings.ReplaceAll ident dquote (dquote ++ dquote) ++ dquote
  else "`" ++ strings.ReplaceAll ident "`" "``" ++ "`".

(** The dialect's random-order function. *)
Definition random_function (dbType : string) : string :=
  if is_postgres dbType then "RANDOM()" else "RAND()".

(** The optional [WHERE] part of a sampling query. *)
Definition where_part (whereClause : string) : string :=
  if is_empty whereClause then EmptyString else " WHERE " ++ whereClause.

(** The optional [WHERE] part of a uniqueness query: the caller's
    predicate and, when NULLs are excluded, the NOT NULL test. *)
Definition filter_part (dbType columnName whereClause : string) (includeNulls : bool)
  : string :=
  where_part whereClause ++
  (if includeNulls then EmptyString
   else (if is_empty whereClause then " WHERE " else " AND ")
        ++ quoted dbType columnName ++ " IS NOT NULL").

(** [SELECT DISTINCT <column> FROM <table> [WHERE ...] ORDER BY <column> LIMIT <n>] *)
Definition distinct_form (dbType tableName columnName : string) (limit : Z)
    (whereClause : string) (includeNulls : bool) : string :=
  "SELECT DISTINCT " ++ quoted dbType columnName
  ++ " FROM " ++ quoted dbType tableName
  ++ filter_part dbType columnName whereClause includeNulls
  ++ " ORDER BY " ++ quoted dbType columnName
  ++ " LIMIT " ++ fmt.decimal limit.

(** [SELECT * FROM <table> [WHERE ...] ORDER BY <random function> LIMIT <n>] *)
Definition random_sample_form (dbType tableName : string) (limit : Z)
    (whereClause : string) : string :=
  "SELECT * FROM " ++ quoted dbType tableName ++ where_part whereClause
  ++ " ORDER BY " ++ random_function dbType
  ++ " LIMIT " ++ fmt.decimal limit.

(** [SELECT * FROM <table> [WHERE ...] ORDER BY <order_by> LIMIT <n>] *)
Definition ordered_sample_form (dbType tableName : string) (limit : Z)
    (whereClause orderByClause : string) : string :=
  "SELECT * FROM " ++ quoted dbType tableName ++ where_part whereClause
  ++ " ORDER BY " ++ orderByClause
  ++ " LIMIT " ++ fmt.decimal limit.

(** The counting form: the column with its count and percentage, FROM
    <table> [WHERE ...] GROUP BY <column>, ordered by the count,
    LIMIT <n>. *)
Definition counts_form (dbType tableName columnName : string) (limit : Z)
    (whereClause : string) (includeNulls : bool) : string :=
  "SELECT " ++ quoted dbType columnName
  ++ ", COUNT(*) AS count, ROUND(COUNT(*) * 100.0 / (SELECT COUNT(*) FROM "
  ++ quoted dbType tableName ++ "), 2) AS percentage FROM " ++ quoted dbType tableName
  ++ filter_part dbType columnName whereClause includeNulls
  ++ " GROUP BY " ++ quoted dbType columnName ++ " ORDER BY COUNT(*) DESC"
  ++ " LIMIT " ++ fmt.decimal limit.

(** The row limit a request asks for: its [limit] when that is a
    number, the default otherwise. *)
Definition requested_limit (dflt : Z) (request : ToolCallRequest) : Z :=
  match param request "limit" with
  | VNumber n => n
  | _ => dflt
  end.

(** A request that differs from [request] in one parameter at most. *)
Definition with_param (key : string) (v : value) (request : ToolCallRequest)
  : ToolCallRequest :=
  {| Parameters := <[key := v]> (Parameters request) |}.

(** *** Occurrences of a keyword in a query *)

(** No non-empty suffix of [q] is a prefix of [b]: an occurrence of a
    keyword ending in [q] cannot start before [b] and end inside it. *)
Fixpoint clear_of (b q : string) : bool :=
  match q with
  | EmptyString => true
  | String _ q' => negb (strings.HasPrefix b q) && clear_of b q'
  end.

Fixpoint occurs (c : ascii) (s : string) : bool :=
  match s with
  | EmptyString => false
  | String x s' => Ascii.eqb x c || occurs c s'
  end.

(** [%d] prints digits, after a minus sign for a negative number. *)
Definition is_decimal_char (c : ascii) : bool :=
  occurs c "-0123456789".

Fixpoint all_chars (f : ascii → bool) (s : string) : bool :=
  match s with
  | EmptyString => true
  | String c s' => f c && all_chars f s'
  end.

(** *** The clauses of a generated query

    The describe builders put every clause on a line of its own, so a
    clause is the text between two line-leading keywords. *)

Fixpoint drop_chars (n : nat) (s : string) : string :=
  match n, s with
  | S n', String _ s' => drop_chars n' s'
  | _, _ => s
  end.

(** The text after the first occurrence of [pat]. *)
Fixpoint after_first (pat s : string) : option string :=
  if strings.HasPrefix s pat then Some (drop_chars (String.length pat) s)
  else match s with
       | EmptyString => None
       | String _ s' => after_first pat s'
       end.

(** The text before the first occurrence of [pat]; all of [s] without one. *)
Fixpoint before_first (pat s : string) : string :=
  if strings.HasPrefix s pat then EmptyString
  else match s with
       | EmptyString => EmptyString
       | String c s' => String c (before_first pat s')
       end.

(** The text after the last occurrence of [pat]. *)
Fixpoint after_last (pat s : string) : option string :=
  match s with
  | EmptyString => None
  | String _ s' =>
      match after_last pat s' with
      | Some rest => Some rest
      | None =>
          if strings.HasPrefix s pat
          then Some (drop_chars (String.length pat) s) else None
      end
  end.

(** The text before the last occurrence of [pat]; all of [s] without one. *)
Fixpoint before_last (pat s : string) : string :=
  match s with
  | EmptyString => EmptyString
  | String c s' =>
      match after_last pat s' with
      | Some _ => String c (before_last pat s')
      | None =>
          if strings.HasPrefix s pat then EmptyString
          else String c (before_last pat s')
      end
  end.

Definition FROM : string := "
FROM ".
Definition WHERE : string := "
WHERE ".
Definition GROUP_BY : string := "
GROUP BY ".
Definition ORDER_BY : string := "
ORDER BY ".

(** The projected columns: what precedes the FROM line. *)
Definition projection (query : string) : string := before_first FROM query.

(** Everything from the FROM line on. *)
Definition query_body (query : string) : option string := after_first FROM query.

(** The FROM clause with its JOINs: up to the WHERE line. *)
Definition from_clause (query : string) : option string :=
  before_first WHERE <$> query_body query.

(** The filter: from the WHERE line up to the GROUP BY or ORDER BY line. *)
Definition where_clause (query : string) : option string :=
  (λ rest, before_last GROUP_BY (before_last ORDER_BY rest))
    <$> (query_body query ≫= after_first WHERE).

(** The grouping columns; [None] for a query without a GROUP BY line. *)
Definition group_by_clause (query : string) : option string :=
  before_last ORDER_BY <$> (query_body query ≫= after_last GROUP_BY).

Definition order_by_clause (query : string) : option string :=
  query_body query ≫= after_last ORDER_BY.

(** Two queries with the same FROM/JOIN clause and the same grouping. *)
Definition same_join_and_grouping (q1 q2 : string) : Prop :=
  from_clause q1 = from_clause q2 ∧ group_by_clause q1 = group_by_clause q2.

(** The flag of a describe builder changes the projection only. *)
Definition flag_keeps_structure (builder : string → bool → string) : Prop :=
  ∀ name, same_join_and_grouping (builder name true) (builder name false).

(** The flag changes nothing from the FROM line on. *)
Definition flag_changes_projection_only (builder : string → bool → string) : Prop :=
  ∀ name, query_body (builder name true) = query_body (builder name false).

(** The flag leaves the FROM/JOIN clause, the filter and the ordering
    alone and appends [columns] to the grouping. *)
Definition flag_extends_grouping (builder : string → bool → string)
    (columns : string) : Prop :=
  ∀ name,
    from_clause (builder name true) = from_clause (builder name false)
    ∧ where_clause (builder name true) = where_clause (builder name false)
    ∧ order_by_clause (builder name true) = order_by_clause (builder name false)
    ∧ ∃ grouping,
        group_by_clause (builder name false) = Some grouping
        ∧ group_by_clause (builder name true) = Some (grouping ++ columns).

(** *** Quoted regions *)

(** Read a region quoted with [q], from just after its opening quote: a
    doubled [q] stands for the character itself, a single one closes
    the region. The result is the text the region denotes and what
    follows the closing quote. *)
Fixpoint read_quoted (q : ascii) (s : string) : option (string * string) :=
  match s with
  | EmptyString => None
  | String c r =>
      if Ascii.eqb c q then
        match r with
        | String c' r' =>
            if Ascii.eqb c' q
            then (λ '(text, rest), (String q text, rest)) <$> read_quoted q r'
            else Some (EmptyString, r)
        | EmptyString => Some (EmptyString, EmptyString)
        end
      else (λ '(text, rest), (String c text, rest)) <$> read_quoted q r
  end.

(** The text denoted by the [q]-quoted region that follows [marker]. *)
Definition quoted_after (marker : string) (q : ascii) (query : string)
  : option (string * string) :=
  after_first (marker ++ String q EmptyString) query ≫= read_quoted q.

(** The character the sampling and uniqueness builders quote an
    identifier with. *)
Definition quote_char (dbType : string) : ascii :=
  if is_postgres dbType then "034"%char else "`"%char.

(** The name a filter literal reads back: none for an empty name, which
    adds no filter. *)
Definition filtered_name (name : string) : option string :=
  if is_empty name then None else Some name.

(** *** A small executor used to run the handlers on concrete calls

    The world is the number of statements executed so far; the statement
    executed second (when the counter reads 1) fails. *)

Definition demoType (dbID : string) : result string :=
  if String.eqb dbID "pg1" then Ok "postgres"
  else if String.eqb dbID "my1" then Ok "mysql"
  else if String.eqb dbID "lite1" then Ok "sqlite"
  else Err ("database not found: " ++ dbID).

Definition demoExec (dbID sql : string) (params : list value) (n : nat)
  : result string * nat :=
  (if (n =? 1)%nat then Err "connection reset" else Ok "ok", S n).

Definition demo : UseCaseProvider nat := {|
  ExecuteQuery := demoExec;
  ExecuteStatement := demoExec;
  GetDatabaseInfo := λ dbID n, (Ok ∅, n);
  ListDatabases := λ n, (["pg1"; "my1"; "lite1"], n);
  GetDatabaseType := λ dbID n, (demoType dbID, n)
|}.

Definition start : St nat := {| world := 0%nat; executed := [] |}.

Definition request_of (l : list (string * value)) : ToolCallRequest :=
  {| Parameters := list_to_map l |}.

(** *** Validation and execution errors *)

(** Without a string [database] parameter the call fails at once: no
    collaborator is consulted and the state is untouched. *)
Definition rejects_missing_database (handler : Handler) : Prop :=
  ∀ W (useCase : UseCaseProvider W) request (s : St W),
    as_string (param request "database") = None →
    handler W useCase request s = (Err "database parameter must be a string", s).

(** The same for another required string parameter, checked after
    [database]. *)
Definition rejects_missing (key : string) (handler : Handler) : Prop :=
  ∀ W (useCase : UseCaseProvider W) request (s : St W) targetDbID,
    as_string (param request "database") = Some targetDbID →
    as_string (param request key) = None →
    handler W useCase request s = (Err (key ++ " parameter must be a string"), s).

(** The statement a single-statement capability builds on a postgres
    connection: its builder, applied to the options of the request. *)
Definition indexes_statement (dbType : string) (request : ToolCallRequest) : string :=
  getPostgresIndexesQuery
    (optional as_string EmptyString (param request "table"))
    (optional as_bool false (param request "detailed")).

Definition constraints_statement (dbType : string) (request : ToolCallRequest)
  : string :=
  getPostgresConstraintsQuery
    (optional as_string EmptyString (param request "table"))
    (optional as_string EmptyString (param request "constraint_type")).

Definition views_statement (dbType : string) (request : ToolCallRequest) : string :=
  getPostgresViewsQuery
    (optional as_string EmptyString (param request "view"))
    (optional as_bool true (param request "include_definition")).

Definition types_statement (dbType : string) (request : ToolCallRequest) : string :=
  getPostgresTypesQuery (optional as_string EmptyString (param request "type_name")).

Definition schemas_statement (dbType : string) (request : ToolCallRequest) : string :=
  getPostgresSchemasQuery
    (optional as_string EmptyString (param request "schema"))
    (optional as_bool false (param request "include_system_schemas")).

Definition sample_statement (dbType : string) (request : ToolCallRequest) : string :=
  buildSampleDataQuery dbType
    (default EmptyString (as_string (param request "table")))
    (optional as_float64 10%Z (param request "limit"))
    (optional as_string EmptyString (param request "where"))
    (optional as_string EmptyString (param request "order_by"))
    (optional as_bool false (param request "random")).

Definition unique_values_statement (dbType : string) (request : ToolCallRequest)
  : string :=
  buildUniqueValuesQuery dbType
    (default EmptyString (as_string (param request "table")))
    (default EmptyString (as_string (param request "column")))
    (optional as_float64 100%Z (param request "limit"))
    (optional as_string EmptyString (param request "where"))
    (optional as_bool true (param request "include_counts"))
    (optional as_bool true (param request "include_nulls")).

(** On a postgres connection the call hands exactly one statement, the
    one [statement] gives, to [ExecuteQuery], in the world the dialect
    resolution left; the state after the call is the state after that
    execution; and when that execution fails with [err], the call fails
    with [err] behind [prefix]. *)
Definition wraps_execution_error (required : list string) (prefix : string)
    (statement : string → ToolCallRequest → string) (handler : Handler) : Prop :=
  ∀ W (useCase : UseCaseProvider W) request (s : St W) targetDbID dbType w1,
    as_string (param request "database") = Some targetDbID →
    Forall (λ key, is_Some (as_string (param request key))) required →
    GetDatabaseType useCase targetDbID (world s) = (Ok dbType, w1) →
    strings.ToLower dbType = "postgres" →
    let sql := statement dbType request in
    let outcome := ExecuteQuery useCase targetDbID sql [] w1 in
    (handler W useCase request s).2
    = {| world := outcome.2;
         executed := (executed s ++ [query_call targetDbID sql])%list |}
    ∧ ∀ err, outcome.1 = Err err →
        (handler W useCase request s).1 = Err (prefix ++ err).

(** An executor that is always down. *)
Definition downExec (dbID sql : string) (params : list value) (n : nat)
  : result string * nat :=
  (Err "connection refused", S n).

Definition down : UseCaseProvider nat := {|
  ExecuteQuery := downExec;
  ExecuteStatement := downExec;
  GetDatabaseInfo := λ dbID n, (Err "no such database", n);
  ListDatabases := λ n, (["pg1"; "my1"], n);
  GetDatabaseType := λ dbID n, (demoType dbID, n)
|}.

(** What the report of a statistics capability is when every statement
    fails: one inline error marker per statement, in order. *)
Definition all_failed_report (heading : string) (queries : list string)
    (text : string) : Prop :=
  ∃ sections : list string,
    text = heading ++ join sections
    ∧ length sections = length queries
    ∧ ∀ i query, queries !! i = Some query →
        ∃ err, sections !! i = Some (error_marker query err).

(** *** Registering a list of configurations, first to last *)

Fixpoint register_all (configs : list dbtools.DatabaseConnectionConfig)
    (registry : gmap string dbtools.DatabaseConnectionConfig)
  : gmap string dbtools.DatabaseConnectionConfig :=
  match configs with
  | [] => registry
  | config :: rest => register_all rest (dbtools.RegisterDatabaseConfig config registry)
  end.

(** The last configuration of the list that carries the ID. *)
Definition last_with_id (id : string) (configs : list dbtools.DatabaseConnectionConfig)
  : option dbtools.DatabaseConnectionConfig :=
  last (filter (λ config, dbtools.ID config = id) configs).

(** *** Two registrations of one connection ID *)

Definition pg1_config : dbtools.DatabaseConnectionConfig := {|
  dbtools.ID := "pg1"; dbtools.Type_ := "postgres"; dbtools.Host := "localhost";
  dbtools.Port := 5432; dbtools.User := "app"; dbtools.Password := "secret";
  dbtools.Name := "orders"; dbtools.Description := "primary"
|}.

Definition pg1_moved : dbtools.DatabaseConnectionConfig := {|
  dbtools.ID := "pg1"; dbtools.Type_ := "postgres"; dbtools.Host := "replica";
  dbtools.Port := 5433; dbtools.User := "app"; dbtools.Password := "secret";
  dbtools.Name := "orders"; dbtools.Description := "moved"
|}.

(* ================================================================= *)
(** * Properties *)

(** ** Strings *)

Lemma append_empty_r (s : string) : s ++ EmptyString = s.
Proof. induction s as [|c s IH]; cbn; [done|by rewrite IH]. Qed.

Lemma append_assoc (a b c : string) : (a ++ b) ++ c = a ++ (b ++ c).
Proof. induction a as [|x a IH]; cbn; [done|by rewrite IH]. Qed.

(** Concatenations are compared right-nested, literals pushed inwards. *)
Ltac str_norm :=
  repeat (progress cbn [String.append]
          || rewrite append_assoc
          || rewrite append_empty_r).

(** ** The connection registry *)

Section Registry.
Import dbtools.

Lemma get_after_register (cfg : DatabaseConnectionConfig) (configs : Registry) :
  GetDatabaseConfig (ID cfg) (RegisterDatabaseConfig cfg configs) = Ok cfg.
Proof.
  unfold GetDatabaseConfig, RegisterDatabaseConfig.
  by rewrite lookup_insert_eq.
Qed.

Lemma register_other_id (cfg : DatabaseConnectionConfig) (configs : Registry) id :
  id ≠ ID cfg →
  GetDatabaseConfig id (RegisterDatabaseConfig cfg configs)
  = GetDatabaseConfig id configs.
Proof.
  intros Hne. unfold GetDatabaseConfig, RegisterDatabaseConfig.
  by rewrite lookup_insert_ne.
Qed.

Lemma register_twice (cfg1 cfg2 : DatabaseConnectionConfig) (configs : Registry) :
  ID cfg1 = ID cfg2 →
  RegisterDatabaseConfig cfg2 (RegisterDatabaseConfig cfg1 configs)
  = RegisterDatabaseConfig cfg2 configs.
Proof.
  intros Hid. unfold RegisterDatabaseConfig. rewrite Hid.
  apply insert_insert_eq.
Qed.

(** C5: [register(cfg)] then [get(cfg.ID)] returns exactly [cfg]; a
    second registration under the same ID replaces the first, so the
    next [get] returns the second configuration; [get] of an ID that
    is not registered returns the not-found error. *)
Theorem registry_last_write_wins
    (cfg cfg' : DatabaseConnectionConfig) (configs : Registry) (id : string) :
  GetDatabaseConfig (ID cfg) (RegisterDatabaseConfig cfg configs) = Ok cfg
  ∧ (ID cfg' = ID cfg →
     GetDatabaseConfig (ID cfg)
       (RegisterDatabaseConfig cfg' (RegisterDatabaseConfig cfg configs)) = Ok cfg')
  ∧ (configs !! id = None →
     GetDatabaseConfig id configs
     = Err ("database configuration not found for ID: " ++ id)).
Proof.
  split; [apply get_after_register|]. split.
  - intros Hid. rewrite <- Hid. apply get_after_register.
  - intros Hnone. unfold GetDatabaseConfig. rewrite Hnone.
    cbn. by rewrite append_empty_r.
Qed.
End Registry.

Lemma registry_last_write_wins_witness :
  dbtools.GetDatabaseConfig "pg1" (dbtools.RegisterDatabaseConfig pg1_config ∅)
  = Ok pg1_config
  ∧ dbtools.GetDatabaseConfig "pg1"
      (dbtools.RegisterDatabaseConfig pg1_moved
         (dbtools.RegisterDatabaseConfig pg1_config ∅)) = Ok pg1_moved
  ∧ dbtools.GetDatabaseConfig "my1" (∅ : gmap string dbtools.DatabaseConnectionConfig)
    = Err "database configuration not found for ID: my1".
Proof.
  destruct (registry_last_write_wins pg1_config pg1_moved ∅ "my1") as (H1 & H2 & H3).
  split; [exact H1|]. split; [apply H2; reflexivity|apply H3; reflexivity].
Defined.

(** ** Free-form SQL: classification and routing *)

Section Classification.
Import strings.

Lemma is_space_upper_char (c : ascii) : is_space (upper_char c) = is_space c.
Proof. destruct c as [[] [] [] [] [] [] [] []]; reflexivity. Qed.

Lemma upper_char_idem (c : ascii) : upper_char (upper_char c) = upper_char c.
Proof. destruct c as [[] [] [] [] [] [] [] []]; reflexivity. Qed.

Lemma TrimLeft_ToUpper (s : string) : TrimLeft (ToUpper s) = ToUpper (TrimLeft s).
Proof.
  induction s as [|c s IH]; [done|]. cbn.
  rewrite is_space_upper_char. by destruct (is_space c).
Qed.

Lemma TrimRight_ToUpper (s : string) : TrimRight (ToUpper s) = ToUpper (TrimRight s).
Proof.
  induction s as [|c s IH]; [done|]. cbn. fold (ToUpper s).
  rewrite IH, is_space_upper_char.
  destruct (TrimRight s); cbn; [by destruct (is_space c)|done].
Qed.

(** Upper-casing and trimming commute, so the code's
    [TrimSpace(ToUpper(sql))] upper-cases the trimmed statement. *)
Lemma TrimSpace_ToUpper (s : string) : TrimSpace (ToUpper s) = ToUpper (TrimSpace s).
Proof. unfold TrimSpace. by rewrite TrimLeft_ToUpper, TrimRight_ToUpper. Qed.

(** The white space of the specification is the white space
    [TrimSpace] strips. *)
Lemma blank_is_space (c : ascii) : blank c = is_space c.
Proof. destruct c as [[] [] [] [] [] [] [] []]; reflexivity. Qed.

Lemma without_leading_blanks_TrimLeft (s : string) :
  without_leading_blanks s = TrimLeft s.
Proof.
  induction s as [|c s IH]; [done|]. cbn [without_leading_blanks TrimLeft].
  by rewrite blank_is_space, IH.
Qed.

Lemma reversed_onto_app (acc s t : string) :
  reversed_onto acc (s ++ t) = reversed_onto (reversed_onto acc s) t.
Proof. revert acc. induction s as [|c s IH]; intros acc; [done|]. cbn. apply IH. Qed.

Lemma reversed_onto_acc (acc s : string) :
  reversed_onto acc s = reversed s ++ acc.
Proof.
  unfold reversed. revert acc. induction s as [|c s IH]; intros acc; [done|].
  cbn. rewrite IH, (IH (String c EmptyString)), append_assoc. done.
Qed.

Lemma reversed_snoc (s : string) (c : ascii) :
  reversed (s ++ String c EmptyString) = String c (reversed s).
Proof. unfold reversed. by rewrite reversed_onto_app. Qed.

Lemma reversed_cons (s : string) (c : ascii) :
  reversed (String c s) = reversed s ++ String c EmptyString.
Proof. unfold reversed at 1. cbn. apply reversed_onto_acc. Qed.

Lemma TrimRight_snoc (s : string) (c : ascii) :
  TrimRight (s ++ String c EmptyString)
  = if is_space c then TrimRight s else s ++ String c EmptyString.
Proof.
  induction s as [|a s IH]; cbn [String.append TrimRight].
  - by destruct (is_space c).
  - rewrite IH. destruct (is_space c); [done|].
    by destruct s.
Qed.

(** Taking the white space off the end, written with a reversal, is
    [TrimRight]. *)
Lemma reversed_TrimRight (s : string) :
  reversed (without_leading_blanks (reversed s)) = TrimRight s.
Proof.
  assert (∀ r, reversed (without_leading_blanks r) = TrimRight (reversed r)) as H.
  { induction r as [|c r IH]; [done|].
    rewrite reversed_cons, TrimRight_snoc. cbn [without_leading_blanks].
    rewrite blank_is_space. destruct (is_space c); [done|].
    by rewrite reversed_cons. }
  rewrite H. f_equal.
  induction s as [|c s IH]; [done|].
  by rewrite reversed_cons, reversed_snoc, IH.
Qed.

Lemma trimmed_TrimSpace (s : string) : trimmed s = TrimSpace s.
Proof.
  unfold trimmed, TrimSpace.
  by rewrite reversed_TrimRight, without_leading_blanks_TrimLeft.
Qed.

(** A capital letter is met by the upper-cased character exactly when
    the character is that letter in one of its two cases. *)
Lemma upper_char_meets (c u : ascii) :
  is_upper u = true →
  Ascii.eqb (upper_char c) u = Ascii.eqb c u || Ascii.eqb c (lower_char u).
Proof.
  destruct u as [[] [] [] [] [] [] [] []]; try discriminate; intros _;
    destruct c as [[] [] [] [] [] [] [] []]; reflexivity.
Qed.

Lemma HasPrefix_ToUpper (s keyword : string) :
  all_chars is_upper keyword = true →
  HasPrefix (ToUpper s) keyword
  = begins_in_either_case s keyword (ToLower keyword).
Proof.
  revert s. induction keyword as [|k keyword IH]; intros s Hup; [by destruct s|].
  cbn in Hup. apply andb_true_iff in Hup as [Hk Hkw].
  destruct s as [|c s]; [done|].
  cbn. fold (ToUpper s) (ToLower keyword).
  by rewrite upper_char_meets, IH.
Qed.

Lemma autoDetect_classified (sql : string) :
  GenericSQLTool.autoDetect sql = classified_as_query sql.
Proof.
  unfold GenericSQLTool.autoDetect, classified_as_query, query_keywords.
  rewrite TrimSpace_ToUpper, trimmed_TrimSpace. cbn [existsb fst snd].
  rewrite !HasPrefix_ToUpper by reflexivity.
  by rewrite orb_false_r, !orb_assoc.
Qed.
End Classification.

(** Running a handler: the plumbing of the monad, one step at a time. *)
Section Run.
Context {W : Type} (useCase : UseCaseProvider W).

Lemma bind_run {A B} (m : M W A) (f : A → M W B) (s : St W) :
  (m ≫= f) s = let '(a, s') := m s in f a s'.
Proof. reflexivity. Qed.

Lemma ret_run {A} (a : A) (s : St W) : mret (M := M W) a s = (a, s).
Proof. reflexivity. Qed.

Lemma getDatabaseType_run dbID (s : St W) :
  getDatabaseType useCase dbID s
  = ((GetDatabaseType useCase dbID (world s)).1,
     {| world := (GetDatabaseType useCase dbID (world s)).2;
        executed := executed s |}).
Proof.
  unfold getDatabaseType, lift. by destruct (GetDatabaseType _ _ _).
Qed.

Lemma executeQuery_run dbID query params (s : St W) :
  executeQuery useCase dbID query params s
  = ((ExecuteQuery useCase dbID query params (world s)).1,
     {| world := (ExecuteQuery useCase dbID query params (world s)).2;
        executed := (executed s ++
          [{| call_kind := Query; call_db := dbID;
              call_sql := query; call_params := params |}])%list |}).
Proof.
  unfold executeQuery, record, lift. rewrite bind_run. cbn.
  by destruct (ExecuteQuery _ _ _ _ _).
Qed.

Lemma executeStatement_run dbID statement params (s : St W) :
  executeStatement useCase dbID statement params s
  = ((ExecuteStatement useCase dbID statement params (world s)).1,
     {| world := (ExecuteStatement useCase dbID statement params (world s)).2;
        executed := (executed s ++
          [{| call_kind := Statement; call_db := dbID;
              call_sql := statement; call_params := params |}])%list |}).
Proof.
  unfold executeStatement, record, lift. rewrite bind_run. cbn.
  by destruct (ExecuteStatement _ _ _ _ _).
Qed.
End Run.

(** C4: with [isQuery] absent, [ExecuteSQL] hands a statement of ASCII
    text to [ExecuteQuery] if and only if the text, white space trimmed,
    begins (letter case ignored) with SELECT, SHOW, DESCRIBE or EXPLAIN;
    every other statement goes to [ExecuteStatement] instead. Exactly
    one executor call is made, with the statement as the caller wrote
    it. *)
Theorem execute_sql_auto_detection {W} (useCase : UseCaseProvider W)
    (request : ToolCallRequest) (sql targetDbID : string) (s : St W) :
  strings.isASCII sql = true →
  Parameters request !! "sql" = Some (VString sql) →
  Parameters request !! "database" = Some (VString targetDbID) →
  Parameters request !! "isQuery" = None →
  executed (GenericSQLTool.HandleRequest useCase request s).2
  = (executed s ++
      [{| call_kind := if classified_as_query sql then Query else Statement;
          call_db := targetDbID;
          call_sql := sql;
          call_params := optional as_array [] (param request "params") |}])%list
  ∧ (GenericSQLTool.autoDetect sql = true ↔ classified_as_query sql = true).
Proof.
  intros _ Hsql Hdb Habsent. split; [|by rewrite autoDetect_classified].
  unfold GenericSQLTool.HandleRequest, param.
  rewrite Hsql, Hdb, Habsent. cbn [default from_option id as_string is_nil negb].
  rewrite autoDetect_classified, bind_run.
  destruct (classified_as_query sql).
  - rewrite executeQuery_run. by destruct (ExecuteQuery _ _ _ _ _).1.
  - rewrite executeStatement_run. by destruct (ExecuteStatement _ _ _ _ _).1.
Qed.

Lemma execute_sql_auto_detection_witness :
  executed (GenericSQLTool.HandleRequest demo
    (request_of [("sql", VString "UPDATE t SET x=1"); ("database", VString "pg1")])
    start).2
  = [{| call_kind := Statement; call_db := "pg1";
        call_sql := "UPDATE t SET x=1"; call_params := [] |}]
  ∧ executed (GenericSQLTool.HandleRequest demo
      (request_of [("sql", VString "  select 1 "); ("database", VString "pg1")])
      start).2
    = [{| call_kind := Query; call_db := "pg1";
          call_sql := "  select 1 "; call_params := [] |}].
Proof.
  split.
  - destruct (execute_sql_auto_detection demo
      (request_of [("sql", VString "UPDATE t SET x=1"); ("database", VString "pg1")])
      "UPDATE t SET x=1" "pg1" start) as [H _];
      [reflexivity|reflexivity|reflexivity|reflexivity|exact H].
  - destruct (execute_sql_auto_detection demo
      (request_of [("sql", VString "  select 1 "); ("database", VString "pg1")])
      "  select 1 " "pg1" start) as [H _];
      [reflexivity|reflexivity|reflexivity|reflexivity|exact H].
Defined.

(** ** Statistics capabilities: aggregation and partial failure *)

Section Aggregation.
Context {W : Type} (useCase : UseCaseProvider W).

Lemma join_app (xs ys : list string) : join (xs ++ ys) = join xs ++ join ys.
Proof.
  induction xs as [|x xs IH]; cbn; [done|].
  by rewrite IH, append_assoc.
Qed.

Lemma outcomes_length dbID queries (w : W) :
  length (outcomes useCase dbID queries w).1 = length queries.
Proof.
  revert w. induction queries as [|q qs IH]; intros w; cbn; [done|].
  destruct (ExecuteQuery _ _ _ _ _) as [o w']. specialize (IH w').
  destruct (outcomes _ _ _ _) as [os w'']. cbn in *. by rewrite IH.
Qed.

(** The loop appends one section per statement, in order, and hands
    every statement to the executor, in order. *)
Lemma executeEach_run dbID queries results (s : St W) :
  executeEach useCase dbID queries results s
  = (results ++
       join (zip_with report_section queries
               (outcomes useCase dbID queries (world s)).1),
     {| world := (outcomes useCase dbID queries (world s)).2;
        executed := (executed s ++ map (query_call dbID) queries)%list |}).
Proof.
  revert results s. induction queries as [|q qs IH]; intros results s.
  - cbn. rewrite append_empty_r, app_nil_r. by destruct s.
  - cbn [executeEach]. rewrite bind_run, executeQuery_run.
    cbn [outcomes]. destruct (ExecuteQuery _ _ _ _ _) as [o w'].
    cbn [fst snd].
    destruct o as [result|err]; rewrite IH; cbn [world executed];
      destruct (outcomes _ _ _ _) as [os w'']; cbn [fst snd zip_with join];
      rewrite <- app_assoc; cbn [app]; f_equal.
    + cbn [report_section]. by str_norm.
    + cbn [report_section]. unfold error_marker. cbn. by str_norm.
Qed.

Lemma report_sections_length queries (outs : list (result string)) :
  length outs = length queries →
  length (zip_with report_section queries outs) = length queries.
Proof. intros H. rewrite length_zip_with. lia. Qed.

Lemma report_section_lookup queries (outs : list (result string)) i query o :
  queries !! i = Some query → outs !! i = Some o →
  zip_with report_section queries outs !! i = Some (report_section query o).
Proof.
  intros Hq Ho. rewrite lookup_zip_with, Hq. cbn. by rewrite Ho.
Qed.
End Aggregation.

Section StatsHandlers.
Context {W : Type} (useCase : UseCaseProvider W).

Lemma DbStatsTool_run (request : ToolCallRequest) (s : St W)
    (targetDbID dbType : string) (w1 : W) (queries : list string) :
  as_string (param request "database") = Some targetDbID →
  GetDatabaseType useCase targetDbID (world s) = (Ok dbType, w1) →
  statsQueries dbType (optional as_bool false (param request "detailed"))
  = Some queries →
  DbStatsTool.HandleRequest useCase request s
  = (Ok (TextResponse
           (("# Database Statistics for " ++ targetDbID ++ " (" ++ dbType ++ ")

") ++ join (zip_with report_section queries
                   (outcomes useCase targetDbID queries w1).1))),
     {| world := (outcomes useCase targetDbID queries w1).2;
        executed := (executed s ++ map (query_call targetDbID) queries)%list |}).
Proof.
  intros Hdb Hty Hq. unfold DbStatsTool.HandleRequest. rewrite Hdb.
  rewrite bind_run, getDatabaseType_run, Hty. cbn [fst snd].
  unfold statsQueries in Hq.
  destruct (String.eqb (strings.ToLower dbType) "postgres");
    [|destruct (String.eqb (strings.ToLower dbType) "mysql"); [|done]];
    injection Hq as <-;
    rewrite bind_run, executeEach_run; cbn [world executed fst snd];
    rewrite ret_run; unfold createTextResponse; do 3 f_equal;
    cbn; by str_norm.
Qed.

Lemma TableStatsTool_run (request : ToolCallRequest) (s : St W)
    (targetDbID tableName dbType : string) (w1 : W) (queries : list string) :
  as_string (param request "database") = Some targetDbID →
  as_string (param request "table") = Some tableName →
  GetDatabaseType useCase targetDbID (world s) = (Ok dbType, w1) →
  tableStatsQueries dbType tableName
    (optional as_bool false (param request "detailed")) = Some queries →
  TableStatsTool.HandleRequest useCase request s
  = (Ok (TextResponse
           (("# Table Statistics for " ++ targetDbID ++ "." ++ tableName ++ "

") ++ join (zip_with report_section queries
                   (outcomes useCase targetDbID queries w1).1))),
     {| world := (outcomes useCase targetDbID queries w1).2;
        executed := (executed s ++ map (query_call targetDbID) queries)%list |}).
Proof.
  intros Hdb Htb Hty Hq. unfold TableStatsTool.HandleRequest. rewrite Hdb, Htb.
  rewrite bind_run, getDatabaseType_run, Hty. cbn [fst snd].
  unfold tableStatsQueries in Hq.
  destruct (String.eqb (strings.ToLower dbType) "postgres");
    [|destruct (String.eqb (strings.ToLower dbType) "mysql"); [|done]];
    injection Hq as <-;
    rewrite bind_run, executeEach_run; cbn [world executed fst snd];
    rewrite ret_run; unfold createTextResponse; do 3 f_equal;
    cbn; by str_norm.
Qed.

(** The report built from the outcomes is the one the specification
    describes when exactly statement [k] fails. *)
Lemma report_partial_failure heading queries (outs : list (result string)) k :
  length outs = length queries →
  (k < length queries)%nat →
  only_fails outs k →
  partial_failure_report heading queries outs k
    (heading ++ join (zip_with report_section queries outs)).
Proof.
  intros Hlen Hk [[err Herr] Hothers].
  exists (zip_with report_section queries outs).
  split; [done|]. split; [by apply report_sections_length|]. split.
  - destruct (lookup_lt_is_Some_2 queries k Hk) as [query Hquery].
    exists query, err. split; [done|]. split; [done|].
    by rewrite (report_section_lookup _ _ _ _ _ Hquery Herr).
  - intros i Hne Hi.
    destruct (lookup_lt_is_Some_2 queries i Hi) as [query Hquery].
    destruct (lookup_lt_is_Some_2 outs i) as [o Ho]; [lia|].
    destruct (Hothers i o Hne Ho) as [res ->].
    exists res. split; [done|].
    by rewrite (report_section_lookup _ _ _ _ _ Hquery Ho).
Qed.

(** C1: when a statistics capability (GetStats, GetTableStats) builds
    N statements and exactly statement [k] fails, the call succeeds;
    its report is the heading followed by N sections in the order the
    builder emitted the statements; section [k] is the inline marker
    [Error executing query: <statement> <error>] and the other N-1
    sections are the results of their statements. Every statement is
    handed to the executor, in the builder's order. *)
Theorem stats_partial_failure (request : ToolCallRequest) (s : St W)
    (targetDbID dbType : string) (w1 : W) (queries : list string) (k : nat) :
  as_string (param request "database") = Some targetDbID →
  GetDatabaseType useCase targetDbID (world s) = (Ok dbType, w1) →
  (k < length queries)%nat →
  only_fails (outcomes useCase targetDbID queries w1).1 k →
  let detailed := optional as_bool false (param request "detailed") in
  let outs := (outcomes useCase targetDbID queries w1).1 in
  (statsQueries dbType detailed = Some queries →
   ∃ text,
     (DbStatsTool.HandleRequest useCase request s).1 = Ok (TextResponse text)
     ∧ partial_failure_report
         ("# Database Statistics for " ++ targetDbID ++ " (" ++ dbType ++ ")

") queries outs k text
     ∧ executed (DbStatsTool.HandleRequest useCase request s).2
       = (executed s ++ map (query_call targetDbID) queries)%list)
  ∧ (∀ tableName,
       as_string (param request "table") = Some tableName →
       tableStatsQueries dbType tableName detailed = Some queries →
       ∃ text,
         (TableStatsTool.HandleRequest useCase request s).1 = Ok (TextResponse text)
         ∧ partial_failure_report
             ("# Table Statistics for " ++ targetDbID ++ "." ++ tableName ++ "

") queries outs k text
         ∧ executed (TableStatsTool.HandleRequest useCase request s).2
           = (executed s ++ map (query_call targetDbID) queries)%list).
Proof.
  intros Hdb Hty Hk Hfail detailed outs. split.
  - intros Hq. rewrite (DbStatsTool_run _ _ _ _ _ _ Hdb Hty Hq).
    eexists. split; [reflexivity|]. split; [|reflexivity].
    apply report_partial_failure; [apply outcomes_length|done..].
  - intros tableName Htb Hq.
    rewrite (TableStatsTool_run _ _ _ _ _ _ _ Hdb Htb Hty Hq).
    eexists. split; [reflexivity|]. split; [|reflexivity].
    apply report_partial_failure; [apply outcomes_length|done..].
Qed.
End StatsHandlers.

Lemma demo_only_second_fails :
  only_fails [Ok "ok"; Err "connection reset"; Ok "ok"] 1.
Proof.
  split; [by eexists|].
  intros [|[|[|i]]] o Hne Hlook; cbn in Hlook; simplify_eq; by eexists.
Defined.

Lemma stats_partial_failure_witness :
  ∃ text,
    (DbStatsTool.HandleRequest demo (request_of [("database", VString "pg1")]) start).1
    = Ok (TextResponse text)
    ∧ partial_failure_report "# Database Statistics for pg1 (postgres)

" (getPostgresStatsQueries false) [Ok "ok"; Err "connection reset"; Ok "ok"] 1 text
    ∧ executed
        (DbStatsTool.HandleRequest demo (request_of [("database", VString "pg1")]) start).2
      = map (query_call "pg1") (getPostgresStatsQueries false).
Proof.
  destruct (stats_partial_failure demo (request_of [("database", VString "pg1")]) start
              "pg1" "postgres" 0%nat (getPostgresStatsQueries false) 1) as [H _].
  - reflexivity.
  - reflexivity.
  - cbn. lia.
  - exact demo_only_second_fails.
  - exact (H eq_refl).
Defined.

(** ** Dialect resolution and dispatch *)

Lemma param_lookup (request : ToolCallRequest) (key : string) (v : value) :
  Parameters request !! key = Some v → param request key = v.
Proof. intros H. unfold param. by rewrite H. Qed.

Lemma as_string_param (request : ToolCallRequest) (key x : string) :
  Parameters request !! key = Some (VString x) →
  as_string (param request key) = Some x.
Proof. intros H. by rewrite (param_lookup _ _ _ H). Qed.

Lemma unsupported_dialect_eqb (dbType : string) :
  unsupported_dialect dbType →
  String.eqb (strings.ToLower dbType) "postgres" = false
  ∧ String.eqb (strings.ToLower dbType) "mysql" = false.
Proof. intros [Hpg Hmy]. by rewrite !String.eqb_neq. Qed.

(** The first steps every dialect-resolving handler shares. *)
Ltac resolve_dialect Hdb Hty :=
  rewrite (as_string_param _ _ _ Hdb);
  repeat match goal with
    | |- context [as_string ?v] => destruct (as_string v)
    end;
  rewrite ?ret_run, ?bind_run, ?getDatabaseType_run, ?Hty; cbn [fst snd].

Ltac abort_unresolved :=
  intros W useCase request targetDbID s err w1 Hdb Hty;
  unfold fails_without_executing;
  resolve_dialect Hdb Hty;
  rewrite ?ret_run; cbn [fst snd executed]; eauto.

Ltac abort_unsupported :=
  intros W useCase request targetDbID s dbType w1 Hdb Hty
    [Hpg Hmy]%unsupported_dialect_eqb;
  unfold fails_without_executing;
  resolve_dialect Hdb Hty;
  rewrite ?Hpg, ?Hmy, ?ret_run; cbn [fst snd executed]; eauto.

Lemma DbStatsTool_unresolved : aborts_on_unresolved_dialect (@DbStatsTool.HandleRequest).
Proof. unfold DbStatsTool.HandleRequest. abort_unresolved. Qed.

Lemma DbStatsTool_unsupported : aborts_on_unsupported_dialect (@DbStatsTool.HandleRequest).
Proof. unfold DbStatsTool.HandleRequest. abort_unsupported. Qed.

Lemma TableStatsTool_unresolved :
  aborts_on_unresolved_dialect (@TableStatsTool.HandleRequest).
Proof. unfold TableStatsTool.HandleRequest. abort_unresolved. Qed.

Lemma TableStatsTool_unsupported :
  aborts_on_unsupported_dialect (@TableStatsTool.HandleRequest).
Proof. unfold TableStatsTool.HandleRequest. abort_unsupported. Qed.

Lemma GetIndexesTool_unresolved :
  aborts_on_unresolved_dialect (@GetIndexesTool.HandleRequest).
Proof. unfold GetIndexesTool.HandleRequest. abort_unresolved. Qed.

Lemma GetIndexesTool_unsupported :
  aborts_on_unsupported_dialect (@GetIndexesTool.HandleRequest).
Proof. unfold GetIndexesTool.HandleRequest. abort_unsupported. Qed.

Lemma GetConstraintsTool_unresolved :
  aborts_on_unresolved_dialect (@GetConstraintsTool.HandleRequest).
Proof. unfold GetConstraintsTool.HandleRequest. abort_unresolved. Qed.

Lemma GetConstraintsTool_unsupported :
  aborts_on_unsupported_dialect (@GetConstraintsTool.HandleRequest).
Proof. unfold GetConstraintsTool.HandleRequest. abort_unsupported. Qed.

Lemma GetViewsTool_unresolved :
  aborts_on_unresolved_dialect (@GetViewsTool.HandleRequest).
Proof. unfold GetViewsTool.HandleRequest. abort_unresolved. Qed.

Lemma GetViewsTool_unsupported :
  aborts_on_unsupported_dialect (@GetViewsTool.HandleRequest).
Proof. unfold GetViewsTool.HandleRequest. abort_unsupported. Qed.

Lemma GetTypesTool_unresolved :
  aborts_on_unresolved_dialect (@GetTypesTool.HandleRequest).
Proof. unfold GetTypesTool.HandleRequest. abort_unresolved. Qed.

Lemma GetTypesTool_unsupported :
  aborts_on_unsupported_dialect (@GetTypesTool.HandleRequest).
Proof. unfold GetTypesTool.HandleRequest. abort_unsupported. Qed.

Lemma GetSchemasTool_unresolved :
  aborts_on_unresolved_dialect (@GetSchemasTool.HandleRequest).
Proof. unfold GetSchemasTool.HandleRequest. abort_unresolved. Qed.

Lemma GetSchemasTool_unsupported :
  aborts_on_unsupported_dialect (@GetSchemasTool.HandleRequest).
Proof. unfold GetSchemasTool.HandleRequest. abort_unsupported. Qed.

Lemma GetSampleDataTool_unresolved :
  aborts_on_unresolved_dialect (@GetSampleDataTool.HandleRequest).
Proof. unfold GetSampleDataTool.HandleRequest. abort_unresolved. Qed.

Lemma GetUniqueValuesTool_unresolved :
  aborts_on_unresolved_dialect (@GetUniqueValuesTool.HandleRequest).
Proof. unfold GetUniqueValuesTool.HandleRequest. abort_unresolved. Qed.

(** C2 as the specification states it, for every capability, fails:
    ExecuteSQL never resolves the dialect and hands the caller's
    statement to the executor whatever the connection's dialect is. *)
Lemma execute_sql_ignores_dialect :
  ¬ aborts_on_unsupported_dialect (@GenericSQLTool.HandleRequest).
Proof.
  intros Habort.
  destruct (Habort nat demo
              (request_of [("sql", VString "SELECT 1"); ("database", VString "lite1")])
              "lite1" start "sqlite" 0%nat eq_refl eq_refl) as [[msg Hmsg] _].
  - split; discriminate.
  - discriminate Hmsg.
Qed.

(** C2, amended: the capabilities that select their builder by a switch
    on the dialect (GetStats, GetTableStats, GetIndexes, GetConstraints,
    GetViews, GetTypes, GetSchemas) fail, with nothing handed to the
    executor, when the connection's dialect is neither postgres nor
    mysql or cannot be resolved; GetSampleData and GetUniqueValues fail
    in the same way when the dialect cannot be resolved. *)
Theorem dialect_switch_aborts_before_execution :
  (aborts_on_unsupported_dialect (@DbStatsTool.HandleRequest)
   ∧ aborts_on_unsupported_dialect (@TableStatsTool.HandleRequest)
   ∧ aborts_on_unsupported_dialect (@GetIndexesTool.HandleRequest)
   ∧ aborts_on_unsupported_dialect (@GetConstraintsTool.HandleRequest)
   ∧ aborts_on_unsupported_dialect (@GetViewsTool.HandleRequest)
   ∧ aborts_on_unsupported_dialect (@GetTypesTool.HandleRequest)
   ∧ aborts_on_unsupported_dialect (@GetSchemasTool.HandleRequest))
  ∧ (aborts_on_unresolved_dialect (@DbStatsTool.HandleRequest)
     ∧ aborts_on_unresolved_dialect (@TableStatsTool.HandleRequest)
     ∧ aborts_on_unresolved_dialect (@GetIndexesTool.HandleRequest)
     ∧ aborts_on_unresolved_dialect (@GetConstraintsTool.HandleRequest)
     ∧ aborts_on_unresolved_dialect (@GetViewsTool.HandleRequest)
     ∧ aborts_on_unresolved_dialect (@GetTypesTool.HandleRequest)
     ∧ aborts_on_unresolved_dialect (@GetSchemasTool.HandleRequest)
     ∧ aborts_on_unresolved_dialect (@GetSampleDataTool.HandleRequest)
     ∧ aborts_on_unresolved_dialect (@GetUniqueValuesTool.HandleRequest)).
Proof.
  split.
  - split_and!;
      [ apply DbStatsTool_unsupported | apply TableStatsTool_unsupported
      | apply GetIndexesTool_unsupported | apply GetConstraintsTool_unsupported
      | apply GetViewsTool_unsupported | apply GetTypesTool_unsupported
      | apply GetSchemasTool_unsupported ].
  - split_and!;
      [ apply DbStatsTool_unresolved | apply TableStatsTool_unresolved
      | apply GetIndexesTool_unresolved | apply GetConstraintsTool_unresolved
      | apply GetViewsTool_unresolved | apply GetTypesTool_unresolved
      | apply GetSchemasTool_unresolved | apply GetSampleDataTool_unresolved
      | apply GetUniqueValuesTool_unresolved ].
Qed.

Lemma dialect_switch_aborts_before_execution_witness :
  fails_without_executing
    (GetSchemasTool.HandleRequest demo (request_of [("database", VString "lite1")]))
    start
  ∧ fails_without_executing
      (GetSampleDataTool.HandleRequest demo
         (request_of [("database", VString "nowhere"); ("table", VString "orders")]))
      start.
Proof.
  destruct dialect_switch_aborts_before_execution
    as [(_ & _ & _ & _ & _ & _ & Hschemas) (_ & _ & _ & _ & _ & _ & _ & Hsample & _)].
  split.
  - apply (Hschemas nat demo _ "lite1" start "sqlite" 0%nat); [reflexivity..|].
    split; discriminate.
  - by apply (Hsample nat demo _ "nowhere" start "database not found: nowhere" 0%nat).
Defined.

(** C9: on a connection whose dialect is mysql, GetTypes succeeds with a
    fixed informational text and hands nothing to the executor. *)
Theorem get_types_mysql_is_informational {W} (useCase : UseCaseProvider W)
    (request : ToolCallRequest) (targetDbID dbType : string) (s : St W) (w1 : W) :
  Parameters request !! "database" = Some (VString targetDbID) →
  GetDatabaseType useCase targetDbID (world s) = (Ok dbType, w1) →
  strings.ToLower dbType = "mysql" →
  GetTypesTool.HandleRequest useCase request s
  = (Ok (TextResponse
       "MySQL does not support custom data types in the same way as PostgreSQL. It only has built-in data types."),
     {| world := w1; executed := executed s |}).
Proof.
  intros Hdb Hty Hmysql. unfold GetTypesTool.HandleRequest.
  resolve_dialect Hdb Hty. by rewrite Hmysql.
Qed.

Lemma get_types_mysql_is_informational_witness :
  GetTypesTool.HandleRequest demo
    (request_of [("database", VString "my1"); ("type_name", VString "mood")]) start
  = (Ok (TextResponse
       "MySQL does not support custom data types in the same way as PostgreSQL. It only has built-in data types."),
     start).
Proof.
  exact (get_types_mysql_is_informational demo
           (request_of [("database", VString "my1"); ("type_name", VString "mood")])
           "my1" "mysql" start 0%nat eq_refl eq_refl eq_refl).
Defined.
(** ** Occurrences of a keyword in a concatenation *)

Section Occurrences.
Import strings.

Lemma HasPrefix_app_clear (a b q : string) :
  clear_of b q = true → HasPrefix (a ++ b) q = HasPrefix a q.
Proof.
  revert q. induction a as [|x a IH]; intros q Hclear.
  - destruct q as [|k q]; [done|].
    cbn [clear_of] in Hclear. apply andb_true_iff in Hclear as [Hb _].
    apply negb_true_iff in Hb. cbn [String.append]. by rewrite Hb.
  - destruct q as [|k q]; [done|]. cbn [String.append HasPrefix].
    cbn [clear_of] in Hclear. apply andb_true_iff in Hclear as [_ Hclear].
    by rewrite IH.
Qed.

(** A keyword occurs in [a ++ b] only inside [a] or inside [b], when it
    cannot straddle the seam. *)
Lemma Contains_app (a b : string) (k : ascii) (p : string) :
  clear_of b p = true →
  Contains (a ++ b) (String k p) = Contains a (String k p) || Contains b (String k p).
Proof.
  intros Hclear. induction a as [|x a IH].
  - done.
  - cbn [String.append Contains]. rewrite IH. cbn [HasPrefix].
    rewrite (HasPrefix_app_clear _ _ _ Hclear). by rewrite orb_assoc.
Qed.

Lemma eqb_of_occurs (c k : ascii) (p : string) :
  occurs c (String k p) = false → Ascii.eqb c k = false ∧ occurs c p = false.
Proof.
  cbn. intros [H1 H2]%orb_false_iff. by rewrite Ascii.eqb_sym.
Qed.

(** Doubling a quote character neither creates nor destroys an
    occurrence of a keyword that has no such character. *)
Lemma HasPrefix_escaped (q : ascii) (s p : string) :
  occurs q p = false →
  HasPrefix (ReplaceAll s (String q EmptyString) (String q (String q EmptyString))) p
  = HasPrefix s p.
Proof.
  unfold ReplaceAll. revert p. induction s as [|c s IH]; intros p Hq; [done|].
  destruct p as [|k p]; [done|].
  apply eqb_of_occurs in Hq as [Hqk Hqp].
  cbn [replace_from HasPrefix String.length Nat.sub].
  destruct (Ascii.eqb_spec c q) as [->|Hne]; cbn [andb String.append HasPrefix].
  - by rewrite Hqk.
  - by rewrite IH.
Qed.

Lemma Contains_escaped (q : ascii) (s : string) (k : ascii) (p : string) :
  occurs q (String k p) = false →
  Contains (ReplaceAll s (String q EmptyString) (String q (String q EmptyString)))
    (String k p)
  = Contains s (String k p).
Proof.
  intros Hq. induction s as [|c s IH]; [done|].
  cbn [Contains]. rewrite <- IH.
  rewrite <- (HasPrefix_escaped q (String c s) (String k p) Hq).
  unfold ReplaceAll.
  cbn [replace_from HasPrefix String.length Nat.sub].
  apply eqb_of_occurs in Hq as [Hqk _].
  destruct (Ascii.eqb_spec c q) as [->|Hne]; cbn [andb String.append Contains HasPrefix].
  - by rewrite Hqk.
  - done.
Qed.

Lemma uint_chars (d : Decimal.uint) :
  all_chars is_decimal_char (NilEmpty.string_of_uint d) = true.
Proof. induction d; cbn; done. Qed.

Lemma decimal_chars (n : Z) : all_chars is_decimal_char (fmt.decimal n) = true.
Proof.
  unfold fmt.decimal, NilZero.string_of_int, NilZero.string_of_uint.
  destruct (Z.to_int n) as [d|d]; destruct d; cbn; try done; apply uint_chars.
Qed.

Lemma Contains_other_chars (f : ascii → bool) (s : string) (k : ascii) (p : string) :
  all_chars f s = true → f k = false → Contains s (String k p) = false.
Proof.
  intros Hs Hk. induction s as [|c s IH]; [done|].
  cbn in Hs. apply andb_true_iff in Hs as [Hc Hs].
  cbn. rewrite (IH Hs), orb_false_r.
  destruct (Ascii.eqb_spec c k) as [->|]; [congruence|done].
Qed.

Lemma Contains_decimal (n : Z) (k : ascii) (p : string) :
  is_decimal_char k = false → Contains (fmt.decimal n) (String k p) = false.
Proof. apply Contains_other_chars, decimal_chars. Qed.
End Occurrences.

Lemma is_empty_true (s : string) : is_empty s = true → s = EmptyString.
Proof. by destruct s. Qed.

Lemma HasSuffix_refl (s : string) : strings.HasSuffix s s = true.
Proof. destruct s; cbn; by rewrite ?Ascii.eqb_refl, ?String.eqb_refl. Qed.

Lemma HasSuffix_cons (c : ascii) (s suffix : string) :
  strings.HasSuffix s suffix = true → strings.HasSuffix (String c s) suffix = true.
Proof. intros H. cbn [strings.HasSuffix]. rewrite H. apply orb_true_r. Qed.

Lemma HasSuffix_app (a b suffix : string) :
  strings.HasSuffix b suffix = true → strings.HasSuffix (a ++ b) suffix = true.
Proof.
  intros H. induction a as [|c a IH]; [done|].
  cbn [String.append]. by apply HasSuffix_cons.
Qed.

(** Walk to the end of a concatenation whose last literal is the suffix. *)
Ltac ends_with :=
  cbn [String.append];
  repeat (apply HasSuffix_refl || apply HasSuffix_app || apply HasSuffix_cons).

(** Peel literal text off the front of a string searched for a keyword,
    and split the search at every seam the keyword cannot straddle. *)
Ltac peel :=
  cbn [strings.Contains strings.HasPrefix String.append Ascii.eqb Bool.eqb andb orb negb].

Ltac seams :=
  repeat (peel
          || (rewrite Contains_app by reflexivity)
          || (rewrite Contains_escaped by reflexivity)
          || (rewrite Contains_decimal by reflexivity)).

Ltac by_cases_on_occurrences :=
  repeat match goal with
    | |- context [strings.Contains ?s ?k] => is_var s; destruct (strings.Contains s k)
    end;
  reflexivity.

(** ** GetSampleData *)

Lemma buildSampleDataQuery_random dbType tableName limit whereClause orderByClause :
  buildSampleDataQuery dbType tableName limit whereClause orderByClause true
  = random_sample_form dbType tableName limit whereClause.
Proof.
  unfold buildSampleDataQuery, random_sample_form, quoted, random_function,
    where_part, is_postgres.
  destruct (String.eqb _ _); destruct (is_empty whereClause);
    cbn; unfold dquote; by str_norm.
Qed.

Lemma buildSampleDataQuery_ordered dbType tableName limit whereClause orderByClause :
  is_empty orderByClause = false →
  buildSampleDataQuery dbType tableName limit whereClause orderByClause false
  = ordered_sample_form dbType tableName limit whereClause orderByClause.
Proof.
  intros Hob.
  unfold buildSampleDataQuery, ordered_sample_form, quoted, where_part, is_postgres.
  rewrite Hob.
  destruct (String.eqb _ _); destruct (is_empty whereClause);
    cbn; unfold dquote; by str_norm.
Qed.

Lemma random_sample_form_suffix dbType tableName limit whereClause :
  strings.HasSuffix (random_sample_form dbType tableName limit whereClause)
    (" ORDER BY " ++ random_function dbType ++ " LIMIT " ++ fmt.decimal limit) = true.
Proof. unfold random_sample_form. ends_with. Qed.

Section SampleData.
Context {W : Type} (useCase : UseCaseProvider W).

Lemma GetSampleDataTool_run (request : ToolCallRequest) (s : St W)
    (targetDbID tableName dbType : string) (w1 : W) :
  Parameters request !! "database" = Some (VString targetDbID) →
  Parameters request !! "table" = Some (VString tableName) →
  GetDatabaseType useCase targetDbID (world s) = (Ok dbType, w1) →
  executed (GetSampleDataTool.HandleRequest useCase request s).2
  = (executed s ++
     [query_call targetDbID
        (buildSampleDataQuery dbType tableName
           (optional as_float64 10%Z (param request "limit"))
           (optional as_string EmptyString (param request "where"))
           (optional as_string EmptyString (param request "order_by"))
           (optional as_bool false (param request "random")))])%list.
Proof.
  intros Hdb Htb Hty. unfold GetSampleDataTool.HandleRequest.
  rewrite (as_string_param _ _ _ Hdb), (as_string_param _ _ _ Htb).
  rewrite bind_run, getDatabaseType_run, Hty. cbn [fst snd].
  rewrite bind_run, executeQuery_run.
  by destruct (ExecuteQuery _ _ _ _ _).1.
Qed.

(** C6: GetSampleData with [random = true] and no [limit] runs a query
    that ends with an ORDER BY on the dialect's random function followed
    by the default [LIMIT 10]: [RAND()] on a mysql connection,
    [RANDOM()] on a postgres one. *)
Theorem sample_data_random_default_limit (request : ToolCallRequest) (s : St W)
    (targetDbID tableName dbType : string) (w1 : W) :
  Parameters request !! "database" = Some (VString targetDbID) →
  Parameters request !! "table" = Some (VString tableName) →
  Parameters request !! "random" = Some (VBool true) →
  Parameters request !! "limit" = None →
  GetDatabaseType useCase targetDbID (world s) = (Ok dbType, w1) →
  ∃ query,
    executed (GetSampleDataTool.HandleRequest useCase request s).2
    = (executed s ++ [query_call targetDbID query])%list
    ∧ query = random_sample_form dbType tableName 10
                (optional as_string EmptyString (param request "where"))
    ∧ (strings.ToLower dbType = "mysql" →
       strings.HasSuffix query " ORDER BY RAND() LIMIT 10" = true)
    ∧ (strings.ToLower dbType = "postgres" →
       strings.HasSuffix query " ORDER BY RANDOM() LIMIT 10" = true).
Proof.
  intros Hdb Htb Hrandom Hlimit Hty. eexists. split; [|split; [reflexivity|]].
  - rewrite (GetSampleDataTool_run _ _ _ _ _ _ Hdb Htb Hty).
    unfold param at 1 4. rewrite Hlimit, Hrandom. cbn [default from_option optional is_nil as_bool id].
    by rewrite buildSampleDataQuery_random.
  - split; intros Hdialect;
      pose proof (random_sample_form_suffix dbType tableName 10
                    (optional as_string EmptyString (param request "where"))) as Hsuffix;
      unfold random_function, is_postgres in Hsuffix; rewrite Hdialect in Hsuffix;
      exact Hsuffix.
Qed.
End SampleData.

Lemma sample_data_random_default_limit_witness :
  executed (GetSampleDataTool.HandleRequest demo
    (request_of [("database", VString "my1"); ("table", VString "orders");
                 ("random", VBool true)]) start).2
  = [query_call "my1" "SELECT * FROM `orders` ORDER BY RAND() LIMIT 10"]
  ∧ strings.HasSuffix "SELECT * FROM `orders` ORDER BY RAND() LIMIT 10"
      " ORDER BY RAND() LIMIT 10" = true.
Proof.
  destruct (sample_data_random_default_limit demo
    (request_of [("database", VString "my1"); ("table", VString "orders");
                 ("random", VBool true)]) start "my1" "orders" "mysql" 0%nat
    eq_refl eq_refl eq_refl eq_refl eq_refl) as (query & Hrun & -> & Hmysql & _).
  split; [exact Hrun|exact (Hmysql eq_refl)].
Defined.

Lemma param_with_other (request : ToolCallRequest) (key key' : string) (v : value) :
  key ≠ key' → param (with_param key v request) key' = param request key'.
Proof. intros Hne. unfold param, with_param. cbn. by rewrite lookup_insert_ne. Qed.

Section SampleDataOrder.
Context {W : Type} (useCase : UseCaseProvider W).

(** With [random = true] the whole call is the one made without the
    [order_by] parameter. *)
Lemma GetSampleDataTool_order_by_ignored (request : ToolCallRequest) (v : value)
    (s : St W) :
  param request "random" = VBool true →
  GetSampleDataTool.HandleRequest useCase (with_param "order_by" v request) s
  = GetSampleDataTool.HandleRequest useCase request s.
Proof.
  intros Hrandom. unfold GetSampleDataTool.HandleRequest.
  rewrite (param_with_other request "order_by" "database"),
    (param_with_other request "order_by" "table"),
    (param_with_other request "order_by" "limit"),
    (param_with_other request "order_by" "where"),
    (param_with_other request "order_by" "random") by done.
  destruct (as_string (param request "database")) as [targetDbID|]; [|done].
  destruct (as_string (param request "table")) as [tableName|]; [|done].
  rewrite !bind_run. destruct (getDatabaseType _ _ _) as [[dbType|err] s']; [|done].
  rewrite Hrandom. cbn [optional is_nil as_bool default from_option id].
  by rewrite !buildSampleDataQuery_random.
Qed.

(** C10: with [random = true] a caller-supplied [order_by] is ignored.
    The call is the same whatever [order_by] holds, and the query it
    runs is [SELECT * FROM <table> [WHERE ...] ORDER BY <random
    function> LIMIT <n>], in which the [order_by] text has no place.
    With [random] false or absent, a non-empty [order_by] becomes the
    ORDER BY clause. *)
Theorem sample_data_random_ignores_order_by (request : ToolCallRequest) (v : value)
    (s : St W) (targetDbID tableName dbType : string) (w1 : W) :
  Parameters request !! "database" = Some (VString targetDbID) →
  Parameters request !! "table" = Some (VString tableName) →
  GetDatabaseType useCase targetDbID (world s) = (Ok dbType, w1) →
  let limit := optional as_float64 10%Z (param request "limit") in
  let whereClause := optional as_string EmptyString (param request "where") in
  (Parameters request !! "random" = Some (VBool true) →
   GetSampleDataTool.HandleRequest useCase (with_param "order_by" v request) s
   = GetSampleDataTool.HandleRequest useCase request s
   ∧ executed
       (GetSampleDataTool.HandleRequest useCase (with_param "order_by" v request) s).2
     = (executed s ++
        [query_call targetDbID
           (random_sample_form dbType tableName limit whereClause)])%list)
  ∧ (∀ orderByClause,
       optional as_bool false (param request "random") = false →
       Parameters request !! "order_by" = Some (VString orderByClause) →
       is_empty orderByClause = false →
       executed (GetSampleDataTool.HandleRequest useCase request s).2
       = (executed s ++
          [query_call targetDbID
             (ordered_sample_form dbType tableName limit whereClause
                orderByClause)])%list).
Proof.
  intros Hdb Htb Hty limit whereClause. split.
  - intros Hrandom. apply param_lookup in Hrandom.
    rewrite (GetSampleDataTool_order_by_ignored _ _ _ Hrandom). split; [done|].
    rewrite (GetSampleDataTool_run _ _ _ _ _ _ _ Hdb Htb Hty), Hrandom.
    cbn [optional is_nil as_bool default from_option id].
    by rewrite buildSampleDataQuery_random.
  - intros orderByClause Hrandom Horder Hnonempty.
    rewrite (GetSampleDataTool_run _ _ _ _ _ _ _ Hdb Htb Hty), Hrandom.
    rewrite (param_lookup _ _ _ Horder).
    cbn [optional is_nil as_string default from_option id].
    by rewrite buildSampleDataQuery_ordered.
Qed.
End SampleDataOrder.

Lemma sample_data_random_ignores_order_by_witness :
  executed (GetSampleDataTool.HandleRequest demo
    (with_param "order_by" (VString "created_at DESC")
       (request_of [("database", VString "pg1"); ("table", VString "orders");
                    ("random", VBool true)])) start).2
  = [query_call "pg1"
       ("SELECT * FROM " ++ dquote ++ "orders" ++ dquote ++ " ORDER BY RANDOM() LIMIT 10")]
  ∧ executed (GetSampleDataTool.HandleRequest demo
      (request_of [("database", VString "pg1"); ("table", VString "orders");
                   ("order_by", VString "created_at DESC")]) start).2
    = [query_call "pg1"
         ("SELECT * FROM " ++ dquote ++ "orders" ++ dquote
          ++ " ORDER BY created_at DESC LIMIT 10")].
Proof.
  split.
  - destruct (sample_data_random_ignores_order_by demo
      (request_of [("database", VString "pg1"); ("table", VString "orders");
                   ("random", VBool true)])
      (VString "created_at DESC") start "pg1" "orders" "postgres" 0%nat
      eq_refl eq_refl eq_refl) as [Hrandom _].
    exact (proj2 (Hrandom eq_refl)).
  - destruct (sample_data_random_ignores_order_by demo
      (request_of [("database", VString "pg1"); ("table", VString "orders");
                   ("order_by", VString "created_at DESC")])
      VNil start "pg1" "orders" "postgres" 0%nat
      eq_refl eq_refl eq_refl) as [_ Hordered].
    exact (Hordered "created_at DESC" eq_refl eq_refl eq_refl).
Defined.

(** ** GetUniqueValues *)

Lemma buildUniqueValuesQuery_distinct
    dbType tableName columnName limit whereClause includeNulls :
  buildUniqueValuesQuery dbType tableName columnName limit whereClause false includeNulls
  = distinct_form dbType tableName columnName limit whereClause includeNulls.
Proof.
  unfold buildUniqueValuesQuery, distinct_form, filter_part, quoted, where_part,
    is_postgres.
  destruct (String.eqb _ _); destruct (is_empty whereClause); destruct includeNulls;
    cbn; unfold dquote; by str_norm.
Qed.

(** In the DISTINCT form, GROUP BY and COUNT occur only where the
    caller's own texts contain them. *)
Lemma distinct_form_keywords
    dbType tableName columnName limit whereClause includeNulls kw :
  kw = "GROUP BY" ∨ kw = "COUNT" →
  strings.Contains
    (distinct_form dbType tableName columnName limit whereClause includeNulls) kw
  = strings.Contains columnName kw || strings.Contains tableName kw
    || strings.Contains whereClause kw.
Proof.
  intros [-> | ->];
    unfold distinct_form, filter_part, where_part, quoted, dquote;
    destruct (is_postgres dbType);
    (destruct (is_empty whereClause) eqn:Hw; [apply is_empty_true in Hw as ->|]);
    destruct includeNulls; seams; by_cases_on_occurrences.
Qed.

Lemma distinct_form_suffix dbType tableName columnName limit whereClause includeNulls :
  strings.HasSuffix
    (distinct_form dbType tableName columnName limit whereClause includeNulls)
    (" LIMIT " ++ fmt.decimal limit) = true.
Proof. unfold distinct_form. ends_with. Qed.

Section UniqueValues.
Context {W : Type} (useCase : UseCaseProvider W).

Lemma GetUniqueValuesTool_run (request : ToolCallRequest) (s : St W)
    (targetDbID tableName columnName dbType : string) (w1 : W) :
  Parameters request !! "database" = Some (VString targetDbID) →
  Parameters request !! "table" = Some (VString tableName) →
  Parameters request !! "column" = Some (VString columnName) →
  GetDatabaseType useCase targetDbID (world s) = (Ok dbType, w1) →
  executed (GetUniqueValuesTool.HandleRequest useCase request s).2
  = (executed s ++
     [query_call targetDbID
        (buildUniqueValuesQuery dbType tableName columnName
           (optional as_float64 100%Z (param request "limit"))
           (optional as_string EmptyString (param request "where"))
           (optional as_bool true (param request "include_counts"))
           (optional as_bool true (param request "include_nulls")))])%list.
Proof.
  intros Hdb Htb Hcol Hty. unfold GetUniqueValuesTool.HandleRequest.
  rewrite (as_string_param _ _ _ Hdb), (as_string_param _ _ _ Htb),
    (as_string_param _ _ _ Hcol).
  rewrite bind_run, getDatabaseType_run, Hty. cbn [fst snd].
  rewrite bind_run, executeQuery_run.
  by destruct (ExecuteQuery _ _ _ _ _).1.
Qed.

(** C7: GetUniqueValues with [include_counts = false] runs a query of
    the form [SELECT DISTINCT <column> FROM <table> [WHERE ...] ORDER BY
    <column> LIMIT <n>]. The builder puts no GROUP BY clause and no
    COUNT aggregate into it: either keyword occurs in the query only
    inside a text the caller supplied. [n] is 100 when [limit] is not
    supplied. *)
Theorem unique_values_without_counts (request : ToolCallRequest) (s : St W)
    (targetDbID tableName columnName dbType : string) (w1 : W) :
  Parameters request !! "database" = Some (VString targetDbID) →
  Parameters request !! "table" = Some (VString tableName) →
  Parameters request !! "column" = Some (VString columnName) →
  Parameters request !! "include_counts" = Some (VBool false) →
  GetDatabaseType useCase targetDbID (world s) = (Ok dbType, w1) →
  let limit := optional as_float64 100%Z (param request "limit") in
  let whereClause := optional as_string EmptyString (param request "where") in
  let includeNulls := optional as_bool true (param request "include_nulls") in
  let query := distinct_form dbType tableName columnName limit whereClause includeNulls in
  executed (GetUniqueValuesTool.HandleRequest useCase request s).2
  = (executed s ++ [query_call targetDbID query])%list
  ∧ (∀ kw, kw = "GROUP BY" ∨ kw = "COUNT" →
       strings.Contains query kw = true →
       strings.Contains columnName kw = true ∨ strings.Contains tableName kw = true
       ∨ strings.Contains whereClause kw = true)
  ∧ (Parameters request !! "limit" = None →
     limit = 100%Z ∧ strings.HasSuffix query " LIMIT 100" = true).
Proof.
  intros Hdb Htb Hcol Hcounts Hty limit whereClause includeNulls query.
  split; [|split].
  - rewrite (GetUniqueValuesTool_run _ _ _ _ _ _ _ Hdb Htb Hcol Hty).
    rewrite (param_lookup _ _ _ Hcounts).
    cbn [optional is_nil as_bool default from_option id].
    by rewrite buildUniqueValuesQuery_distinct.
  - intros kw Hkw. unfold query. rewrite (distinct_form_keywords _ _ _ _ _ _ _ Hkw).
    intros [[H|H]%orb_true_iff|H]%orb_true_iff; auto.
  - intros Hlimit.
    assert (limit = 100%Z) as Hdefault.
    { unfold limit, param. by rewrite Hlimit. }
    split; [done|]. unfold query. rewrite Hdefault.
    apply (distinct_form_suffix dbType tableName columnName 100).
Qed.
End UniqueValues.

Lemma unique_values_without_counts_witness :
  executed (GetUniqueValuesTool.HandleRequest demo
    (request_of [("database", VString "my1"); ("table", VString "orders");
                 ("column", VString "status"); ("include_counts", VBool false)])
    start).2
  = [query_call "my1" "SELECT DISTINCT `status` FROM `orders` ORDER BY `status` LIMIT 100"].
Proof.
  destruct (unique_values_without_counts demo
    (request_of [("database", VString "my1"); ("table", VString "orders");
                 ("column", VString "status"); ("include_counts", VBool false)])
    start "my1" "orders" "status" "mysql" 0%nat
    eq_refl eq_refl eq_refl eq_refl eq_refl) as [Hrun _].
  exact Hrun.
Defined.

(** ** Clauses of a generated query *)

Section Clauses.
Import strings.

Lemma HasPrefix_app_true (s r pat : string) :
  HasPrefix s pat = true → HasPrefix (s ++ r) pat = true.
Proof.
  revert s. induction pat as [|k pat IH]; intros s H; [done|].
  destruct s as [|c s]; [done|]. cbn in *.
  apply andb_true_iff in H as [-> H]. by rewrite IH.
Qed.

Lemma drop_chars_app (s r pat : string) :
  HasPrefix s pat = true →
  drop_chars (String.length pat) (s ++ r) = drop_chars (String.length pat) s ++ r.
Proof.
  revert s. induction pat as [|k pat IH]; intros s H; [done|].
  destruct s as [|c s]; [done|]. cbn in *.
  apply andb_true_iff in H as [_ H]. by apply IH.
Qed.

Lemma HasPrefix_length (s pat : string) :
  HasPrefix s pat = true → (String.length pat ≤ String.length s)%nat.
Proof.
  revert s. induction pat as [|k pat IH]; intros s H; cbn; [lia|].
  destruct s as [|c s]; [done|]. cbn in *.
  apply andb_true_iff in H as [_ H]. apply IH in H. lia.
Qed.

(** A prefix test that succeeds only thanks to the appended text reads
    past the end of [s]. *)
Lemma HasPrefix_app_only (s r pat : string) :
  HasPrefix (s ++ r) pat = true → HasPrefix s pat = false →
  (String.length s < String.length pat)%nat.
Proof.
  revert s. induction pat as [|k pat IH]; intros s Happ Hs; [done|].
  destruct s as [|c s]; cbn; [lia|]. cbn in *.
  apply andb_true_iff in Happ as [Hc Happ]. rewrite Hc in Hs.
  specialize (IH s Happ Hs). lia.
Qed.

Lemma after_first_length (pat s rest : string) :
  after_first pat s = Some rest → (String.length pat ≤ String.length s)%nat.
Proof.
  induction s as [|c s IH]; cbn [after_first].
  - destruct (HasPrefix EmptyString pat) eqn:H; [|done].
    intros _. by apply HasPrefix_length.
  - destruct (HasPrefix (String c s) pat) eqn:H.
    + intros _. by apply HasPrefix_length.
    + intros Hs. apply IH in Hs. cbn. lia.
Qed.

(** The first occurrence of [pat] in [a] is the first in [a ++ r]. *)
Lemma after_first_app (pat a r rest : string) :
  after_first pat a = Some rest → after_first pat (a ++ r) = Some (rest ++ r).
Proof.
  induction a as [|c a IH]; cbn [after_first String.append].
  - destruct (HasPrefix EmptyString pat) eqn:H; [|done].
    destruct pat; [|done]. intros [= <-]. by destruct r.
  - destruct (HasPrefix (String c a) pat) eqn:H.
    + intros [= <-].
      change (String c (a ++ r)) with (String c a ++ r).
      by rewrite (HasPrefix_app_true _ _ _ H), (drop_chars_app _ _ _ H).
    + intros Ha.
      destruct (HasPrefix (String c (a ++ r)) pat) eqn:Happ; [|by apply IH].
      change (String c (a ++ r)) with (String c a ++ r) in Happ.
      pose proof (HasPrefix_app_only _ _ _ Happ H) as Hlen.
      apply after_first_length in Ha. cbn in Hlen. lia.
Qed.

Lemma before_first_app (pat a r rest : string) :
  after_first pat a = Some rest → before_first pat (a ++ r) = before_first pat a.
Proof.
  induction a as [|c a IH]; cbn [after_first before_first String.append].
  - destruct (HasPrefix EmptyString pat) eqn:H; [|done].
    destruct pat; [|done]. intros _. by destruct r.
  - destruct (HasPrefix (String c a) pat) eqn:H.
    + intros _. change (String c (a ++ r)) with (String c a ++ r).
      by rewrite (HasPrefix_app_true _ _ _ H).
    + intros Ha.
      destruct (HasPrefix (String c (a ++ r)) pat) eqn:Happ; [|by rewrite IH].
      change (String c (a ++ r)) with (String c a ++ r) in Happ.
      pose proof (HasPrefix_app_only _ _ _ Happ H) as Hlen.
      apply after_first_length in Ha. cbn in Hlen. lia.
Qed.

(** The last occurrence of [pat] in [b] is the last in [a ++ b]. *)
Lemma after_last_app (pat a b rest : string) :
  after_last pat b = Some rest → after_last pat (a ++ b) = Some rest.
Proof.
  intros Hb. induction a as [|c a IH]; [done|].
  cbn [String.append after_last]. by rewrite IH.
Qed.

Lemma before_last_app (pat a b rest : string) :
  after_last pat b = Some rest → before_last pat (a ++ b) = a ++ before_last pat b.
Proof.
  intros Hb. induction a as [|c a IH]; [done|].
  cbn [String.append before_last]. by rewrite (after_last_app _ _ _ _ Hb), IH.
Qed.
End Clauses.

(** The literal text in front of a string, and what follows it. *)
Ltac literal_of t :=
  lazymatch t with
  | String ?c ?r => let a := literal_of r in constr:(String c a)
  | _ => constr:(EmptyString)
  end.

Ltac after_literal t :=
  lazymatch t with
  | String _ ?r => after_literal r
  | _ => t
  end.

(** Present [String c1 (... (String cn rest))] as [literal ++ rest]. *)
Ltac split_literal t :=
  let a := literal_of t in
  let r := after_literal t in
  change t with (a ++ r).

Ltac computed := vm_compute; reflexivity.

Ltac unfold_clauses :=
  unfold from_clause, where_clause, group_by_clause, order_by_clause.

Ltac reduce_options :=
  cbn [mbind option_bind fmap option_fmap option_map].

(** The clauses of a query [literal ++ e ++ literal], [e] being the
    escaped name the caller supplied. *)
Ltac clauses_around_name :=
  repeat match goal with
    | |- context [query_body (String ?c ?r)] => split_literal (String c r)
    end;
  unfold query_body;
  erewrite !after_first_app by computed;
  reduce_options;
  erewrite ?after_first_app by computed;
  erewrite ?before_first_app by computed;
  rewrite <- ?append_assoc;
  erewrite ?after_last_app by computed;
  reduce_options;
  erewrite ?before_last_app by computed.

Ltac format_filter :=
  cbn [fmt.Sprintf fmt.format_verb Ascii.eqb Bool.eqb fmt.pct orb andb]; str_norm.

Lemma projection_only_keeps_structure (builder : string → bool → string) :
  flag_changes_projection_only builder → flag_keeps_structure builder.
Proof.
  intros H name. unfold same_join_and_grouping, from_clause, group_by_clause.
  by rewrite (H name).
Qed.

Lemma getPostgresViewsQuery_projection_only :
  flag_changes_projection_only getPostgresViewsQuery.
Proof.
  intros name. unfold getPostgresViewsQuery.
  destruct (is_empty name); cbn [negb]; [computed|].
  generalize (strings.ReplaceAll name "'" "''") as e; intros e.
  format_filter. clauses_around_name. reflexivity.
Qed.

Lemma getMySQLViewsQuery_projection_only :
  flag_changes_projection_only getMySQLViewsQuery.
Proof.
  intros name. unfold getMySQLViewsQuery.
  destruct (is_empty name); cbn [negb]; [computed|].
  generalize (strings.ReplaceAll name "`" "``") as e; intros e.
  format_filter. clauses_around_name. reflexivity.
Qed.

Lemma getPostgresIndexesQuery_grouping :
  flag_extends_grouping getPostgresIndexesQuery
    ", i.oid, ix.indexrelid, ix.indpred, a.amname, ix.indoption".
Proof.
  intros name. unfold getPostgresIndexesQuery.
  destruct (is_empty name); cbn [negb].
  - split_and!; [computed..|]. eexists. split; computed.
  - generalize (strings.ReplaceAll name "'" "''") as e; intros e.
    format_filter. unfold_clauses. clauses_around_name.
    split_and!; [computed..|]. eexists. split; computed.
Qed.

Lemma getMySQLIndexesQuery_grouping :
  flag_extends_grouping getMySQLIndexesQuery ", index_comment".
Proof.
  intros name. unfold getMySQLIndexesQuery.
  destruct (is_empty name); cbn [negb].
  - split_and!; [computed..|]. eexists. split; computed.
  - generalize (strings.ReplaceAll name "`" "``") as e; intros e.
    format_filter. unfold_clauses. clauses_around_name.
    split_and!; [computed..|]. eexists. split; computed.
Qed.

(** C8 as the specification states it fails: the detailed index query
    groups by more columns than the plain one. *)
Lemma detailed_indexes_change_grouping :
  ¬ flag_keeps_structure getPostgresIndexesQuery.
Proof.
  intros H. destruct (H "orders") as [_ Hgroup].
  vm_compute in Hgroup. discriminate Hgroup.
Qed.

(** C8, amended: of the describe capabilities only GetIndexes
    ([detailed]) and GetViews ([include_definition]) take such a flag.
    For GetViews the flag changes the projected columns and nothing
    from the FROM line on. For GetIndexes the flag changes the projected
    columns and appends the columns the richer projection needs to the
    GROUP BY list; the FROM/JOIN clause, the filter and the ORDER BY
    clause are the same with and without it. *)
Theorem describe_flag_changes_projection :
  flag_changes_projection_only getPostgresViewsQuery
  ∧ flag_changes_projection_only getMySQLViewsQuery
  ∧ flag_keeps_structure getPostgresViewsQuery
  ∧ flag_keeps_structure getMySQLViewsQuery
  ∧ flag_extends_grouping getPostgresIndexesQuery
      ", i.oid, ix.indexrelid, ix.indpred, a.amname, ix.indoption"
  ∧ flag_extends_grouping getMySQLIndexesQuery ", index_comment".
Proof.
  split_and!.
  - apply getPostgresViewsQuery_projection_only.
  - apply getMySQLViewsQuery_projection_only.
  - apply projection_only_keeps_structure, getPostgresViewsQuery_projection_only.
  - apply projection_only_keeps_structure, getMySQLViewsQuery_projection_only.
  - apply getPostgresIndexesQuery_grouping.
  - apply getMySQLIndexesQuery_grouping.
Qed.

(** ** Identifier escaping *)

(** C3 does not hold for the MySQL name filters of GetIndexes,
    GetConstraints, GetViews and GetTableStats: they put the name
    between single quotes but double the backticks in it. A single
    quote in the name closes the literal, which then reads [x] instead
    of the name, and a backtick reaches the server doubled. The MySQL
    schema filter doubles the single quote and reads back the name. *)
Theorem mysql_name_filter_quote_breakout :
  let name := "x' OR '1'='1" in
  fst <$> quoted_after " AND table_name = " "'" (getMySQLIndexesQuery name false)
  = Some "x"
  ∧ fst <$> quoted_after " AND tc.table_name = " "'"
              (getMySQLConstraintsQuery name EmptyString)
    = Some "x"
  ∧ fst <$> quoted_after " AND table_name = " "'" (getMySQLViewsQuery name true)
    = Some "x"
  ∧ fst <$> quoted_after "AND table_name = " "'"
              (nth 0 (getMySQLTableStatsQueries name false) EmptyString)
    = Some "x"
  ∧ strings.Contains (getMySQLIndexesQuery name false)
      " AND table_name = 'x' OR '1'='1'" = true
  ∧ fst <$> quoted_after " AND table_name = " "'" (getMySQLIndexesQuery "a`b" false)
    = Some "a``b"
  ∧ fst <$> quoted_after " WHERE schema_name = " "'" (getMySQLSchemasQuery name)
    = Some name.
Proof. cbv zeta. split_and!; computed. Qed.

(** ** Quoted identifiers read back *)

Lemma read_quoted_escaped (q : ascii) (s rest : string) :
  strings.HasPrefix rest (String q EmptyString) = false →
  read_quoted q
    (strings.ReplaceAll s (String q EmptyString) (String q (String q EmptyString))
     ++ String q rest)
  = Some (s, rest).
Proof.
  intros Hrest. unfold strings.ReplaceAll. induction s as [|c s IH].
  - cbn. rewrite Ascii.eqb_refl. destruct rest as [|c' rest']; [done|].
    cbn in Hrest. rewrite andb_true_r in Hrest. by rewrite Hrest.
  - cbn [strings.replace_from strings.HasPrefix String.length Nat.sub].
    destruct (Ascii.eqb_spec c q) as [->|Hne]; cbn [andb String.append read_quoted].
    + rewrite !Ascii.eqb_refl. by rewrite IH.
    + apply Ascii.eqb_neq in Hne. rewrite Hne. by rewrite IH.
Qed.

Ltac format_all :=
  repeat (progress cbn [fmt.Sprintf fmt.format_verb fmt.default_format
                          Ascii.eqb Bool.eqb fmt.pct orb andb String.append]);
  str_norm.

Ltac read_back :=
  cbn [after_first strings.HasPrefix String.length drop_chars String.append
         Ascii.eqb Bool.eqb andb mbind option_bind];
  rewrite read_quoted_escaped by reflexivity.

(** The table name of a sampling query reads back: between the
    dialect's quotes, a double quote for postgres and a backtick
    otherwise, with the inner quotes doubled, the text after [SELECT *
    FROM] denotes the name the caller gave, whatever characters it
    holds. *)
Theorem buildSampleDataQuery_table_round_trip
    dbType tableName limit whereClause orderByClause random :
  fst <$> quoted_after "SELECT * FROM " (quote_char dbType)
            (buildSampleDataQuery dbType tableName limit whereClause orderByClause random)
  = Some tableName.
Proof.
  unfold buildSampleDataQuery, quote_char, is_postgres, quoted_after.
  destruct (String.eqb _ _); destruct (is_empty whereClause);
    destruct random; try destruct (is_empty orderByClause);
    cbn [negb]; unfold dquote; format_all; read_back; reflexivity.
Qed.

(** The column and the table of a uniqueness query read back: the
    quoted region after the SELECT keyword denotes the column name and
    the next quoted region after [FROM] denotes the table name. *)
Theorem buildUniqueValuesQuery_round_trip
    dbType tableName columnName limit whereClause (includeCounts includeNulls : bool) :
  ∃ rest,
    quoted_after (if includeCounts then "SELECT " else "SELECT DISTINCT " : string)
      (quote_char dbType)
      (buildUniqueValuesQuery dbType tableName columnName limit whereClause
         includeCounts includeNulls)
    = Some (columnName, rest)
    ∧ fst <$> quoted_after " FROM " (quote_char dbType) rest = Some tableName.
Proof.
  unfold buildUniqueValuesQuery, quote_char, is_postgres, quoted_after.
  destruct (String.eqb _ _); destruct (is_empty whereClause);
    destruct includeCounts; destruct includeNulls;
    cbn [negb]; unfold dquote; format_all; read_back;
    (eexists; split; [reflexivity|]); read_back; reflexivity.
Qed.

(** Read the literal that follows the marker in [literal ++ escaped name
    ++ quote ++ rest]. *)
Ltac read_filter :=
  unfold quoted_after;
  match goal with
  | |- context [after_first _ (String ?c ?r)] => split_literal (String c r)
  end;
  erewrite after_first_app by computed;
  cbn [String.append mbind option_bind];
  rewrite read_quoted_escaped by reflexivity;
  reflexivity.

Lemma getPostgresIndexesQuery_filter (tableName : string) (detailed : bool) :
  fst <$> quoted_after " AND t.relname = " "'"
            (getPostgresIndexesQuery tableName detailed)
  = filtered_name tableName.
Proof.
  unfold getPostgresIndexesQuery, filtered_name.
  destruct (is_empty tableName); destruct detailed; cbn [negb]; [computed..| |];
    format_filter; read_filter.
Qed.

Lemma getPostgresViewsQuery_filter (viewName : string) (includeDefinition : bool) :
  fst <$> quoted_after " AND viewname = " "'"
            (getPostgresViewsQuery viewName includeDefinition)
  = filtered_name viewName.
Proof.
  unfold getPostgresViewsQuery, filtered_name.
  destruct (is_empty viewName); destruct includeDefinition; cbn [negb];
    [computed..| |]; format_filter; read_filter.
Qed.

Lemma getPostgresTypesQuery_filter (typeName : string) :
  fst <$> quoted_after " AND t.typname = " "'" (getPostgresTypesQuery typeName)
  = filtered_name typeName.
Proof.
  unfold getPostgresTypesQuery, filtered_name.
  destruct (is_empty typeName); cbn [negb]; [computed|].
  format_filter; read_filter.
Qed.

Lemma getPostgresSchemasQuery_filter (schemaName : string) (includeSystemSchemas : bool) :
  fst <$> quoted_after
            (if includeSystemSchemas then " WHERE n.nspname = " else " AND n.nspname = "
             : string) "'"
            (getPostgresSchemasQuery schemaName includeSystemSchemas)
  = filtered_name schemaName.
Proof.
  unfold getPostgresSchemasQuery, filtered_name.
  destruct (is_empty schemaName); destruct includeSystemSchemas; cbn [negb];
    [computed..| |]; format_filter; read_filter.
Qed.

Lemma getMySQLSchemasQuery_filter (schemaName : string) :
  fst <$> quoted_after " WHERE schema_name = " "'" (getMySQLSchemasQuery schemaName)
  = filtered_name schemaName.
Proof.
  unfold getMySQLSchemasQuery, filtered_name.
  destruct (is_empty schemaName); cbn [negb]; [computed|].
  format_filter; read_filter.
Qed.

(** Both filters of the postgres constraints query read back: the
    literal after [tc.table_name =] denotes the table name and the one
    after [tc.constraint_type =], when a type is given, the type. *)
Theorem getPostgresConstraintsQuery_filters (tableName constraintType : string) :
  is_empty tableName = false →
  ∃ rest,
    quoted_after " AND tc.table_name = " "'"
      (getPostgresConstraintsQuery tableName constraintType)
    = Some (tableName, rest)
    ∧ fst <$> quoted_after " AND tc.constraint_type = " "'" rest
      = filtered_name constraintType.
Proof.
  intros Htable. unfold getPostgresConstraintsQuery, filtered_name.
  rewrite Htable. destruct (is_empty constraintType); cbn [negb]; format_filter.
  - unfold quoted_after at 1.
    match goal with
    | |- context [after_first _ (String ?c ?r)] => split_literal (String c r)
    end.
    erewrite after_first_app by computed.
    cbn [String.append mbind option_bind].
    rewrite read_quoted_escaped by reflexivity.
    eexists. split; [reflexivity|computed].
  - unfold quoted_after at 1.
    match goal with
    | |- context [after_first _ (String ?c ?r)] => split_literal (String c r)
    end.
    erewrite after_first_app by computed.
    cbn [String.append mbind option_bind].
    rewrite read_quoted_escaped by reflexivity.
    eexists. split; [reflexivity|]. read_filter.
Qed.

(** The name filters of the postgres describe builders and of the
    MySQL schema builder read back: the single-quoted literal after the
    filter's column denotes the name the caller gave, single quotes in
    it doubled; an empty name adds no filter. *)
Theorem single_quoted_name_filters_read_back (name : string) (flag : bool) :
  fst <$> quoted_after " AND t.relname = " "'" (getPostgresIndexesQuery name flag)
  = filtered_name name
  ∧ fst <$> quoted_after " AND viewname = " "'" (getPostgresViewsQuery name flag)
    = filtered_name name
  ∧ fst <$> quoted_after " AND t.typname = " "'" (getPostgresTypesQuery name)
    = filtered_name name
  ∧ fst <$> quoted_after
              (if flag then " WHERE n.nspname = " else " AND n.nspname = " : string)
              "'" (getPostgresSchemasQuery name flag)
    = filtered_name name
  ∧ fst <$> quoted_after " WHERE schema_name = " "'" (getMySQLSchemasQuery name)
    = filtered_name name.
Proof.
  split_and!.
  - apply getPostgresIndexesQuery_filter.
  - apply getPostgresViewsQuery_filter.
  - apply getPostgresTypesQuery_filter.
  - apply getPostgresSchemasQuery_filter.
  - apply getMySQLSchemasQuery_filter.
Qed.

Lemma getPostgresConstraintsQuery_filters_witness :
  ∃ rest,
    quoted_after " AND tc.table_name = " "'"
      (getPostgresConstraintsQuery "o'brien" "CHECK")
    = Some ("o'brien", rest)
    ∧ fst <$> quoted_after " AND tc.constraint_type = " "'" rest = Some "CHECK".
Proof. exact (getPostgresConstraintsQuery_filters "o'brien" "CHECK" eq_refl). Defined.

(** ** Validation *)

Ltac reject_database :=
  intros W useCase request s Hdb; rewrite Hdb; reflexivity.

Ltac reject_other :=
  intros W useCase request s targetDbID Hdb Hkey;
  rewrite Hdb, ?Hkey; try reflexivity.

Lemma required_database_parameter :
  rejects_missing_database (@DbStatsTool.HandleRequest)
  ∧ rejects_missing_database (@TableStatsTool.HandleRequest)
  ∧ rejects_missing_database (@GetIndexesTool.HandleRequest)
  ∧ rejects_missing_database (@GetConstraintsTool.HandleRequest)
  ∧ rejects_missing_database (@GetViewsTool.HandleRequest)
  ∧ rejects_missing_database (@GetTypesTool.HandleRequest)
  ∧ rejects_missing_database (@GetSchemasTool.HandleRequest)
  ∧ rejects_missing_database (@GetSampleDataTool.HandleRequest)
  ∧ rejects_missing_database (@GetUniqueValuesTool.HandleRequest).
Proof.
  split_and!.
  - unfold DbStatsTool.HandleRequest. reject_database.
  - unfold TableStatsTool.HandleRequest. reject_database.
  - unfold GetIndexesTool.HandleRequest. reject_database.
  - unfold GetConstraintsTool.HandleRequest. reject_database.
  - unfold GetViewsTool.HandleRequest. reject_database.
  - unfold GetTypesTool.HandleRequest. reject_database.
  - unfold GetSchemasTool.HandleRequest. reject_database.
  - unfold GetSampleDataTool.HandleRequest. reject_database.
  - unfold GetUniqueValuesTool.HandleRequest. reject_database.
Qed.

Lemma required_table_and_column_parameters :
  rejects_missing "table" (@TableStatsTool.HandleRequest)
  ∧ rejects_missing "table" (@GetSampleDataTool.HandleRequest)
  ∧ rejects_missing "table" (@GetUniqueValuesTool.HandleRequest)
  ∧ (∀ W (useCase : UseCaseProvider W) request (s : St W) targetDbID tableName,
       as_string (param request "database") = Some targetDbID →
       as_string (param request "table") = Some tableName →
       as_string (param request "column") = None →
       GetUniqueValuesTool.HandleRequest useCase request s
       = (Err "column parameter must be a string", s)).
Proof.
  split_and!.
  - unfold TableStatsTool.HandleRequest. reject_other.
  - unfold GetSampleDataTool.HandleRequest. reject_other.
  - unfold GetUniqueValuesTool.HandleRequest. reject_other.
  - intros W useCase request s targetDbID tableName Hdb Htb Hcol.
    unfold GetUniqueValuesTool.HandleRequest. by rewrite Hdb, Htb, Hcol.
Qed.

Lemma GenericSQLTool_required_parameters {W} (useCase : UseCaseProvider W)
    (request : ToolCallRequest) (s : St W) :
  (as_string (param request "sql") = None →
   GenericSQLTool.HandleRequest useCase request s
   = (Err "sql parameter must be a string", s))
  ∧ (∀ sql, as_string (param request "sql") = Some sql →
       as_string (param request "database") = None →
       GenericSQLTool.HandleRequest useCase request s
       = (Err "database parameter must be a string", s)).
Proof.
  unfold GenericSQLTool.HandleRequest. split.
  - by intros ->.
  - by intros sql -> ->.
Qed.

(** A required parameter that is missing, or is not a string, fails the
    call with [<name> parameter must be a string] before any
    collaborator is consulted: the state is returned as it was.
    [database] is checked first ([sql] first for ExecuteSQL), then
    [table], then [column]. *)
Theorem missing_parameter_fails_before_any_call :
  (rejects_missing_database (@DbStatsTool.HandleRequest)
   ∧ rejects_missing_database (@TableStatsTool.HandleRequest)
   ∧ rejects_missing_database (@GetIndexesTool.HandleRequest)
   ∧ rejects_missing_database (@GetConstraintsTool.HandleRequest)
   ∧ rejects_missing_database (@GetViewsTool.HandleRequest)
   ∧ rejects_missing_database (@GetTypesTool.HandleRequest)
   ∧ rejects_missing_database (@GetSchemasTool.HandleRequest)
   ∧ rejects_missing_database (@GetSampleDataTool.HandleRequest)
   ∧ rejects_missing_database (@GetUniqueValuesTool.HandleRequest))
  ∧ (rejects_missing "table" (@TableStatsTool.HandleRequest)
     ∧ rejects_missing "table" (@GetSampleDataTool.HandleRequest)
     ∧ rejects_missing "table" (@GetUniqueValuesTool.HandleRequest)
     ∧ (∀ W (useCase : UseCaseProvider W) request (s : St W) targetDbID tableName,
          as_string (param request "database") = Some targetDbID →
          as_string (param request "table") = Some tableName →
          as_string (param request "column") = None →
          GetUniqueValuesTool.HandleRequest useCase request s
          = (Err "column parameter must be a string", s)))
  ∧ (∀ W (useCase : UseCaseProvider W) request (s : St W),
       (as_string (param request "sql") = None →
        GenericSQLTool.HandleRequest useCase request s
        = (Err "sql parameter must be a string", s))
       ∧ (∀ sql, as_string (param request "sql") = Some sql →
            as_string (param request "database") = None →
            GenericSQLTool.HandleRequest useCase request s
            = (Err "database parameter must be a string", s))).
Proof.
  split; [exact required_database_parameter|].
  split; [exact required_table_and_column_parameters|].
  intros W useCase request s. apply GenericSQLTool_required_parameters.
Qed.

(** ** Execution errors of the single-statement capabilities *)

Ltac wrap_error :=
  intros W useCase request s targetDbID dbType w1 Hdb Hreq Hty Hpg;
  cbv zeta;
  cbv [indexes_statement constraints_statement views_statement types_statement
       schemas_statement sample_statement unique_values_statement];
  rewrite Hdb;
  repeat match goal with
    | H : Forall _ (_ :: _) |- _ =>
        let Hkey := fresh "Hkey" in
        apply Forall_cons in H as [[? Hkey] H]; rewrite Hkey
    end;
  cbn [default from_option id];
  rewrite bind_run, getDatabaseType_run, Hty; cbn [fst snd];
  rewrite ?Hpg; cbn [String.eqb Ascii.eqb Bool.eqb];
  rewrite bind_run, executeQuery_run; cbn [world executed];
  match goal with
  | |- context [ExecuteQuery useCase targetDbID ?sql ?ps ?w] =>
      generalize sql; intros query;
      destruct (ExecuteQuery useCase targetDbID query ps w) as [[text|e] w2]
  end;
  cbn [fst snd]; rewrite !ret_run; cbn [fst snd]; (split; [reflexivity|]);
  intros err [= <-];
  unfold fmt.Errorf;
  cbn [fmt.Sprintf fmt.format_verb Ascii.eqb Bool.eqb fmt.pct orb andb String.append];
  by rewrite append_empty_r.

Lemma GetIndexesTool_wraps_error :
  wraps_execution_error [] "failed to get indexes: " indexes_statement
    (@GetIndexesTool.HandleRequest).
Proof. unfold GetIndexesTool.HandleRequest. wrap_error. Qed.

Lemma GetConstraintsTool_wraps_error :
  wraps_execution_error [] "failed to get constraints: " constraints_statement
    (@GetConstraintsTool.HandleRequest).
Proof. unfold GetConstraintsTool.HandleRequest. wrap_error. Qed.

Lemma GetViewsTool_wraps_error :
  wraps_execution_error [] "failed to get views: " views_statement
    (@GetViewsTool.HandleRequest).
Proof. unfold GetViewsTool.HandleRequest. wrap_error. Qed.

Lemma GetTypesTool_wraps_error :
  wraps_execution_error [] "failed to get custom data types: " types_statement
    (@GetTypesTool.HandleRequest).
Proof. unfold GetTypesTool.HandleRequest. wrap_error. Qed.

Lemma GetSchemasTool_wraps_error :
  wraps_execution_error [] "failed to get schemas: " schemas_statement
    (@GetSchemasTool.HandleRequest).
Proof. unfold GetSchemasTool.HandleRequest. wrap_error. Qed.

Lemma GetSampleDataTool_wraps_error :
  wraps_execution_error ["table"] "failed to get sample data: " sample_statement
    (@GetSampleDataTool.HandleRequest).
Proof. unfold GetSampleDataTool.HandleRequest. wrap_error. Qed.

Lemma GetUniqueValuesTool_wraps_error :
  wraps_execution_error ["table"; "column"] "failed to get unique values: "
    unique_values_statement (@GetUniqueValuesTool.HandleRequest).
Proof. unfold GetUniqueValuesTool.HandleRequest. wrap_error. Qed.

(** A single-statement capability whose statement fails does not
    report.  On a postgres connection the call hands its one statement,
    the one its builder gives for the options of the request, to
    [ExecuteQuery] in the world the dialect resolution left, and leaves
    the state that execution left; when the executor answers that
    statement with an error, the call returns that very error behind
    the capability's own prefix. *)
Theorem single_statement_capabilities_wrap_execution_error :
  wraps_execution_error [] "failed to get indexes: " indexes_statement
    (@GetIndexesTool.HandleRequest)
  ∧ wraps_execution_error [] "failed to get constraints: " constraints_statement
      (@GetConstraintsTool.HandleRequest)
  ∧ wraps_execution_error [] "failed to get views: " views_statement
      (@GetViewsTool.HandleRequest)
  ∧ wraps_execution_error [] "failed to get custom data types: " types_statement
      (@GetTypesTool.HandleRequest)
  ∧ wraps_execution_error [] "failed to get schemas: " schemas_statement
      (@GetSchemasTool.HandleRequest)
  ∧ wraps_execution_error ["table"] "failed to get sample data: " sample_statement
      (@GetSampleDataTool.HandleRequest)
  ∧ wraps_execution_error ["table"; "column"] "failed to get unique values: "
      unique_values_statement (@GetUniqueValuesTool.HandleRequest).
Proof.
  split_and!.
  - exact GetIndexesTool_wraps_error.
  - exact GetConstraintsTool_wraps_error.
  - exact GetViewsTool_wraps_error.
  - exact GetTypesTool_wraps_error.
  - exact GetSchemasTool_wraps_error.
  - exact GetSampleDataTool_wraps_error.
  - exact GetUniqueValuesTool_wraps_error.
Qed.

Lemma single_statement_capabilities_wrap_execution_error_witness :
  (GetIndexesTool.HandleRequest down
     (request_of [("database", VString "pg1"); ("table", VString "orders")]) start).1
  = Err "failed to get indexes: connection refused"
  ∧ (GetIndexesTool.HandleRequest down
       (request_of [("database", VString "pg1"); ("table", VString "orders")]) start).2
    = {| world := 1%nat;
         executed := [query_call "pg1" (getPostgresIndexesQuery "orders" false)] |}.
Proof.
  destruct single_statement_capabilities_wrap_execution_error as [Hindexes _].
  destruct (Hindexes nat down
    (request_of [("database", VString "pg1"); ("table", VString "orders")]) start
    "pg1" "postgres" 0%nat eq_refl (List.Forall_nil _) eq_refl eq_refl) as [Hstate Herror].
  split; [exact (Herror "connection refused" eq_refl)|exact Hstate].
Defined.

(** ** ExecuteSQL: explicit classification and the executor's result *)

Section ExecuteSQL.
Context {W : Type} (useCase : UseCaseProvider W).

(** An [isQuery] parameter that is present decides the route: [true]
    sends the statement to [ExecuteQuery], anything else, also a value
    that is no boolean, to [ExecuteStatement]; the text of the statement
    is not inspected. *)
Theorem execute_sql_explicit_isQuery (request : ToolCallRequest)
    (sql targetDbID : string) (v : value) (s : St W) :
  Parameters request !! "sql" = Some (VString sql) →
  Parameters request !! "database" = Some (VString targetDbID) →
  Parameters request !! "isQuery" = Some v →
  v ≠ VNil →
  executed (GenericSQLTool.HandleRequest useCase request s).2
  = (executed s ++
      [{| call_kind := match v with VBool true => Query | _ => Statement end;
          call_db := targetDbID;
          call_sql := sql;
          call_params := optional as_array [] (param request "params") |}])%list.
Proof.
  intros Hsql Hdb Hq Hnil. unfold GenericSQLTool.HandleRequest.
  rewrite (as_string_param _ _ _ Hsql), (as_string_param _ _ _ Hdb).
  rewrite (param_lookup _ _ _ Hq), bind_run.
  destruct v as [|[]| | |]; try done; cbn [is_nil negb as_bool default from_option id];
    rewrite ?executeQuery_run, ?executeStatement_run;
    by match goal with |- context [match ?r with Ok _ => _ | Err _ => _ end] =>
         destruct r end.
Qed.

(** The call returns what the executor returned: its text as the
    response, its error as the error, unwrapped. *)
Theorem execute_sql_returns_executor_result (request : ToolCallRequest)
    (sql targetDbID : string) (s : St W) :
  Parameters request !! "sql" = Some (VString sql) →
  Parameters request !! "database" = Some (VString targetDbID) →
  ∃ (run : string → string → list value → W → result string * W),
    (run = ExecuteQuery useCase ∨ run = ExecuteStatement useCase)
    ∧ (GenericSQLTool.HandleRequest useCase request s).1
      = match (run targetDbID sql (optional as_array [] (param request "params"))
                 (world s)).1 with
        | Ok text => Ok (TextResponse text)
        | Err err => Err err
        end.
Proof.
  intros Hsql Hdb. unfold GenericSQLTool.HandleRequest.
  rewrite (as_string_param _ _ _ Hsql), (as_string_param _ _ _ Hdb), bind_run.
  match goal with |- context [if ?b then _ else _] => destruct b end.
  - exists (ExecuteQuery useCase). split; [by left|].
    rewrite executeQuery_run. by destruct (ExecuteQuery _ _ _ _ _).1.
  - exists (ExecuteStatement useCase). split; [by right|].
    rewrite executeStatement_run. by destruct (ExecuteStatement _ _ _ _ _).1.
Qed.
End ExecuteSQL.

Lemma execute_sql_explicit_isQuery_witness :
  executed (GenericSQLTool.HandleRequest demo
    (request_of [("sql", VString "SELECT 1"); ("database", VString "pg1");
                 ("isQuery", VString "true")]) start).2
  = [{| call_kind := Statement; call_db := "pg1";
        call_sql := "SELECT 1"; call_params := [] |}].
Proof.
  exact (execute_sql_explicit_isQuery demo
    (request_of [("sql", VString "SELECT 1"); ("database", VString "pg1");
                 ("isQuery", VString "true")])
    "SELECT 1" "pg1" (VString "true") start
    eq_refl eq_refl eq_refl ltac:(discriminate)).
Defined.

Lemma execute_sql_returns_executor_result_witness :
  ∃ run : string → string → list value → nat → result string * nat,
    (run = ExecuteQuery down ∨ run = ExecuteStatement down)
    ∧ (GenericSQLTool.HandleRequest down
         (request_of [("sql", VString "DELETE FROM t"); ("database", VString "pg1")])
         start).1
      = match (run "pg1" "DELETE FROM t" [] 0%nat).1 with
        | Ok text => Ok (TextResponse text)
        | Err err => Err err
        end.
Proof.
  exact (execute_sql_returns_executor_result down
    (request_of [("sql", VString "DELETE FROM t"); ("database", VString "pg1")])
    "DELETE FROM t" "pg1" start eq_refl eq_refl).
Defined.

(** ** ListDatabases *)

Section ListDatabases.
Context {W : Type} (useCase : UseCaseProvider W).

Lemma rows_execute_nothing (databases : list string) (i : Z) (output : string)
    (s : St W) :
  executed (ListDatabasesTool.rows useCase i databases output s).2 = executed s.
Proof.
  revert i output s. induction databases as [|dbID rest IH]; intros i output s; [done|].
  cbn [ListDatabasesTool.rows]. rewrite bind_run.
  unfold getDatabaseInfo at 1, lift at 1.
  destruct (GetDatabaseInfo useCase dbID (world s)) as [[dbInfo|err] w'].
  - rewrite bind_run, getDatabaseType_run. by rewrite IH.
  - by rewrite IH.
Qed.

(** ListDatabases always succeeds and never hands a statement to the
    executor, whatever the collaborator answers. *)
Theorem list_databases_executes_nothing (request : ToolCallRequest) (s : St W) :
  (∃ text, (ListDatabasesTool.HandleRequest useCase request s).1
           = Ok (TextResponse text)
           ∧ ((ListDatabases useCase (world s)).1 = [] →
              strings.HasSuffix text "No databases configured.
" = true))
  ∧ executed (ListDatabasesTool.HandleRequest useCase request s).2 = executed s.
Proof.
  unfold ListDatabasesTool.HandleRequest. rewrite bind_run.
  unfold listDatabases, lift.
  destruct (ListDatabases useCase (world s)) as [databases w'].
  rewrite bind_run.
  match goal with |- context [ListDatabasesTool.rows useCase 0 databases ?o ?st] =>
    pose proof (rows_execute_nothing databases 0 o st) as Hrows;
    destruct (ListDatabasesTool.rows useCase 0 databases o st) as [out s'] eqn:Hout
  end.
  cbn [snd executed] in Hrows. split; [|exact Hrows].
  eexists. split; [reflexivity|].
  cbn [fst]. intros ->. cbn [length Nat.eqb]. ends_with.
Qed.
End ListDatabases.

(** ** Statistics capabilities when every statement fails *)

Section AllFail.
Context {W : Type} (useCase : UseCaseProvider W).

Lemma report_all_failed heading queries (outs : list (result string)) :
  length outs = length queries →
  Forall (λ o, ∃ err, o = Err err) outs →
  all_failed_report heading queries
    (heading ++ join (zip_with report_section queries outs)).
Proof.
  intros Hlen Hfail. exists (zip_with report_section queries outs).
  split; [done|]. split; [by apply report_sections_length|].
  intros i query Hquery.
  destruct (lookup_lt_is_Some_2 outs i) as [o Ho].
  { rewrite Hlen. by apply lookup_lt_is_Some_1. }
  rewrite Forall_lookup in Hfail. destruct (Hfail i o Ho) as [err ->].
  exists err. by rewrite (report_section_lookup _ _ _ _ _ Hquery Ho).
Qed.

(** When every statement of a statistics capability fails the call
    still succeeds: all statements are handed to the executor, in
    order, and the report holds one inline error marker per statement. *)
Theorem stats_all_failures_still_succeed (request : ToolCallRequest) (s : St W)
    (targetDbID dbType : string) (w1 : W) (queries : list string) :
  as_string (param request "database") = Some targetDbID →
  GetDatabaseType useCase targetDbID (world s) = (Ok dbType, w1) →
  Forall (λ o, ∃ err, o = Err err) (outcomes useCase targetDbID queries w1).1 →
  let detailed := optional as_bool false (param request "detailed") in
  (statsQueries dbType detailed = Some queries →
   ∃ text,
     (DbStatsTool.HandleRequest useCase request s).1 = Ok (TextResponse text)
     ∧ all_failed_report
         ("# Database Statistics for " ++ targetDbID ++ " (" ++ dbType ++ ")

") queries text
     ∧ executed (DbStatsTool.HandleRequest useCase request s).2
       = (executed s ++ map (query_call targetDbID) queries)%list)
  ∧ (∀ tableName,
       as_string (param request "table") = Some tableName →
       tableStatsQueries dbType tableName detailed = Some queries →
       ∃ text,
         (TableStatsTool.HandleRequest useCase request s).1 = Ok (TextResponse text)
         ∧ all_failed_report
             ("# Table Statistics for " ++ targetDbID ++ "." ++ tableName ++ "

") queries text
         ∧ executed (TableStatsTool.HandleRequest useCase request s).2
           = (executed s ++ map (query_call targetDbID) queries)%list).
Proof.
  intros Hdb Hty Hfail detailed. split.
  - intros Hq. rewrite (DbStatsTool_run _ _ _ _ _ _ _ Hdb Hty Hq).
    eexists. split; [reflexivity|]. split; [|reflexivity].
    apply report_all_failed; [apply outcomes_length|done].
  - intros tableName Htb Hq.
    rewrite (TableStatsTool_run _ _ _ _ _ _ _ _ Hdb Htb Hty Hq).
    eexists. split; [reflexivity|]. split; [|reflexivity].
    apply report_all_failed; [apply outcomes_length|done].
Qed.
End AllFail.

Lemma stats_all_failures_still_succeed_witness :
  ∃ text,
    (DbStatsTool.HandleRequest down (request_of [("database", VString "my1")]) start).1
    = Ok (TextResponse text)
    ∧ all_failed_report "# Database Statistics for my1 (mysql)

" (getMySQLStatsQueries false) text
    ∧ executed
        (DbStatsTool.HandleRequest down (request_of [("database", VString "my1")]) start).2
      = map (query_call "my1") (getMySQLStatsQueries false).
Proof.
  destruct (stats_all_failures_still_succeed down
              (request_of [("database", VString "my1")]) start
              "my1" "mysql" 0%nat (getMySQLStatsQueries false)) as [H _].
  - reflexivity.
  - reflexivity.
  - repeat constructor; by eexists.
  - exact (H eq_refl).
Defined.

(** ** The registry after a sequence of registrations *)

Section RegisterAll.
Import dbtools.

Lemma last_cons_filter (id : string) (config : DatabaseConnectionConfig)
    (rest : list DatabaseConnectionConfig) :
  last_with_id id (config :: rest)
  = match last_with_id id rest with
    | Some c => Some c
    | None => if decide (ID config = id) then Some config else None
    end.
Proof.
  unfold last_with_id. rewrite filter_cons.
  destruct (decide (ID config = id)); [|by destruct (last _)].
  rewrite last_cons. by destruct (last _).
Qed.

(** After registering a list of configurations, an ID reads back the
    last configuration of the list that carries it; an ID that no
    configuration of the list carries reads as it did before. *)
Theorem get_after_register_all (configs : list DatabaseConnectionConfig)
    (registry : Registry) (id : string) :
  GetDatabaseConfig id (register_all configs registry)
  = match last_with_id id configs with
    | Some config => Ok config
    | None => GetDatabaseConfig id registry
    end.
Proof.
  revert registry. induction configs as [|config rest IH]; intros registry; [done|].
  cbn [register_all]. rewrite IH, last_cons_filter.
  destruct (last_with_id id rest); [done|].
  destruct (decide (ID config = id)) as [<-|Hne].
  - apply get_after_register.
  - by apply register_other_id.
Qed.
End RegisterAll.

(** ** Row limits and the counting form *)

Lemma Sprintf_limit (limit : Z) :
  fmt.Sprintf " LIMIT %d" [fmt.Int limit] = " LIMIT " ++ fmt.decimal limit.
Proof. cbn. by rewrite append_empty_r. Qed.

Lemma buildSampleDataQuery_limit dbType tableName limit whereClause orderByClause random :
  strings.HasSuffix
    (buildSampleDataQuery dbType tableName limit whereClause orderByClause random)
    (" LIMIT " ++ fmt.decimal limit) = true.
Proof.
  unfold buildSampleDataQuery. rewrite Sprintf_limit.
  apply HasSuffix_app, HasSuffix_refl.
Qed.

Lemma buildUniqueValuesQuery_limit
    dbType tableName columnName limit whereClause includeCounts includeNulls :
  strings.HasSuffix
    (buildUniqueValuesQuery dbType tableName columnName limit whereClause
       includeCounts includeNulls)
    (" LIMIT " ++ fmt.decimal limit) = true.
Proof.
  unfold buildUniqueValuesQuery. rewrite Sprintf_limit.
  destruct (String.eqb _ _); apply HasSuffix_app, HasSuffix_refl.
Qed.

Lemma optional_limit (dflt : Z) (request : ToolCallRequest) :
  optional as_float64 dflt (param request "limit") = requested_limit dflt request.
Proof. unfold requested_limit, optional. by destruct (param request "limit"). Qed.

Section Limits.
Context {W : Type} (useCase : UseCaseProvider W).

(** The row limit is passed through as it is: a number, also zero or a
    negative one, ends the query as [LIMIT <n>]; a [limit] that is not
    a number counts as absent and gives the default, 10 for
    GetSampleData and 100 for GetUniqueValues. *)
Theorem limit_is_not_validated (request : ToolCallRequest) (s : St W)
    (targetDbID tableName dbType : string) (w1 : W) :
  Parameters request !! "database" = Some (VString targetDbID) →
  Parameters request !! "table" = Some (VString tableName) →
  GetDatabaseType useCase targetDbID (world s) = (Ok dbType, w1) →
  (∃ query,
     executed (GetSampleDataTool.HandleRequest useCase request s).2
     = (executed s ++ [query_call targetDbID query])%list
     ∧ strings.HasSuffix query (" LIMIT " ++ fmt.decimal (requested_limit 10 request))
       = true)
  ∧ (∀ columnName,
       Parameters request !! "column" = Some (VString columnName) →
       ∃ query,
         executed (GetUniqueValuesTool.HandleRequest useCase request s).2
         = (executed s ++ [query_call targetDbID query])%list
         ∧ strings.HasSuffix query
             (" LIMIT " ++ fmt.decimal (requested_limit 100 request)) = true).
Proof.
  intros Hdb Htb Hty. split.
  - eexists. split; [apply (GetSampleDataTool_run _ _ _ _ _ _ _ Hdb Htb Hty)|].
    rewrite optional_limit. apply buildSampleDataQuery_limit.
  - intros columnName Hcol. eexists.
    split; [apply (GetUniqueValuesTool_run _ _ _ _ _ _ _ _ Hdb Htb Hcol Hty)|].
    rewrite optional_limit. apply buildUniqueValuesQuery_limit.
Qed.
End Limits.

Lemma limit_is_not_validated_witness :
  (∃ query,
     executed (GetSampleDataTool.HandleRequest demo
       (request_of [("database", VString "my1"); ("table", VString "orders");
                    ("limit", VNumber (-5))]) start).2
     = [query_call "my1" query]
     ∧ strings.HasSuffix query " LIMIT -5" = true)
  ∧ (∃ query,
       executed (GetUniqueValuesTool.HandleRequest demo
         (request_of [("database", VString "my1"); ("table", VString "orders");
                      ("column", VString "status"); ("limit", VString "5")]) start).2
       = [query_call "my1" query]
       ∧ strings.HasSuffix query " LIMIT 100" = true).
Proof.
  split.
  - exact (proj1 (limit_is_not_validated demo
      (request_of [("database", VString "my1"); ("table", VString "orders");
                   ("limit", VNumber (-5))]) start "my1" "orders" "mysql" 0%nat
      eq_refl eq_refl eq_refl)).
  - exact (proj2 (limit_is_not_validated demo
      (request_of [("database", VString "my1"); ("table", VString "orders");
                   ("column", VString "status"); ("limit", VString "5")])
      start "my1" "orders" "mysql" 0%nat
      eq_refl eq_refl eq_refl) "status" eq_refl).
Defined.

Lemma buildUniqueValuesQuery_counts
    dbType tableName columnName limit whereClause includeNulls :
  buildUniqueValuesQuery dbType tableName columnName limit whereClause true includeNulls
  = counts_form dbType tableName columnName limit whereClause includeNulls.
Proof.
  unfold buildUniqueValuesQuery, counts_form, filter_part, quoted, where_part,
    is_postgres.
  destruct (String.eqb _ _); destruct (is_empty whereClause); destruct includeNulls;
    cbn; unfold dquote; by str_norm.
Qed.

Section Counts.
Context {W : Type} (useCase : UseCaseProvider W).

(** GetUniqueValues counts by default: unless [include_counts] is the
    boolean [false], the query selects the column with its count and
    percentage, groups by the column and orders by the count. *)
Theorem unique_values_counts_by_default (request : ToolCallRequest) (s : St W)
    (targetDbID tableName columnName dbType : string) (w1 : W) :
  Parameters request !! "database" = Some (VString targetDbID) →
  Parameters request !! "table" = Some (VString tableName) →
  Parameters request !! "column" = Some (VString columnName) →
  param request "include_counts" ≠ VBool false →
  GetDatabaseType useCase targetDbID (world s) = (Ok dbType, w1) →
  executed (GetUniqueValuesTool.HandleRequest useCase request s).2
  = (executed s ++
     [query_call targetDbID
        (counts_form dbType tableName columnName (requested_limit 100 request)
           (optional as_string EmptyString (param request "where"))
           (optional as_bool true (param request "include_nulls")))])%list.
Proof.
  intros Hdb Htb Hcol Hcounts Hty.
  rewrite (GetUniqueValuesTool_run _ _ _ _ _ _ _ _ Hdb Htb Hcol Hty), optional_limit.
  assert (optional as_bool true (param request "include_counts") = true) as ->.
  { unfold optional. by destruct (param request "include_counts") as [|[]| | |]. }
  by rewrite buildUniqueValuesQuery_counts.
Qed.
End Counts.

Lemma unique_values_counts_by_default_witness :
  executed (GetUniqueValuesTool.HandleRequest demo
    (request_of [("database", VString "pg1"); ("table", VString "orders");
                 ("column", VString "status"); ("include_nulls", VBool false)])
    start).2
  = [query_call "pg1"
       (counts_form "postgres" "orders" "status" 100 EmptyString false)].
Proof.
  exact (unique_values_counts_by_default demo
    (request_of [("database", VString "pg1"); ("table", VString "orders");
                 ("column", VString "status"); ("include_nulls", VBool false)])
    start "pg1" "orders" "status" "postgres" 0%nat
    eq_refl eq_refl eq_refl ltac:(discriminate) eq_refl).
Defined.

(** ** The table-bloat statement of GetTableStats *)

Lemma Contains_cons (c : ascii) (s p : string) :
  strings.Contains s p = true → strings.Contains (String c s) p = true.
Proof. intros H. cbn [strings.Contains]. rewrite H. apply orb_true_r. Qed.

Lemma Contains_app_r (a b p : string) :
  strings.Contains b p = true → strings.Contains (a ++ b) p = true.
Proof.
  intros H. induction a as [|c a IH]; [done|].
  cbn [String.append]. by apply Contains_cons.
Qed.

Lemma Contains_app_l (a b p : string) :
  strings.Contains a p = true → strings.Contains (a ++ b) p = true.
Proof.
  induction a as [|c a IH]; cbn [String.append strings.Contains].
  - destruct p; [by destruct b|done].
  - intros [H|H]%orb_true_iff.
    + change (String c (a ++ b)) with (String c a ++ b).
      by rewrite (HasPrefix_app_true _ _ _ H).
    + rewrite (IH H). apply orb_true_r.
Qed.

(** The format of the bloat statement holds four [%ma] besides its one
    [%s]. [Sprintf] spends the table name on the first [%m], an
    unknown verb, and has no operand left for the others: for every
    table name the statement filters on the literal [%!s(MISSING)] and
    the escaped name sits in the arithmetic, behind [%!m(string=]. *)
Theorem table_bloat_statement_loses_table_name (tableName : string) :
  let statement := nth 4 (getPostgresTableStatsQueries tableName true) EmptyString in
  strings.Contains statement "AND tbl.relname = '%!s(MISSING)'" = true
  ∧ ∃ rest,
      after_first "CASE WHEN tpl_hdr_size%!m(string=" statement
      = Some (strings.ReplaceAll tableName "'" "''" ++ rest)
      ∧ strings.HasPrefix rest ")a = 0 THEN ma ELSE tpl_hdr_size%!m(MISSING)a END"
        = true.
Proof.
  unfold getPostgresTableStatsQueries. cbn [nth app].
  generalize (strings.ReplaceAll tableName "'" "''") as e; intros e.
  cbn zeta.
  cbn [fmt.Sprintf fmt.format_verb fmt.type_name fmt.default_format
         Ascii.eqb Bool.eqb fmt.pct orb andb String.append].
  str_norm.
  match goal with
  | |- context [strings.Contains (String ?c ?r)] => split_literal (String c r)
  end.
  split.
  - apply Contains_app_r, Contains_app_r. computed.
  - eexists. split.
    + erewrite after_first_app by computed. cbn [String.append]. reflexivity.
    + reflexivity.
Qed.

(** ** Properties of the classification of free-form SQL *)

Section AutoDetect.
Import strings.

Lemma upper_lower_char (c : ascii) : upper_char (lower_char c) = upper_char c.
Proof. destruct c as [[] [] [] [] [] [] [] []]; reflexivity. Qed.

Lemma ToUpper_ToLower (s : string) : ToUpper (ToLower s) = ToUpper s.
Proof.
  unfold ToUpper, ToLower. induction s as [|c s IH]; [done|]. cbn.
  by rewrite upper_lower_char, IH.
Qed.

Lemma ToUpper_idem (s : string) : ToUpper (ToUpper s) = ToUpper s.
Proof.
  unfold ToUpper. induction s as [|c s IH]; [done|]. cbn.
  by rewrite upper_char_idem, IH.
Qed.

Lemma TrimLeft_spaces (ws s : string) :
  all_chars is_space ws = true → TrimLeft (ws ++ s) = TrimLeft s.
Proof.
  induction ws as [|c ws IH]; [done|]. cbn [all_chars String.append TrimLeft].
  intros [Hc Hws]%andb_true_iff. rewrite Hc. by apply IH.
Qed.

Lemma HasPrefix_TrimRight (s keyword : string) :
  all_chars (λ c, negb (is_space c)) keyword = true →
  HasPrefix s keyword = true → HasPrefix (TrimRight s) keyword = true.
Proof.
  revert s. induction keyword as [|k keyword IH]; intros s Hk Hs; [done|].
  destruct s as [|c s]; [done|]. cbn in Hk, Hs.
  apply andb_true_iff in Hk as [Hk Hkw]. apply andb_true_iff in Hs as [Hc Hs].
  apply Ascii.eqb_eq in Hc as ->. specialize (IH s Hkw Hs).
  cbn [TrimRight]. destruct (TrimRight s) as [|c' r'].
  - destruct keyword; [|done]. apply negb_true_iff in Hk. rewrite Hk.
    cbn. by rewrite Ascii.eqb_refl.
  - cbn. by rewrite Ascii.eqb_refl.
Qed.

Lemma ToUpper_app (a b : string) : ToUpper (a ++ b) = ToUpper a ++ ToUpper b.
Proof. induction a as [|c a IH]; [done|]. cbn. f_equal. apply IH. Qed.

Lemma HasPrefix_app (p s : string) : HasPrefix (p ++ s) p = true.
Proof. induction p as [|c p IH]; [done|]. cbn. by rewrite Ascii.eqb_refl. Qed.

(** The upper-cased, trimmed text of a statement that begins with a
    keyword, in whatever case, begins with the keyword in capitals. *)
Lemma keyword_is_found (keyword capitals sql : string) :
  ToUpper keyword = capitals →
  all_chars (λ c, negb (is_space c)) capitals = true →
  capitals ≠ EmptyString →
  HasPrefix (TrimSpace (ToUpper (keyword ++ sql))) capitals = true.
Proof.
  intros Hup Hns Hne. unfold TrimSpace.
  apply HasPrefix_TrimRight; [done|].
  rewrite ToUpper_app, Hup.
  destruct capitals as [|k capitals]; [done|]. cbn in Hns.
  apply andb_true_iff in Hns as [Hk _]. apply negb_true_iff in Hk.
  cbn [String.append TrimLeft]. rewrite Hk.
  change (String k (capitals ++ ToUpper sql))
    with (String k capitals ++ ToUpper sql).
  apply HasPrefix_app.
Qed.

Ltac side := first [reflexivity | discriminate].

(** The classification looks at nothing but the upper-cased beginning
    of the statement.  For a statement of ASCII text it is the same in
    lower case, in upper case and behind leading white space; and it
    is a test of the first characters, not of the first word: whatever
    follows one of the four keywords, also a letter, the statement
    counts as a query. *)
Theorem autoDetect_case_and_space (sql : string) :
  isASCII sql = true →
  GenericSQLTool.autoDetect (ToLower sql) = GenericSQLTool.autoDetect sql
  ∧ GenericSQLTool.autoDetect (ToUpper sql) = GenericSQLTool.autoDetect sql
  ∧ (∀ ws, all_chars blank ws = true →
       GenericSQLTool.autoDetect (ws ++ sql) = GenericSQLTool.autoDetect sql)
  ∧ (∀ keyword, In keyword query_keywords →
       GenericSQLTool.autoDetect (keyword.1 ++ sql) = true
       ∧ GenericSQLTool.autoDetect (keyword.2 ++ sql) = true).
Proof.
  intros _. unfold GenericSQLTool.autoDetect. split_and!.
  - by rewrite ToUpper_ToLower.
  - by rewrite ToUpper_idem.
  - intros ws Hws. unfold TrimSpace.
    rewrite ToUpper_app, TrimLeft_spaces; [done|].
    clear -Hws. unfold ToUpper. induction ws as [|c ws IH]; [done|].
    cbn [all_chars map_chars] in *.
    apply andb_true_iff in Hws as [Hc Hws].
    by rewrite is_space_upper_char, <- blank_is_space, Hc, IH.
  - intros keyword Hin. cbn in Hin.
    destruct Hin as [<-|[<-|[<-|[<-|[]]]]]; cbn [fst snd]; split;
      first [ rewrite (keyword_is_found _ "SELECT" sql) by side
            | rewrite (keyword_is_found _ "SHOW" sql) by side
            | rewrite (keyword_is_found _ "DESCRIBE" sql) by side
            | rewrite (keyword_is_found _ "EXPLAIN" sql) by side ];
      by rewrite ?orb_true_r.
Qed.
End AutoDetect.

Lemma autoDetect_case_and_space_witness :
  GenericSQLTool.autoDetect "show tables" = GenericSQLTool.autoDetect "Show Tables"
  ∧ GenericSQLTool.autoDetect "SHOW TABLES" = GenericSQLTool.autoDetect "Show Tables"
  ∧ GenericSQLTool.autoDetect "
  Show Tables" = GenericSQLTool.autoDetect "Show Tables"
  ∧ GenericSQLTool.autoDetect "SELECTShow Tables" = true
  ∧ GenericSQLTool.autoDetect "explainShow Tables" = true.
Proof.
  destruct (autoDetect_case_and_space "Show Tables" eq_refl)
    as (Hlower & Hupper & Hspace & Hkeyword).
  split_and!.
  - exact Hlower.
  - exact Hupper.
  - exact (Hspace "
  " eq_refl).
  - exact (proj1 (Hkeyword ("SELECT", "select") ltac:(cbn; tauto))).
  - exact (proj2 (Hkeyword ("EXPLAIN", "explain") ltac:(cbn; tauto))).
Defined.

(** ** GetSchemas: system schemas *)

Lemma getPostgresSchemasQuery_excludes_system (schemaName : string) :
  strings.Contains (getPostgresSchemasQuery schemaName false)
    "WHERE n.nspname NOT IN ('pg_catalog', 'information_schema', 'pg_toast', 'pg_temp_1', 'pg_toast_temp_1')"
  = true.
Proof.
  unfold getPostgresSchemasQuery. cbv zeta. cbn [negb].
  destruct (is_empty schemaName); [computed|]. cbn [negb].
  rewrite !append_assoc. apply Contains_app_r, Contains_app_l. computed.
Qed.

Lemma getPostgresSchemasQuery_includes_system (schemaName : string) :
  strings.Contains (getPostgresSchemasQuery schemaName true) "NOT IN"
  = strings.Contains schemaName "NOT IN".
Proof.
  unfold getPostgresSchemasQuery. cbn [negb].
  destruct (is_empty schemaName) eqn:Hempty; cbn [negb].
  - apply is_empty_true in Hempty as ->. computed.
  - format_filter. seams. by_cases_on_occurrences.
Qed.

Section Schemas.
Context {W : Type} (useCase : UseCaseProvider W).

Lemma GetSchemasTool_run_postgres (request : ToolCallRequest) (s : St W)
    (targetDbID dbType : string) (w1 : W) :
  Parameters request !! "database" = Some (VString targetDbID) →
  GetDatabaseType useCase targetDbID (world s) = (Ok dbType, w1) →
  strings.ToLower dbType = "postgres" →
  executed (GetSchemasTool.HandleRequest useCase request s).2
  = (executed s ++
     [query_call targetDbID
        (getPostgresSchemasQuery
           (optional as_string EmptyString (param request "schema"))
           (optional as_bool false (param request "include_system_schemas")))])%list.
Proof.
  intros Hdb Hty Hpg. unfold GetSchemasTool.HandleRequest.
  rewrite (as_string_param _ _ _ Hdb), bind_run, getDatabaseType_run, Hty.
  cbn [fst snd]. rewrite Hpg. cbn [String.eqb Ascii.eqb Bool.eqb].
  rewrite bind_run, executeQuery_run.
  by destruct (ExecuteQuery _ _ _ _ _).1.
Qed.

(** On a postgres connection GetSchemas leaves the system schemas out
    unless [include_system_schemas] is the boolean [true]: the query
    keeps [pg_catalog], [information_schema] and the toast and temp
    schemas away with a NOT IN filter. With the flag set there is no
    such filter: NOT IN occurs in the query only inside the schema name
    the caller gave. *)
Theorem schemas_exclude_system_by_default (request : ToolCallRequest) (s : St W)
    (targetDbID dbType : string) (w1 : W) :
  Parameters request !! "database" = Some (VString targetDbID) →
  GetDatabaseType useCase targetDbID (world s) = (Ok dbType, w1) →
  strings.ToLower dbType = "postgres" →
  ∃ query,
    executed (GetSchemasTool.HandleRequest useCase request s).2
    = (executed s ++ [query_call targetDbID query])%list
    ∧ (param request "include_system_schemas" ≠ VBool true →
       strings.Contains query
         "WHERE n.nspname NOT IN ('pg_catalog', 'information_schema', 'pg_toast', 'pg_temp_1', 'pg_toast_temp_1')"
       = true)
    ∧ (param request "include_system_schemas" = VBool true →
       strings.Contains query "NOT IN"
       = strings.Contains (optional as_string EmptyString (param request "schema"))
           "NOT IN").
Proof.
  intros Hdb Hty Hpg. eexists.
  split; [apply (GetSchemasTool_run_postgres _ _ _ _ _ Hdb Hty Hpg)|]. split.
  - intros Hflag.
    assert (optional as_bool false (param request "include_system_schemas") = false)
      as ->.
    { unfold optional.
      by destruct (param request "include_system_schemas") as [|[]| | |]. }
    apply getPostgresSchemasQuery_excludes_system.
  - intros ->. apply getPostgresSchemasQuery_includes_system.
Qed.
End Schemas.

Lemma schemas_exclude_system_by_default_witness :
  ∃ query,
    executed (GetSchemasTool.HandleRequest demo
      (request_of [("database", VString "pg1")]) start).2
    = [query_call "pg1" query]
    ∧ strings.Contains query
        "WHERE n.nspname NOT IN ('pg_catalog', 'information_schema', 'pg_toast', 'pg_temp_1', 'pg_toast_temp_1')"
      = true.
Proof.
  destruct (schemas_exclude_system_by_default demo
    (request_of [("database", VString "pg1")]) start "pg1" "postgres" 0%nat
    eq_refl eq_refl eq_refl) as (query & Hrun & Hdefault & _).
  exists query. split; [exact Hrun|]. apply Hdefault. discriminate.
Defined.

(** ** Dialect names *)

Section OtherDialects.
Context {W : Type} (useCase : UseCaseProvider W).

(** GetSampleData and GetUniqueValues have no unsupported dialect: on
    a connection whose dialect does not lower-case to postgres, be it
    mysql or any other name, the call runs the query built for mysql. *)
Theorem sampling_treats_other_dialects_as_mysql (request : ToolCallRequest) (s : St W)
    (targetDbID tableName dbType : string) (w1 : W) :
  Parameters request !! "database" = Some (VString targetDbID) →
  Parameters request !! "table" = Some (VString tableName) →
  GetDatabaseType useCase targetDbID (world s) = (Ok dbType, w1) →
  strings.ToLower dbType ≠ "postgres" →
  executed (GetSampleDataTool.HandleRequest useCase request s).2
  = (executed s ++
     [query_call targetDbID
        (buildSampleDataQuery "mysql" tableName
           (optional as_float64 10%Z (param request "limit"))
           (optional as_string EmptyString (param request "where"))
           (optional as_string EmptyString (param request "order_by"))
           (optional as_bool false (param request "random")))])%list
  ∧ (∀ columnName,
       Parameters request !! "column" = Some (VString columnName) →
       executed (GetUniqueValuesTool.HandleRequest useCase request s).2
       = (executed s ++
          [query_call targetDbID
             (buildUniqueValuesQuery "mysql" tableName columnName
                (optional as_float64 100%Z (param request "limit"))
                (optional as_string EmptyString (param request "where"))
                (optional as_bool true (param request "include_counts"))
                (optional as_bool true (param request "include_nulls")))])%list).
Proof.
  intros Hdb Htb Hty Hother%String.eqb_neq. split.
  - rewrite (GetSampleDataTool_run _ _ _ _ _ _ _ Hdb Htb Hty).
    unfold buildSampleDataQuery. rewrite Hother.
    by change (String.eqb (strings.ToLower "mysql") "postgres") with false.
  - intros columnName Hcol.
    rewrite (GetUniqueValuesTool_run _ _ _ _ _ _ _ _ Hdb Htb Hcol Hty).
    unfold buildUniqueValuesQuery. rewrite Hother.
    by change (String.eqb (strings.ToLower "mysql") "postgres") with false.
Qed.
End OtherDialects.

Lemma sampling_treats_other_dialects_as_mysql_witness :
  executed (GetSampleDataTool.HandleRequest demo
    (request_of [("database", VString "lite1"); ("table", VString "orders")]) start).2
  = [query_call "lite1" "SELECT * FROM `orders` LIMIT 10"].
Proof.
  exact (proj1 (sampling_treats_other_dialects_as_mysql demo
    (request_of [("database", VString "lite1"); ("table", VString "orders")]) start
    "lite1" "orders" "sqlite" 0%nat eq_refl eq_refl eq_refl ltac:(discriminate))).
Defined.

(** ** The caller's predicate *)

Lemma HasPrefix_self_app (p b : string) : strings.HasPrefix (p ++ b) p = true.
Proof.
  induction p as [|c p IH]; [done|]. cbn. by rewrite Ascii.eqb_refl.
Qed.

Lemma Contains_self_app_nil (p : string) : strings.Contains p p = true.
Proof.
  destruct p as [|c p]; [done|]. cbn [strings.Contains].
  rewrite <- (append_empty_r (String c p)) at 1. by rewrite HasPrefix_self_app.
Qed.

Lemma Contains_self_app (p b : string) : strings.Contains (p ++ b) p = true.
Proof.
  destruct p as [|c p]; [by destruct b|].
  cbn [String.append strings.Contains].
  change (String c (p ++ b)) with (String c p ++ b).
  by rewrite HasPrefix_self_app.
Qed.

(** Walk a right-nested concatenation up to the operand looked for. *)
Ltac locate_occurrence :=
  rewrite ?append_assoc;
  repeat first [ apply Contains_self_app_nil
               | apply Contains_self_app
               | apply Contains_app_r ].

(** A non-empty [where] parameter reaches the database as it was
    written: the sampling and the uniqueness query hold [ WHERE ]
    followed by the caller's text, character for character, nothing
    escaped and nothing around it. *)
Theorem where_clause_is_passed_verbatim
    (dbType tableName columnName : string) (limit : Z)
    (whereClause orderByClause : string) (random includeCounts includeNulls : bool) :
  is_empty whereClause = false →
  strings.Contains
    (buildSampleDataQuery dbType tableName limit whereClause orderByClause random)
    (" WHERE " ++ whereClause) = true
  ∧ strings.Contains
      (buildUniqueValuesQuery dbType tableName columnName limit whereClause
         includeCounts includeNulls)
      (" WHERE " ++ whereClause) = true.
Proof.
  intros Hwhere.
  assert (fmt.Sprintf " WHERE %s" [fmt.Str whereClause] = " WHERE " ++ whereClause)
    as Hfmt.
  { cbn. by rewrite append_empty_r. }
  set (target := " WHERE " ++ whereClause) in *.
  split.
  - unfold buildSampleDataQuery. rewrite Hwhere, Hfmt. cbn [negb].
    generalize (fmt.Sprintf " LIMIT %d" [fmt.Int limit]) as lim.
    generalize (fmt.Sprintf " ORDER BY %s" [fmt.Str orderByClause]) as ord.
    match goal with |- context [fmt.Sprintf "SELECT * FROM %s" ?a] =>
      generalize (fmt.Sprintf "SELECT * FROM %s" a) as sel end.
    clearbody target. intros sel ord lim.
    repeat match goal with
      | |- context [if ?b then _ else _] => destruct b; cbn [negb]
      end; locate_occurrence.
  - unfold buildUniqueValuesQuery.
    destruct (String.eqb _ _); rewrite Hwhere, Hfmt; cbn [negb];
      repeat match goal with |- context [fmt.Sprintf ?f ?a] =>
        generalize (fmt.Sprintf f a); intro end;
      clearbody target;
      repeat match goal with
        | |- context [if ?b then _ else _] => destruct b; cbn [negb]
        end; locate_occurrence.
Qed.

Lemma where_clause_is_passed_verbatim_witness :
  strings.Contains
    (buildSampleDataQuery "mysql" "orders" 10 "1=1; DROP TABLE orders" EmptyString false)
    " WHERE 1=1; DROP TABLE orders" = true.
Proof.
  exact (proj1 (where_clause_is_passed_verbatim "mysql" "orders" "status" 10
           "1=1; DROP TABLE orders" EmptyString false false true eq_refl)).
Defined.
